(** * Squad-Props front-end: the retrying caller and the batch aggregators

    A shallow embedding of the two pages of the repository,
    [src/unnamed/part_000] (the leaderboard page) and
    [src/app/history/page.tsx] (the history page), and the properties
    of their data-loading code: the [robustFetch] retry helper, the
    windowed scans of [loadLeaderboard] and [loadHistory], the
    de-duplication of participants, the ranking, and what the two
    components return to React once a run has ended. *)

From Stdlib Require Import ZArith List String Ascii Bool Lia Permutation Sorted.
Import ListNotations.

Local Open Scope string_scope.
Local Open Scope list_scope.
Local Open Scope Z_scope.

Set Implicit Arguments.

(* ================================================================== *)
(** * JavaScript values *)
(* ================================================================== *)

Module JS.

(** The values the pages handle are what [cvToJSON] decodes a contract
    response into: [null], booleans, strings, arrays and objects (with
    integers carried as decimal strings), plus [undefined] for a missing
    property.  [any] in the source is this type. *)
#[local] Unset Elimination Schemes.
Inductive json : Type :=
| JUndef
| JNull
| JBool (b : bool)
| JStr (s : string)
| JArr (items : list json)
| JObj (fields : list (string * json)).
#[local] Set Elimination Schemes.

(** A JS number as the pages use it: the result of [parseInt] and of
    [+], [-], [Math.min], [Math.max] on such results is an integer or
    [NaN].  Integers are kept exact, as they are in a double from
    -2^53 to 2^53.  A double rounds beyond that range; the model does
    not, and the properties that depend on the arithmetic of a scan
    are stated for numbers of the range ([Spec.safe]). *)
Inductive number : Type :=
| NaN
| Int (z : Z).

(** What a [throw] carries: the [TypeError] of a property read on
    [undefined] or [null] or of the call of what is no function; the
    error [uintCV] or [principalCV] throws on a value it does not
    accept; the rejection of a remote call. *)
Inductive exn : Type :=
| TypeError
| NotAUint (value : number)
| NotAPrincipal (value : json)
| Rejected (reason : string).

(** ToBoolean. *)
Definition truthy (v : json) : bool :=
  match v with
  | JUndef | JNull => false
  | JBool b => b
  | JStr s => negb (String.eqb s "")
  | JArr _ | JObj _ => true
  end.

Definition nullish (v : json) : bool :=
  match v with
  | JUndef | JNull => true
  | _ => false
  end.

Fixpoint assoc (k : string) (fields : list (string * json)) : json :=
  match fields with
  | [] => JUndef
  | (k', v) :: rest => if String.eqb k k' then v else assoc k rest
  end.

(** [o[k]] for an [o] that is neither [undefined] nor [null].  The keys
    the pages read ([value], [giver], [receiver], [amount], [message],
    [timestamp], [props-received], [props-given]) are no built-in
    property of a string, a boolean or an array, so only an object
    answers with something else than [undefined]. *)
Definition prop (o : json) (k : string) : json :=
  match o with
  | JObj fields => assoc k fields
  | _ => JUndef
  end.

(** [o.k]: a [TypeError] on [undefined] and [null]. *)
Definition get (o : json) (k : string) : exn + json :=
  if nullish o then inl TypeError else inr (prop o k).

(** [o?.k]. *)
Definition getOpt (o : json) (k : string) : json :=
  if nullish o then JUndef else prop o k.

(** [a || b]. *)
Definition or_else (a b : json) : json :=
  if truthy a then a else b.

(** [a === b] and the SameValueZero comparison of a [Set], which agree
    on these values.  Objects and arrays compare by reference: a decoded
    response is a tree, two of its nodes are never the same reference,
    and a node is never compared with itself by the pages. *)
Definition strictEq (a b : json) : bool :=
  match a, b with
  | JUndef, JUndef => true
  | JNull, JNull => true
  | JBool x, JBool y => Bool.eqb x y
  | JStr x, JStr y => String.eqb x y
  | _, _ => false
  end.

(** ** parseInt *)

(** A string holds code units below 256, one per character.  The
    white space and line terminators of that range: tab, line feed,
    vertical tab, form feed, carriage return, space and no-break
    space. *)
Definition isWhiteSpace (c : ascii) : bool :=
  let n := nat_of_ascii c in
  (Nat.eqb n 9 || Nat.eqb n 10 || Nat.eqb n 11 || Nat.eqb n 12
   || Nat.eqb n 13 || Nat.eqb n 32 || Nat.eqb n 160)%bool.

Fixpoint trimStart (s : string) : string :=
  match s with
  | String c rest => if isWhiteSpace c then trimStart rest else s
  | EmptyString => s
  end.

Definition digitValue (c : ascii) : option Z :=
  let n := Z.of_nat (nat_of_ascii c) in
  if (48 <=? n) && (n <=? 57) then Some (n - 48)
  else if (97 <=? n) && (n <=? 102) then Some (n - 87)
  else if (65 <=? n) && (n <=? 70) then Some (n - 55)
  else None.

(** The longest prefix of radix-[radix] digits, as [Some] of its value,
    or [None] when the prefix is empty; [acc] holds the digits read. *)
Fixpoint digits (radix : Z) (s : string) (acc : option Z) : option Z :=
  match s with
  | String c rest =>
      match digitValue c with
      | Some d =>
          if d <? radix
          then digits radix rest
                 (Some (match acc with Some a => a * radix + d | None => d end))
          else acc
      | None => acc
      end
  | EmptyString => acc
  end.

Definition parseIntString (s : string) : number :=
  let s := trimStart s in
  let '(sign, s) :=
    match s with
    | String "-" rest => (-1, rest)
    | String "+" rest => (1, rest)
    | _ => (1, s)
    end in
  let '(radix, s) :=
    match s with
    | String "0" (String "x" rest) => (16, rest)
    | String "0" (String "X" rest) => (16, rest)
    | _ => (10, s)
    end in
  match digits radix s None with
  | Some n => Int (sign * n)
  | None => NaN
  end.

(** [parseInt(v)] converts [v] to a string first.  An array prints as
    its elements joined by commas, so only its first element is read;
    [undefined], [null], booleans and objects print as text without a
    leading digit.  The value of the digits is exact here; JavaScript
    rounds it to a double when it is beyond the safe range. *)
Fixpoint parseInt (v : json) : number :=
  match v with
  | JStr s => parseIntString s
  | JArr (x :: _) => parseInt x
  | _ => NaN
  end.

(** ** Arithmetic with NaN *)

Definition Math_min (a b : number) : number :=
  match a, b with
  | Int x, Int y => Int (Z.min x y)
  | _, _ => NaN
  end.

Definition Math_max (a b : number) : number :=
  match a, b with
  | Int x, Int y => Int (Z.max x y)
  | _, _ => NaN
  end.

Definition sub (a b : number) : number :=
  match a, b with
  | Int x, Int y => Int (x - y)
  | _, _ => NaN
  end.

(** [a === b] on numbers: [NaN] equals nothing. *)
Definition numEq (a b : number) : bool :=
  match a, b with
  | Int x, Int y => x =? y
  | _, _ => false
  end.

(** ** Array.prototype.sort

    [sort] orders by the sign of the comparator's result and is stable
    (ECMAScript 2019).  With a comparator that is a consistent
    ordering the result is determined, and it is computed here by
    insertion.  A comparator that answers [NaN] is not consistent and
    leaves the order to the engine: the properties of the order are
    stated for keys without [NaN]. *)
Definition comesAfter (c : number) : bool :=
  match c with
  | Int z => 0 <? z
  | NaN => false
  end.

Section Sort.
Variable A : Type.
Variable compareFn : A -> A -> number.

Fixpoint insert (x : A) (l : list A) : list A :=
  match l with
  | [] => [x]
  | y :: rest =>
      if comesAfter (compareFn x y) then y :: insert x rest
      else x :: l
  end.

Fixpoint sort (l : list A) : list A :=
  match l with
  | [] => []
  | x :: rest => insert x (sort rest)
  end.
End Sort.

(** [arr.slice(-n)] for [n > 0]: the last [n] elements, or all of
    them when there are fewer. *)
Definition slice_last (A : Type) (n : nat) (l : list A) : list A :=
  skipn (List.length l - n)%nat l.

End JS.
Import JS.

(* ================================================================== *)
(** * Remote calls, events and the effect monad *)
(* ================================================================== *)

Module Effects.

(** The arguments [uintCV] and [principalCV] build, from the value
    they were given. *)
Inductive ClarityValue : Type :=
| UIntCV (value : number)
| PrincipalCV (address : json).

(** Code that only reads values: a result or a thrown exception. *)
Definition E (A : Type) : Type := (exn + A)%type.

Definition bindE (A B : Type) (m : E A) (f : A -> E B) : E B :=
  match m with
  | inr a => f a
  | inl e => inl e
  end.

(** [uintCV(value)] of [@stacks/transactions]: the value must be an
    integer, and not a negative one.  (The library also refuses an
    integer of 2^128 or more, which no number of the safe range
    is.) *)
Definition uintCV (value : number) : E ClarityValue :=
  match value with
  | Int z => if 0 <=? z then inr (UIntCV value) else inl (NotAUint value)
  | NaN => inl (NotAUint value)
  end.

(** [principalCV(address)] of [@stacks/transactions]: the value must
    be a string, and one that the library decodes as an address.  The
    decoder (c32check) is not part of this repository: [isPrincipal]
    stands for it. *)
Definition principalCV (isPrincipal : string -> bool) (address : json)
  : E ClarityValue :=
  match address with
  | JStr s => if isPrincipal s then inr (PrincipalCV address)
              else inl (NotAPrincipal address)
  | _ => inl (NotAPrincipal address)
  end.

(** The options object handed to [fetchCallReadOnlyFunction]; the
    [network] is the same constant in every call and is left out. *)
Record request : Type := {
  contractAddress : string;
  contractName : string;
  functionName : string;
  functionArgs : list ClarityValue;
  senderAddress : json
}.

(** [interface LeaderboardUser] and the rank-less records of
    [userStats]. *)
Record UserStats : Type := {
  stats_address : json;
  stats_propsReceived : number;
  stats_propsGiven : number
}.

Record LeaderboardUser : Type := {
  address : json;
  propsReceived : number;
  propsGiven : number;
  rank : Z
}.

(** [type TabType] and [interface HistoryItem]. *)
Inductive TabType : Type := TabAll | TabReceived | TabGiven.

Inductive ItemType : Type := received | given.

Record HistoryItem : Type := {
  id : number;
  type : ItemType;
  from : json;
  to : json;
  amount : number;
  message : json;
  blockHeight : number
}.

(** What a run does to the outside: timer waits, remote calls, console
    output and React state updates, in the order they happen. *)
Inductive event : Type :=
| Sleep (ms : Z)
| Called (req : request)
| ConsoleWarn (text : string) (attempt retries : Z)
| ConsoleError (text : string) (error : exn)
| SetIsLoading (b : bool)
| SetTopUsers (users : list LeaderboardUser)
| SetHistoryItems (items : list HistoryItem).

(** The remote calls of a run, in order. *)
Fixpoint calls (t : list event) : list request :=
  match t with
  | [] => []
  | Called req :: rest => req :: calls rest
  | _ :: rest => calls rest
  end.

(** The timer waits of a run, in order. *)
Fixpoint sleeps (t : list event) : list Z :=
  match t with
  | [] => []
  | Sleep ms :: rest => ms :: sleeps rest
  | _ :: rest => sleeps rest
  end.

(** The React state updates of a run, in order. *)
Definition isUpdate (ev : event) : bool :=
  match ev with
  | SetIsLoading _ | SetTopUsers _ | SetHistoryItems _ => true
  | _ => false
  end.

Definition updates (t : list event) : list event := filter isUpdate t.

(** The value of the [topUsers] state after a run: [useState([])], then
    the last [setTopUsers]. *)
Definition topUsersAfter (t : list event) : list LeaderboardUser :=
  fold_left (fun st ev => match ev with SetTopUsers l => l | _ => st end) t [].

(** The value of the [historyItems] state after a run. *)
Definition historyItemsAfter (t : list event) : list HistoryItem :=
  fold_left (fun st ev => match ev with SetHistoryItems l => l | _ => st end) t [].

(** The [isLoading] state after a run that started with [init]. *)
Definition isLoadingAfter (init : bool) (t : list event) : bool :=
  fold_left (fun st ev => match ev with SetIsLoading b => b | _ => st end) t init.

(** How the body of a loop iteration of [robustFetch] ends: by its
    [return], or by reaching the end of the [catch] block. *)
Inductive completion (A : Type) : Type :=
| Returned (a : A)
| Fallthrough.
Arguments Fallthrough {A}.

Section Monad.
(** The state of the remote endpoint, which a call may read and
    change (rate limiting, outages, the chain advancing). *)
Variable W : Type.

(** An asynchronous computation, awaited step by step: from the state
    of the remote endpoint to a result or a thrown exception, the new
    state, and the events of the run. *)
Definition M (A : Type) : Type := W -> (exn + A) * W * list event.

Definition ret (A : Type) (a : A) : M A := fun w => (inr a, w, []).

Definition throw (A : Type) (e : exn) : M A := fun w => (inl e, w, []).

Definition lift (A : Type) (r : E A) : M A := fun w => (r, w, []).

Definition emit (ev : event) : M unit := fun w => (inr tt, w, [ev]).

Definition bind (A B : Type) (m : M A) (f : A -> M B) : M B :=
  fun w =>
    match m w with
    | (inr a, w1, t1) => let '(r, w2, t2) := f a w1 in (r, w2, t1 ++ t2)
    | (inl e, w1, t1) => (inl e, w1, t1)
    end.

(** [try { m } catch (error) { handler error }]. *)
Definition try_catch (A : Type) (m : M A) (handler : exn -> M A) : M A :=
  fun w =>
    match m w with
    | (inl e, w1, t1) => let '(r, w2, t2) := handler e w1 in (r, w2, t1 ++ t2)
    | (inr a, w1, t1) => (inr a, w1, t1)
    end.

(** [try { m } finally { cleanup }]. *)
Definition try_finally (A : Type) (m : M A) (cleanup : M unit) : M A :=
  fun w =>
    let '(r, w1, t1) := m w in
    match cleanup w1 with
    | (inr _, w2, t2) => (r, w2, t1 ++ t2)
    | (inl e, w2, t2) => (inl e, w2, t1 ++ t2)
    end.
End Monad.

Arguments ret {W A} a.
Arguments throw {W A} e.
Arguments lift {W A} r.
Arguments emit {W} ev.
Arguments bind {W A B} m f.
Arguments try_catch {W A} m handler.
Arguments try_finally {W A} m cleanup.

End Effects.
Import Effects.

Declare Scope js_scope.
Delimit Scope js_scope with js.
Notation "x <- m ;; k" := (bind m (fun x => k))
  (at level 61, m at next level, right associativity) : js_scope.
Notation "m ;; k" := (bind m (fun _ => k))
  (at level 61, right associativity) : js_scope.
Notation "x <~ m ;; k" := (bindE m (fun x => k))
  (at level 61, m at next level, right associativity) : js_scope.
Local Open Scope js_scope.

(* ================================================================== *)
(** * The code shared by the two pages *)
(* ================================================================== *)

Module Shared.
Section Shared.
Variable W : Type.

(** The remote endpoint: the answer of a read-only contract call,
    already decoded as [cvToJSON] shows it, or its rejection. *)
Variable respond : request -> W -> (exn + json) * W.

(** One call of the [@stacks/transactions] function. *)
Definition fetchCallReadOnlyFunction (req : request) : M W json :=
  fun w => let '(r, w') := respond req w in (r, w', [Called req]).

(** The closure [() => fetchCallReadOnlyFunction({ ..., functionArgs:
    [arg], ... })] that the pages hand to [robustFetch]: the argument
    is built when the closure runs, and what its constructor throws is
    thrown by the closure, before any call. *)
Definition callWith (arg : E ClarityValue) (options : ClarityValue -> request)
  : M W json :=
  match arg with
  | inr cv => fetchCallReadOnlyFunction (options cv)
  | inl e => throw e
  end.

(** [cvToJSON(result)], where [result] is what [robustFetch] resolved
    with: the decoder reads [result.type] and so throws on
    [undefined]. *)
Definition cvToJSON (result : option json) : E json :=
  match result with
  | Some v => inr v
  | None => inl TypeError
  end.

(** [await new Promise(resolve => setTimeout(resolve, ms))]. *)
Definition sleep (ms : Z) : M W unit := emit (Sleep ms).

(** The loop of [robustFetch] from iteration [i] on.  [fuel] bounds
    the iterations left and is [retries - i] in every use, so its end
    is the end of the loop.  [warns] tells the two copies of the
    helper apart: the leaderboard's logs a warning before it backs
    off, the history page's does not. *)
Fixpoint robustFetch_from (A : Type) (fuel : nat) (warns : bool)
    (fn : M W A) (retries delayMs i : Z) : M W (option A) :=
  match fuel with
  | O => ret None
  | S fuel' =>
      if i <? retries then
        c <- try_catch
               (sleep delayMs ;;
                r <- fn ;;
                ret (Returned r))
               (fun error =>
                  if i =? retries - 1 then throw error
                  else
                    (if warns
                     then emit (ConsoleWarn "Fetch failed, retrying" (i + 1) retries)
                     else ret tt) ;;
                    sleep (delayMs * 2 ^ i) ;;
                    ret Fallthrough) ;;
        match c with
        | Returned r => ret (Some r)
        | Fallthrough => robustFetch_from fuel' warns fn retries delayMs (i + 1)
        end
      else ret None
  end.

Definition robustFetchWith (A : Type) (warns : bool)
    (fn : M W A) (retries delayMs : Z) : M W (option A) :=
  robustFetch_from (Z.to_nat retries) warns fn retries delayMs 0.

(** [for (let i = start; i < stop; i++) body], the body threading the
    collection it updates.  [fuel] is [stop - start]. *)
Fixpoint for_up (A : Type) (fuel : nat) (i stop : Z)
    (body : Z -> A -> M W A) (acc : A) : M W A :=
  match fuel with
  | O => ret acc
  | S fuel' =>
      if i <? stop then
        acc' <- body i acc ;;
        for_up fuel' (i + 1) stop body acc'
      else ret acc
  end.

(** [for (let i = start; i >= stop; i--) body]; [fuel] is
    [start - stop + 1]. *)
Fixpoint for_down (A : Type) (fuel : nat) (i stop : Z)
    (body : Z -> A -> M W A) (acc : A) : M W A :=
  match fuel with
  | O => ret acc
  | S fuel' =>
      if i >=? stop then
        acc' <- body i acc ;;
        for_down fuel' (i - 1) stop body acc'
      else ret acc
  end.

(** The same loops on JS numbers: a comparison with [NaN] is false,
    so the body never runs.  The counter is exact here; in a double
    [i + 1] and [i - 1] are exact for bounds of the safe range, beyond
    which the counter of the source can stop advancing. *)
Definition forUp (A : Type) (start stop : number)
    (body : Z -> A -> M W A) (acc : A) : M W A :=
  match start, stop with
  | Int a, Int b => for_up (Z.to_nat (b - a)) a b body acc
  | _, _ => ret acc
  end.

Definition forDown (A : Type) (start stop : number)
    (body : Z -> A -> M W A) (acc : A) : M W A :=
  match start, stop with
  | Int a, Int b => for_down (Z.to_nat (a - b + 1)) a b body acc
  | _, _ => ret acc
  end.

(** [for (const x of xs) body]. *)
Fixpoint for_of (X A : Type) (xs : list X)
    (body : X -> A -> M W A) (acc : A) : M W A :=
  match xs with
  | [] => ret acc
  | x :: rest =>
      acc' <- body x acc ;;
      for_of rest body acc'
  end.

(** [propsJSON.value?.value?.value || propsJSON.value?.value]. *)
Definition propDataOf (propsJSON : json) : E json :=
  v <~ get propsJSON "value" ;;
  inr (or_else (getOpt (getOpt v "value") "value") (getOpt v "value")).

(** [counterJSON.value ? parseInt(counterJSON.value.value) : 0]. *)
Definition totalPropsOf (counterJSON : json) : E number :=
  v <~ get counterJSON "value" ;;
  if truthy v then inr (parseInt (prop v "value")) else inr (Int 0).

(** [Math.max(0, totalProps - Math.min(cap, totalProps))], the
    [startIndex] of a scan of at most [cap] records. *)
Definition startIndexOf (cap : Z) (totalProps : number) : number :=
  let limit := Math_min (Int cap) totalProps in
  Math_max (Int 0) (sub totalProps limit).
End Shared.
End Shared.
Import Shared.

(* ================================================================== *)
(** * The leaderboard page ([src/unnamed/part_000]) *)
(* ================================================================== *)

Module Leaderboard.
Section Page.
Variable W : Type.
Variable respond : request -> W -> (exn + json) * W.

(** The constants of [@/config]. *)
Variable CONTRACT_ADDRESS : string.
Variable CONTRACT_NAME : string.

(** [robustFetch(fn, retries = 3, delayMs = 500)]. *)
Definition robustFetch (A : Type) (fn : M W A) (retries delayMs : Z)
  : M W (option A) :=
  robustFetchWith true fn retries delayMs.

Definition counterRequest : request :=
  {| contractAddress := CONTRACT_ADDRESS;
     contractName := CONTRACT_NAME;
     functionName := "get-current-props-id";
     functionArgs := [];
     senderAddress := JStr CONTRACT_ADDRESS |}.

(** The options of the lookup of a record (lines 70 to 77), from the
    argument [uintCV(i)] built. *)
Definition propsCall (arg : ClarityValue) : request :=
  {| contractAddress := CONTRACT_ADDRESS;
     contractName := CONTRACT_NAME;
     functionName := "get-props-by-id";
     functionArgs := [arg];
     senderAddress := JStr CONTRACT_ADDRESS |}.

(** The call made for the index [i], when [uintCV] accepts it. *)
Definition propsRequest (i : Z) : request := propsCall (UIntCV (Int i)).

Definition fetchProps (i : Z) : M W json :=
  callWith respond (uintCV (Int i)) propsCall.

(** The options of the lookup of the statistics (lines 106 to 113),
    from the argument [principalCV(address)] built. *)
Definition statsCall (address : json) (arg : ClarityValue) : request :=
  {| contractAddress := CONTRACT_ADDRESS;
     contractName := CONTRACT_NAME;
     functionName := "get-user-stats";
     functionArgs := [arg];
     senderAddress := address |}.

(** The call made for [address], when [principalCV] accepts it. *)
Definition statsRequest (address : json) : request :=
  statsCall address (PrincipalCV address).

(** Which strings [principalCV] accepts. *)
Variable isPrincipal : string -> bool.

Definition fetchUserStats (address : json) : M W json :=
  callWith respond (principalCV isPrincipal address) (statsCall address).

(** [uniqueUsers.add(x)] on a [Set], kept in insertion order as
    [Array.from] reads it. *)
Definition Set_add (x : json) (s : list json) : list json :=
  if existsb (strictEq x) s then s else s ++ [x].

(** The body of the scan loop (lines 69 to 89) at index [i]. *)
Definition scanProps (i : Z) (uniqueUsers : list json) : M W (list json) :=
  try_catch
    (propsResult <- robustFetch (fetchProps i) 3 500 ;;
     propsJSON <- lift (cvToJSON propsResult) ;;
     propData <- lift (propDataOf propsJSON) ;;
     if truthy propData
        && truthy (prop propData "giver")
        && truthy (prop propData "receiver")
     then
       ret (Set_add (prop (prop propData "receiver") "value")
              (Set_add (prop (prop propData "giver") "value") uniqueUsers))
     else ret uniqueUsers)
    (fun error =>
       emit (ConsoleError "Error fetching props" error) ;;
       ret uniqueUsers).

(** Lines 63 to 90: the window and the scan loop, for a window of at
    most [cap] records. *)
Definition scanRecent (cap : Z) (totalProps : number) : M W (list json) :=
  let startIndex := startIndexOf cap totalProps in
  forUp startIndex totalProps scanProps [].

(** The body of the statistics loop (lines 105 to 125). *)
Definition fetchStats (address : json) (userStats : list UserStats)
  : M W (list UserStats) :=
  try_catch
    (statsResult <- robustFetch (fetchUserStats address) 3 500 ;;
     statsJSON <- lift (cvToJSON statsResult) ;;
     v <- lift (get statsJSON "value") ;;
     if truthy (getOpt v "value") then
       received <- lift (get (prop (prop v "value") "props-received") "value") ;;
       given <- lift (get (prop (prop v "value") "props-given") "value") ;;
       ret (userStats ++
              [ {| stats_address := address;
                   stats_propsReceived := parseInt received;
                   stats_propsGiven := parseInt given |} ])
     else ret userStats)
    (fun error =>
       emit (ConsoleError "Error fetching stats" error) ;;
       ret userStats).

(** [(a, b) => b.propsReceived - a.propsReceived]. *)
Definition byPropsReceived (a b : UserStats) : number :=
  sub (stats_propsReceived b) (stats_propsReceived a).

(** [sorted.map((user, index) => ({ ...user, rank: index + 1 }))],
    from position [index] on. *)
Fixpoint withRanks (index : Z) (sorted : list UserStats) : list LeaderboardUser :=
  match sorted with
  | [] => []
  | user :: rest =>
      {| address := stats_address user;
         propsReceived := stats_propsReceived user;
         propsGiven := stats_propsGiven user;
         rank := index + 1 |} :: withRanks (index + 1) rest
  end.

(** Lines 128 to 135. *)
Definition rankUsers (userStats : list UserStats) : list LeaderboardUser :=
  let sorted := sort byPropsReceived userStats in
  withRanks 0 sorted.

(** [loadLeaderboard], with the bound on the window as a parameter. *)
Definition loadLeaderboardWith (cap : Z) : M W unit :=
  try_finally
    (try_catch
       (counterResult <-
          robustFetch (fetchCallReadOnlyFunction respond counterRequest) 3 500 ;;
        counterJSON <- lift (cvToJSON counterResult) ;;
        totalProps <- lift (totalPropsOf counterJSON) ;;
        if numEq totalProps (Int 0) then emit (SetIsLoading false)
        else
          uniqueUsers <- scanRecent cap totalProps ;;
          if Nat.eqb (List.length uniqueUsers) 0 then emit (SetIsLoading false)
          else
            userStats <- for_of uniqueUsers fetchStats [] ;;
            emit (SetTopUsers (rankUsers userStats)))
       (fun error => emit (ConsoleError "Error loading leaderboard:" error)))
    (emit (SetIsLoading false)).

(** The source scans the last 10 records. *)
Definition loadLeaderboard : M W unit := loadLeaderboardWith 10.
End Page.
End Leaderboard.

(* ================================================================== *)
(** * The history page ([src/app/history/page.tsx]) *)
(* ================================================================== *)

Module History.
Section Page.
Variable W : Type.
Variable respond : request -> W -> (exn + json) * W.
Variable CONTRACT_ADDRESS : string.
Variable CONTRACT_NAME : string.

(** The [activeTab] and [userAddress] state of the page. *)
Variable activeTab : TabType.
Variable userAddress : string.

(** [robustFetch(fn, retries = 3, delayMs = 500)]. *)
Definition robustFetch (A : Type) (fn : M W A) (retries delayMs : Z)
  : M W (option A) :=
  robustFetchWith false fn retries delayMs.

(** The lookup of the history list (lines 71 to 78).  [userAddress]
    is the mainnet address of the signed-in wallet (line 33), which is
    a principal: [principalCV(userAddress)] builds its argument. *)
Definition historyRequest : request :=
  {| contractAddress := CONTRACT_ADDRESS;
     contractName := CONTRACT_NAME;
     functionName := "get-user-history";
     functionArgs := [PrincipalCV (JStr userAddress)];
     senderAddress := JStr userAddress |}.

Definition counterRequest : request :=
  {| contractAddress := CONTRACT_ADDRESS;
     contractName := CONTRACT_NAME;
     functionName := "get-current-props-id";
     functionArgs := [];
     senderAddress := JStr userAddress |}.

(** The options of the lookup of a record (lines 89 to 96 and 137 to
    144), from the argument [uintCV(id)] built. *)
Definition propsCall (arg : ClarityValue) : request :=
  {| contractAddress := CONTRACT_ADDRESS;
     contractName := CONTRACT_NAME;
     functionName := "get-props-by-id";
     functionArgs := [arg];
     senderAddress := JStr userAddress |}.

(** The call made for the index [i], when [uintCV] accepts it. *)
Definition propsRequest (i : number) : request := propsCall (UIntCV i).

Definition fetchProps (i : number) : M W json :=
  callWith respond (uintCV i) propsCall.

(** [propData.k.value]. *)
Definition field (propData : json) (k : string) : E json :=
  get (prop propData k) "value".

(** The object literal pushed on [items], from [amount] on: its
    fields are read in source order, and any of the reads may
    throw. *)
Definition itemOf (id : number) (type : ItemType) (giver receiver : json)
    (propData : json) : E HistoryItem :=
  amount <~ field propData "amount" ;;
  message <~ field propData "message" ;;
  timestamp <~ field propData "timestamp" ;;
  inr {| id := id;
         type := type;
         from := giver;
         to := receiver;
         amount := parseInt amount;
         message := message;
         blockHeight := parseInt timestamp |}.

(** [historyIds.slice(-20).reverse()]: only an array has both
    methods. *)
Definition recentIdsOf (historyIds : json) : E (list json) :=
  match historyIds with
  | JArr ids => inr (rev (slice_last 20 ids))
  | _ => inl TypeError
  end.

(** The body of the loop of the "received" tab (lines 87 to 114). *)
Definition fetchReceived (idWrapper : json) (items : list HistoryItem)
  : M W (list HistoryItem) :=
  try_catch
    (idValue <- lift (get idWrapper "value") ;;
     let id := parseInt idValue in
     propsResult <- robustFetch (fetchProps id) 3 500 ;;
     propsJSON <- lift (cvToJSON propsResult) ;;
     propData <- lift (propDataOf propsJSON) ;;
     if truthy propData then
       giver <- lift (field propData "giver") ;;
       receiver <- lift (field propData "receiver") ;;
       item <- lift (itemOf id received giver receiver propData) ;;
       ret (items ++ [item])
     else ret items)
    (fun e =>
       emit (ConsoleError "Error fetching prop details:" e) ;;
       ret items).

Definition isTab (a b : TabType) : bool :=
  match a, b with
  | TabAll, TabAll | TabReceived, TabReceived | TabGiven, TabGiven => true
  | _, _ => false
  end.

(** The body of the scan loop of the other tabs (lines 136 to 180). *)
Definition scanProps (i : Z) (items : list HistoryItem)
  : M W (list HistoryItem) :=
  try_catch
    (propsResult <- robustFetch (fetchProps (Int i)) 3 500 ;;
     propsJSON <- lift (cvToJSON propsResult) ;;
     propData <- lift (propDataOf propsJSON) ;;
     if truthy propData then
       giver <- lift (field propData "giver") ;;
       receiver <- lift (field propData "receiver") ;;
       let isGiver := strictEq giver (JStr userAddress) in
       let isReceiver := strictEq receiver (JStr userAddress) in
       if isTab activeTab TabGiven && isGiver then
         item <- lift (itemOf (Int i) given giver receiver propData) ;;
         ret (items ++ [item])
       else if isTab activeTab TabAll && (isGiver || isReceiver) then
         item <- lift (itemOf (Int i) (if isReceiver then received else given)
                         giver receiver propData) ;;
         ret (items ++ [item])
       else ret items
     else ret items)
    (fun e =>
       emit (ConsoleError "Error scanning prop" e) ;;
       ret items).

(** Lines 132 to 181: the window and the scan loop, for a window of
    at most [cap] records. *)
Definition scanRecent (cap : Z) (totalProps : number) : M W (list HistoryItem) :=
  let startIndex := startIndexOf cap totalProps in
  forDown (sub totalProps (Int 1)) startIndex scanProps [].

(** Lines 62 to 181: the rows the [try] block collects in [items],
    on the "received" tab from the subject's history list, on the
    other tabs from a scan. *)
Definition fetchItems (cap : Z) : M W (list HistoryItem) :=
  if isTab activeTab TabReceived then
    historyResult <-
      robustFetch (fetchCallReadOnlyFunction respond historyRequest) 3 500 ;;
    historyJSON <- lift (cvToJSON historyResult) ;;
    v <- lift (get historyJSON "value") ;;
    let historyIds := or_else (getOpt v "value") (JArr []) in
    recentIds <- lift (recentIdsOf historyIds) ;;
    for_of recentIds fetchReceived []
  else
    counterResult <-
      robustFetch (fetchCallReadOnlyFunction respond counterRequest) 3 500 ;;
    counterJSON <- lift (cvToJSON counterResult) ;;
    totalProps <- lift (totalPropsOf counterJSON) ;;
    scanRecent cap totalProps.

(** [loadHistory], with the bound on the window as a parameter. *)
Definition loadHistoryWith (cap : Z) : M W unit :=
  emit (SetIsLoading true) ;;
  emit (SetHistoryItems []) ;;
  try_finally
    (try_catch
       (items <- fetchItems cap ;;
        emit (SetHistoryItems items))
       (fun error => emit (ConsoleError "Error loading history:" error)))
    (emit (SetIsLoading false)).

(** The source scans the last 50 records. *)
Definition loadHistory : M W unit := loadHistoryWith 50.
End Page.
End History.

(* ================================================================== *)
(** * What the pages render *)
(* ================================================================== *)

(** [s.slice(-m)]: the last [m] characters, or all of them if there
    are fewer; [-0] is [0], so all of them for [m = 0] too. *)
Definition slice_from_end (m : nat) (s : string) : string :=
  if Nat.eqb m 0 then s else substring (String.length s - m) m s.

(** [s.slice(0, n)}...{s.slice(-m)], the short form of an address in
    the cards and rows of both pages.  Addresses are ASCII, so a
    character is a byte. *)
Definition abbreviate (n m : nat) (s : string) : string :=
  (substring 0 n s ++ "..." ++ slice_from_end m s)%string.

(** What [{a.slice(0, n)}...{a.slice(-m)}] puts in the markup: the
    short text of a string, or the two slices of an array, which are
    children for React to render. *)
Inductive Sliced : Type :=
| Text (s : string)
| Children (head tail : list json).

(** [a.slice(0, n)] and [a.slice(-m)].  The fields are declared as
    strings and hold what the contract answered: only a string and an
    array have the method, and on every other value the call is a
    [TypeError], thrown while the component renders. *)
Definition sliceEnds (n m : nat) (a : json) : E Sliced :=
  match a with
  | JStr s => inr (Text (abbreviate n m s))
  | JArr items =>
      inr (Children (firstn n items)
             (if Nat.eqb m 0 then items else slice_last m items))
  | _ => inl TypeError
  end.


(** The first exception of a sequence of evaluations. *)
Fixpoint thrown (A : Type) (l : list (E A)) : option exn :=
  match l with
  | [] => None
  | inl e :: _ => Some e
  | inr _ :: rest => thrown rest
  end.

(** The [return] statements of [LeaderboardPage] (lines 145 to 228):
    the markup is reduced to what it shows. *)
Module LeaderboardView.

(** The three medals of the podium. *)
Inductive Medal : Type := Gold | Silver | Bronze.

(** A card of the podium (lines 188 to 200), with the outcome of the
    evaluation of its address. *)
Record PodiumCard : Type := {
  card_key : Z;
  card_medal : Medal;
  card_address : E Sliced;
  card_propsCount : number;
  card_given : number
}.

(** A row of the list under the podium (lines 209 to 222). *)
Record ListItem : Type := {
  item_key : Z;
  item_rank : Z;
  item_address : E Sliced;
  item_received : number;
  item_given : number
}.

(** The three screens; a section of the board without elements is not
    rendered. *)
Inductive View : Type :=
| Loading (subtitle : string)
| Empty (subtitle : string)
| Board (podium : list PodiumCard) (list : list ListItem).

(** [user.rank === 1 ? gold : user.rank === 2 ? silver : bronze]. *)
Definition medalOf (rank : Z) : Medal :=
  if rank =? 1 then Gold else if rank =? 2 then Silver else Bronze.

Definition podiumCard (user : LeaderboardUser) : PodiumCard :=
  {| card_key := rank user;
     card_medal := medalOf (rank user);
     card_address := sliceEnds 8 6 (address user);
     card_propsCount := propsReceived user;
     card_given := propsGiven user |}.

Definition listItem (user : LeaderboardUser) : ListItem :=
  {| item_key := rank user;
     item_rank := rank user;
     item_address := sliceEnds 12 8 (address user);
     item_received := propsReceived user;
     item_given := propsGiven user |}.

(** What the component returns, or what it throws: the cards of the
    podium are evaluated first, then the rows of the list, each in
    order. *)
Definition render (isLoading : bool) (topUsers : list LeaderboardUser) : E View :=
  if isLoading then inr (Loading "Loading leaderboard data from blockchain...")
  else if Nat.eqb (List.length topUsers) 0
  then inr (Empty "No props have been given yet. Be the first!")
  else
    let top3 := firstn 3 topUsers in
    let remaining := skipn 3 topUsers in
    let podium := map podiumCard top3 in
    let rows := map listItem remaining in
    match thrown (map card_address podium ++ map item_address rows) with
    | Some e => inl e
    | None => inr (Board podium rows)
    end.

End LeaderboardView.

(** The [return] statements of [HistoryPage] (lines 192 to 281). *)
Module HistoryView.

(** An item of the timeline (lines 243 to 270), with the outcome of
    the evaluation of its two addresses. *)
Record Entry : Type := {
  entry_key : number;
  entry_received : bool;
  entry_block : number;
  entry_from : E Sliced;
  entry_to : E Sliced;
  entry_message : json;
  entry_amount : number;
  entry_plural : bool
}.

(** What is under the tabs. *)
Inductive Body : Type :=
| Loading (text : string)
| Timeline (entries : list Entry)
| Empty (text : string).

Inductive View : Type :=
| ConnectPrompt (subtitle : string)
| Page (active : TabType) (body : Body).

(** [item.amount > 1]: false on [NaN]. *)
Definition moreThanOne (amount : number) : bool :=
  match amount with
  | Int z => 1 <? z
  | NaN => false
  end.

Definition entry (item : HistoryItem) : Entry :=
  {| entry_key := id item;
     entry_received := match type item with received => true | given => false end;
     entry_block := blockHeight item;
     entry_from := sliceEnds 10 8 (from item);
     entry_to := sliceEnds 10 8 (to item);
     entry_message := message item;
     entry_amount := amount item;
     entry_plural := moreThanOne (amount item) |}.


(** [No {activeTab !== "all" ? activeTab : ""} props history found in
    recent blocks]. *)
Definition emptyText (activeTab : TabType) : string :=
  ("No "
   ++ match activeTab with
      | TabAll => ""
      | TabReceived => "received"
      | TabGiven => "given"
      end
   ++ " props history found in recent blocks")%string.

(** What the component returns, or what it throws: the items are
    evaluated in order, [from] before [to]. *)
Definition render (isSignedIn : bool) (activeTab : TabType) (isLoading : bool)
    (historyItems : list HistoryItem) : E View :=
  if negb isSignedIn
  then inr (ConnectPrompt "Please connect your wallet to view your history")
  else if isLoading then inr (Page activeTab (Loading "Loading blockchain history..."))
  else if Nat.ltb 0 (List.length historyItems)
  then
    let entries := map entry historyItems in
    match thrown (flat_map (fun e => [entry_from e; entry_to e]) entries) with
    | Some e => inl e
    | None => inr (Page activeTab (Timeline entries))
    end
  else inr (Page activeTab (Empty (emptyText activeTab))).

End HistoryView.

(* ================================================================== *)
(** * A sample contract, to run the pages on *)
(* ================================================================== *)

From Stdlib Require Import DecimalString.

Module Sample.

(** One props record of the contract. *)
Record Props : Type := {
  p_giver : string;
  p_receiver : string;
  p_amount : Z;
  p_message : string;
  p_timestamp : Z
}.

(** The endpoint: the ledger of the contract, the number of calls
    received so far, and the calls (by number) that it rejects. *)
Record World : Type := {
  ledger : list Props;
  clock : nat;
  outages : list nat
}.

Definition decimal (z : Z) : string := NilZero.string_of_int (Z.to_int z).

(** Six mainnet addresses, which the library decodes as principals. *)
Definition alice : string := "SP2J6ZY48GV1EZ5V2V5RB9MP66SW86PYKKNRV9EJ7".
Definition bob : string := "SP3FBR2AGK5H9QBDH3EEN6DF8EK8JY7RX8QJ5SVTE".
Definition carol : string := "SP2PABAF9FTAJYNFZH93XENAJ8FVY99RRM50D2JG9".
Definition dave : string := "SP3K8BC0PPEVCV7NZ6QSRWPQ2JE9E5B6N3PA0KBR9".
Definition erin : string := "SP2C2YFP12AJZB4MABJBAJ55XECVS7E4PMMZ89YZR".
Definition frank : string := "SP1Y5YSTAHZ88XYK1VPDH24GY0HPX5J4JECTMY4A1".

(** The decoder of the sample: it knows these six addresses. *)
Definition isPrincipal (s : string) : bool :=
  existsb (String.eqb s) [alice; bob; carol; dave; erin; frank].

(** The decoded forms of Clarity values. *)
Definition uint (z : Z) : json :=
  JObj [("type", JStr "uint"); ("value", JStr (decimal z))].
Definition principal (a : string) : json :=
  JObj [("type", JStr "principal"); ("value", JStr a)].
Definition utf8 (s : string) : json :=
  JObj [("type", JStr "(string-utf8 280)"); ("value", JStr s)].
Definition ok (v : json) : json :=
  JObj [("type", JStr "(response)"); ("value", v); ("success", JBool true)].
Definition some (v : json) : json :=
  JObj [("type", JStr "(optional)"); ("value", v)].
Definition none : json :=
  JObj [("type", JStr "(optional none)"); ("value", JNull)].
Definition tuple (fields : list (string * json)) : json :=
  JObj [("type", JStr "(tuple)"); ("value", JObj fields)].
Definition listOf (vs : list json) : json :=
  JObj [("type", JStr "(list)"); ("value", JArr vs)].

Definition encode (p : Props) : json :=
  tuple [("giver", principal (p_giver p));
         ("receiver", principal (p_receiver p));
         ("amount", uint (p_amount p));
         ("message", utf8 (p_message p));
         ("timestamp", uint (p_timestamp p))].

Definition count (f : Props -> string) (a : string) (l : list Props) : Z :=
  Z.of_nat (List.length (filter (fun p => String.eqb (f p) a) l)).

(** The indices of the records received by [a], oldest first. *)
Fixpoint receivedBy (a : string) (i : Z) (l : list Props) : list json :=
  match l with
  | [] => []
  | p :: rest =>
      if String.eqb (p_receiver p) a
      then uint i :: receivedBy a (i + 1) rest
      else receivedBy a (i + 1) rest
  end.

Definition answer (l : list Props) (req : request) : exn + json :=
  match functionArgs req with
  | [] =>
      if String.eqb (functionName req) "get-current-props-id"
      then inr (ok (uint (Z.of_nat (List.length l))))
      else inl (Rejected "no such function")
  | [UIntCV (Int i)] =>
      if String.eqb (functionName req) "get-props-by-id" && (0 <=? i)
      then inr (ok (match nth_error l (Z.to_nat i) with
                    | Some p => some (encode p)
                    | None => none
                    end))
      else inl (Rejected "no such function")
  | [PrincipalCV (JStr a)] =>
      if String.eqb (functionName req) "get-user-stats"
      then inr (ok (tuple [("props-received", uint (count p_receiver a l));
                           ("props-given", uint (count p_giver a l))]))
      else if String.eqb (functionName req) "get-user-history"
      then inr (ok (listOf (receivedBy a 0 l)))
      else inl (Rejected "no such function")
  | _ => inl (Rejected "bad arguments")
  end.

Definition respond (req : request) (w : World) : (exn + json) * World :=
  let w' := {| ledger := ledger w; clock := S (clock w); outages := outages w |} in
  if existsb (Nat.eqb (clock w)) (outages w)
  then (inl (Rejected "rate limited"), w')
  else (answer (ledger w) req, w').

Definition props (g r : string) : Props :=
  {| p_giver := g; p_receiver := r; p_amount := 1;
     p_message := "thanks"; p_timestamp := 100 |}.

(** Twelve records between six participants. *)
Definition twelve : list Props :=
  [ props alice bob; props bob alice; props alice bob; props bob alice;
    props carol alice; props dave bob; props erin alice; props frank bob;
    props alice carol; props bob carol; props erin dave; props frank carol ].

Definition online (l : list Props) : World :=
  {| ledger := l; clock := 0; outages := [] |}.

(** An endpoint that rejects the calls numbered in [down]. *)
Definition flaky (l : list Props) (down : list nat) : World :=
  {| ledger := l; clock := 0; outages := down |}.
End Sample.

(** A sample call, and what the sample endpoint answers to it when the
    ledger is empty. *)
Definition sampleCall : request := Leaderboard.counterRequest "SP0" "props".

Definition sampleAnswer : json := Sample.ok (Sample.uint 0).

(** The endpoint of an empty contract after [calls] calls. *)
Definition after (calls : nat) (down : list nat) : Sample.World :=
  {| Sample.ledger := []; Sample.clock := calls; Sample.outages := down |}.

(** An endpoint that answers every call with the bare unsigned
    integer 12, not wrapped in a response. *)
Definition bare (req : request) (w : unit) : (exn + json) * unit :=
  (inr (Sample.uint 12), w).

(** An endpoint whose records have no receiver. *)
Definition headless (req : request) (w : unit) : (exn + json) * unit :=
  match functionArgs req with
  | [] => (inr (Sample.ok (Sample.uint 3)), w)
  | _ => (inr (Sample.ok (Sample.some
                            (Sample.tuple [("giver", Sample.principal Sample.alice)]))), w)
  end.

(** The statistics of six participants, pushed in the order erin,
    alice, carol, bob, frank, dave. *)
Definition sampleStats : list UserStats :=
  map (fun '(a, r, g) =>
         {| stats_address := JStr a;
            stats_propsReceived := Int r;
            stats_propsGiven := Int g |})
      [(Sample.erin, 0, 2); (Sample.alice, 5, 3); (Sample.carol, 3, 1); (Sample.bob, 5, 3); (Sample.frank, 0, 2); (Sample.dave, 1, 1)].

(* ================================================================== *)
(** * The vocabulary of the properties *)
(* ================================================================== *)

Module Spec.

(** The waits of a [robustFetch] with base delay [D] whose attempts
    [i], ..., [i + k - 1] fail and whose attempt [i + k] is the last:
    [D] before every attempt, and [D * 2^j] after the failure of
    attempt [j]. *)
Fixpoint waits (D i : Z) (k : nat) : list Z :=
  match k with
  | O => [D]
  | S k' => D :: D * 2 ^ i :: waits D (i + 1) k'
  end.

(** The delays [D, D, D*2, D*4, ...] for [k] failures: the first
    delay, then one back-off per failure. *)
Definition backoffsOnly (D : Z) (k : nat) : list Z :=
  D :: map (fun j => D * 2 ^ Z.of_nat j) (seq 0 k).

(** The interval [[a, b)], ascending. *)
Definition interval (a b : Z) : list Z :=
  map (fun k => a + Z.of_nat k) (seq 0 (Z.to_nat (b - a))).

(** A number of the range in which a double holds every integer: in
    this range the model's arithmetic is JavaScript's. *)
Definition safe (n : number) : Prop :=
  match n with
  | Int z => - 2 ^ 53 <= z <= 2 ^ 53
  | NaN => True
  end.

(** The call of a lookup whose argument is [arg]: none when the
    constructor of the argument threw. *)
Definition requestsWith (arg : E ClarityValue) (options : ClarityValue -> request)
  : list request :=
  match arg with
  | inr cv => [options cv]
  | inl _ => []
  end.

(** [principalCV] accepts the identity. *)
Definition accepted (isPrincipal : string -> bool) (a : json) : bool :=
  match principalCV isPrincipal a with
  | inr _ => true
  | inl _ => false
  end.

(** [lookups reqs cs]: the remote calls [cs] are those of one lookup
    per request of [reqs], in that order, a lookup being one to three
    attempts of the same call. *)
Inductive lookups : list request -> list request -> Prop :=
| lookups_nil : lookups [] []
| lookups_cons req n reqs cs :
    (1 <= n <= 3)%nat ->
    lookups reqs cs ->
    lookups (req :: reqs) (repeat req n ++ cs).

(** No two members are the same value for a [Set]. *)
Definition distinct (s : list json) : Prop :=
  ForallOrdPairs (fun a b => strictEq a b = false) s.

(** Console output only. *)
Definition isConsole (ev : event) : bool :=
  match ev with
  | ConsoleWarn _ _ _ | ConsoleError _ _ => true
  | _ => false
  end.

Definition consoleOnly (t : list event) : Prop := forallb isConsole t = true.

(** The two identities a props lookup contributes to the leaderboard:
    those of a decoded record that has a giver and a receiver; none
    when the lookup failed or the record is missing or incomplete. *)
Definition participantsOf (r : exn + option json) : list json :=
  match r with
  | inr (Some propsJSON) =>
      match propDataOf propsJSON with
      | inr propData =>
          if truthy propData
             && truthy (prop propData "giver")
             && truthy (prop propData "receiver")
          then [prop (prop propData "giver") "value";
                prop (prop propData "receiver") "value"]
          else []
      | inl _ => []
      end
  | _ => []
  end.

(** [uniqueUsers] after the [add] of each of [xs], in order. *)
Definition addAll (xs s : list json) : list json :=
  fold_left (fun s x => Leaderboard.Set_add x s) xs s.

(** A row of the leaderboard without its rank. *)
Definition unranked (row : LeaderboardUser) : UserStats :=
  {| stats_address := address row;
     stats_propsReceived := propsReceived row;
     stats_propsGiven := propsGiven row |}.

(** The records whose primary metric is [v]. *)
Definition hasReceived (v : number) (u : UserStats) : bool :=
  match v, stats_propsReceived u with
  | Int x, Int y => x =? y
  | NaN, NaN => true
  | _, _ => false
  end.

(** [a] has received at least as many props as [b]. *)
Definition notBelow (a b : LeaderboardUser) : Prop :=
  exists x y, propsReceived a = Int x /\ propsReceived b = Int y /\ y <= x.

(** The indices of a scan of at most [cap] records below
    [totalProps]; a [NaN] total has none. *)
Definition window (cap : Z) (totalProps : number) : list Z :=
  match totalProps with
  | Int T => interval (Z.max 0 (T - cap)) T
  | NaN => []
  end.

(** [x] has a greater index than [y]. *)
Definition newerThan (x y : HistoryItem) : Prop :=
  exists i j, id x = Int i /\ id y = Int j /\ j < i.

(** The call the "received" loop makes for an entry of the history
    list: none when the entry is [null] or [undefined], and none when
    its value is no index [uintCV] accepts. *)
Definition receivedRequests (CONTRACT_ADDRESS CONTRACT_NAME userAddress : string)
    (idWrapper : json) : list request :=
  if nullish idWrapper then []
  else requestsWith (uintCV (parseInt (prop idWrapper "value")))
         (History.propsCall CONTRACT_ADDRESS CONTRACT_NAME userAddress).

(** A props record of the contract, decoded: the five fields of its
    tuple. *)
Record PropsRecord : Type := {
  rec_giver : json;
  rec_receiver : json;
  rec_amount : number;
  rec_message : json;
  rec_timestamp : number
}.

Definition recordFields (propData : json) : E PropsRecord :=
  giver <~ History.field propData "giver" ;;
  receiver <~ History.field propData "receiver" ;;
  amount <~ History.field propData "amount" ;;
  message <~ History.field propData "message" ;;
  timestamp <~ History.field propData "timestamp" ;;
  inr {| rec_giver := giver;
         rec_receiver := receiver;
         rec_amount := parseInt amount;
         rec_message := message;
         rec_timestamp := parseInt timestamp |}.

(** The record a decoded answer holds: none when the answer holds no
    tuple, or a tuple that lacks one of the five fields. *)
Definition recordOf (propsJSON : json) : option PropsRecord :=
  match propDataOf propsJSON with
  | inr propData =>
      if truthy propData then
        match recordFields propData with
        | inr record => Some record
        | inl _ => None
        end
      else None
  | inl _ => None
  end.

(** The row of the record at index [id], tagged [type]. *)
Definition rowOf (id : number) (type : ItemType) (record : PropsRecord)
  : HistoryItem :=
  {| id := id;
     type := type;
     from := rec_giver record;
     to := rec_receiver record;
     amount := rec_amount record;
     message := rec_message record;
     blockHeight := rec_timestamp record |}.

(** Which records a tab keeps for the subject, and with which tag:
    "given" keeps the records the subject gave; "all" keeps the
    records the subject gave or received, tagged "received" when the
    subject is the receiver and "given" otherwise. *)
Definition keptAs (activeTab : TabType) (subject : string) (record : PropsRecord)
  : option ItemType :=
  match activeTab with
  | TabGiven =>
      if strictEq (rec_giver record) (JStr subject) then Some given else None
  | TabAll =>
      if strictEq (rec_receiver record) (JStr subject) then Some received
      else if strictEq (rec_giver record) (JStr subject) then Some given
      else None
  | TabReceived => None
  end.

(** The "received" tab keeps every record, and compares the subject
    with nothing. *)
Definition keptReceived (record : PropsRecord) : option ItemType := Some received.

(** The rows of the answer of one lookup: the row of its record when
    the lookup succeeded, the answer holds a record and [keep] keeps
    it. *)
Definition rowsOf (keep : PropsRecord -> option ItemType)
    (answer : number * (exn + option json)) : list HistoryItem :=
  match snd answer with
  | inr (Some propsJSON) =>
      match recordOf propsJSON with
      | Some record =>
          match keep record with
          | Some type => [rowOf (fst answer) type record]
          | None => []
          end
      | None => []
      end
  | _ => []
  end.

Section Remote.
Variable W : Type.
Variable respond : request -> W -> (exn + json) * W.

(** The identities extracted from the records at [indices], looked
    up in this order from [w] on by the leaderboard. *)
Fixpoint extracted (CONTRACT_ADDRESS CONTRACT_NAME : string)
    (indices : list Z) (w : W) : list json :=
  match indices with
  | [] => []
  | i :: rest =>
      let '(r, w', _) :=
        Leaderboard.robustFetch
          (Leaderboard.fetchProps respond CONTRACT_ADDRESS CONTRACT_NAME i)
          3 500 w in
      participantsOf r ++ extracted CONTRACT_ADDRESS CONTRACT_NAME rest w'
  end.

(** The answers of the lookups of the history scan for [indices], in
    this order, from [w] on. *)
Fixpoint scanned (CONTRACT_ADDRESS CONTRACT_NAME userAddress : string)
    (indices : list Z) (w : W) : list (number * (exn + option json)) :=
  match indices with
  | [] => []
  | i :: rest =>
      let '(r, w', _) :=
        History.robustFetch
          (History.fetchProps respond CONTRACT_ADDRESS CONTRACT_NAME userAddress
             (Int i))
          3 500 w in
      (Int i, r) :: scanned CONTRACT_ADDRESS CONTRACT_NAME userAddress rest w'
  end.

(** The answers of the lookups of the "received" loop for the
    entries [recentIds] of the history list, in this order, from [w]
    on: an entry that is [null] or [undefined] is not looked up. *)
Fixpoint lookedUp (CONTRACT_ADDRESS CONTRACT_NAME userAddress : string)
    (recentIds : list json) (w : W) : list (number * (exn + option json)) :=
  match recentIds with
  | [] => []
  | idWrapper :: rest =>
      if nullish idWrapper
      then lookedUp CONTRACT_ADDRESS CONTRACT_NAME userAddress rest w
      else
        let id := parseInt (prop idWrapper "value") in
        let '(r, w', _) :=
          History.robustFetch
            (History.fetchProps respond CONTRACT_ADDRESS CONTRACT_NAME userAddress id)
            3 500 w in
        (id, r) :: lookedUp CONTRACT_ADDRESS CONTRACT_NAME userAddress rest w'
  end.

(** The count that the lookup [req] answers from [w], if it answers
    one, is in the safe range. *)
Definition safeCount (warns : bool) (req : request) (w : W) : Prop :=
  forall (counterJSON : json) (w1 : W) (t1 : list event) (totalProps : number),
    robustFetchWith warns (fetchCallReadOnlyFunction respond req) 3 500 w
    = (inr (Some counterJSON), w1, t1) ->
    totalPropsOf counterJSON = inr totalProps ->
    safe totalProps.

(** From [w], the call [req] is rejected [k] times and then
    answered with [v], leaving the endpoint in [w']. *)
Fixpoint failsThenSucceeds (req : request) (k : nat) (w : W)
    (v : json) (w' : W) : Prop :=
  match k with
  | O => respond req w = (inr v, w')
  | S k' =>
      exists e w1,
        respond req w = (inl e, w1) /\ failsThenSucceeds req k' w1 v w'
  end.

(** From [w], the call [req] is rejected [n + 1] times in a row,
    the last time with [e], leaving the endpoint in [w']. *)
Fixpoint keepsFailing (req : request) (n : nat) (w : W)
    (e : exn) (w' : W) : Prop :=
  match n with
  | O => respond req w = (inl e, w')
  | S n' =>
      exists e1 w1,
        respond req w = (inl e1, w1) /\ keepsFailing req n' w1 e w'
  end.
End Remote.
End Spec.
Import Spec.

(** More vocabulary, for the properties of the whole pages. *)
Module Invariants.

(** The sum of the waits of a run, in milliseconds. *)
Definition total (waits : list Z) : Z := fold_right Z.add 0 waits.

(** [paced D t]: every remote call of [t] comes directly after a wait
    of [D] milliseconds. *)
Inductive paced (D : Z) : list event -> Prop :=
| paced_nil : paced D []
| paced_call req t : paced D t -> paced D (Sleep D :: Called req :: t)
| paced_other ev t :
    (forall req, ev <> Called req) -> paced D t -> paced D (ev :: t).

(** [subseq l1 l2]: [l1] is [l2] with some elements left out. *)
Inductive subseq (A : Type) : list A -> list A -> Prop :=
| subseq_nil : subseq [] []
| subseq_keep x l1 l2 : subseq l1 l2 -> subseq (x :: l1) (x :: l2)
| subseq_drop x l1 l2 : subseq l1 l2 -> subseq l1 (x :: l2).

(** The calls a page may make: read-only functions of the configured
    contract, by name. *)
Definition callsWithin (CONTRACT_ADDRESS CONTRACT_NAME : string)
    (names : list string) (t : list event) : Prop :=
  Forall (fun req =>
            contractAddress req = CONTRACT_ADDRESS
            /\ contractName req = CONTRACT_NAME
            /\ In (functionName req) names)
         (calls t).

(** The [historyItems] state after a run that started with [init]. *)
Definition historyItemsFrom (init : list HistoryItem) (t : list event)
  : list HistoryItem :=
  fold_left (fun st ev => match ev with SetHistoryItems l => l | _ => st end) t init.

(** What a row of the history says of the subject: on the "given" tab,
    that the subject gave; on the "all" tab, that the subject gave or
    received, the tag telling which, a receiver being tagged so. *)
Definition rowOfSubject (activeTab : TabType) (userAddress : string)
    (item : HistoryItem) : Prop :=
  match activeTab with
  | TabGiven => from item = JStr userAddress /\ type item = given
  | TabAll =>
      (to item = JStr userAddress /\ type item = received)
      \/ (to item <> JStr userAddress /\ from item = JStr userAddress
          /\ type item = given)
  | TabReceived => False
  end.

(** [always P m]: the trace of every run of [m] has the property
    [P]. *)
Definition always (W A : Type) (P : list event -> Prop) (m : M W A) : Prop :=
  forall w : W, P (snd (m w)).

(** The calls the closures of [loadLeaderboard] make. *)
Definition leaderboardCall (CONTRACT_ADDRESS CONTRACT_NAME : string)
    (req : request) : Prop :=
  req = Leaderboard.counterRequest CONTRACT_ADDRESS CONTRACT_NAME
  \/ (exists arg, req = Leaderboard.propsCall CONTRACT_ADDRESS CONTRACT_NAME arg)
  \/ (exists a arg, req = Leaderboard.statsCall CONTRACT_ADDRESS CONTRACT_NAME a arg).

(** The calls the closures of [loadHistory] make. *)
Definition historyCall (CONTRACT_ADDRESS CONTRACT_NAME userAddress : string)
    (req : request) : Prop :=
  req = History.historyRequest CONTRACT_ADDRESS CONTRACT_NAME userAddress
  \/ req = History.counterRequest CONTRACT_ADDRESS CONTRACT_NAME userAddress
  \/ (exists arg, req = History.propsCall CONTRACT_ADDRESS CONTRACT_NAME
                         userAddress arg).

(** [interleaving t1 t2 t]: [t] is made of the events of [t1] and of
    [t2], each in its order.  Two runs of [loadHistory] overlap when
    the tab changes before a run has ended (lines 38 to 42 start a run
    and cancel none): the state updates of the two land on the same
    page in such an order. *)
Inductive interleaving (A : Type) : list A -> list A -> list A -> Prop :=
| interleaving_nil : interleaving [] [] []
| interleaving_left x t1 t2 t :
    interleaving t1 t2 t -> interleaving (x :: t1) t2 (x :: t)
| interleaving_right x t1 t2 t :
    interleaving t1 t2 t -> interleaving t1 (x :: t2) (x :: t).

(** [merged ts t]: [t] is made of the events of the traces [ts], each
    in its order. *)
Inductive merged (A : Type) : list (list A) -> list A -> Prop :=
| merged_nil : merged [] []
| merged_cons t ts m m' :
    merged ts m -> interleaving t m m' -> merged (t :: ts) m'.

(** A run of [loadHistory]: the tab and the subject it was started
    for, and the endpoint as this run meets it.  The calls of
    overlapping runs reach one endpoint, so what it answers a run may
    depend on the calls of the others: each run has a [respond] of its
    own, which covers any such answers. *)
Record HistoryRun : Type := {
  run_world : Type;
  run_respond : request -> run_world -> (exn + json) * run_world;
  run_tab : TabType;
  run_user : string;
  run_start : run_world
}.

(** The events of a run. *)
Definition historyTrace (CONTRACT_ADDRESS CONTRACT_NAME : string) (cap : Z)
    (run : HistoryRun) : list event :=
  snd (History.loadHistoryWith (run_respond run) CONTRACT_ADDRESS CONTRACT_NAME
         (run_tab run) (run_user run) cap (run_start run)).

End Invariants.
Import Invariants.

(* ================================================================== *)
(** * Properties *)
(* ================================================================== *)

(** Splits a conjunction into its parts. *)
Ltac splits := repeat match goal with |- _ /\ _ => split end.

(** Runs the pure steps of a computation that is applied to a state. *)
Ltac run :=
  cbn [lift cvToJSON ret emit throw app]; rewrite ?app_nil_r.

Arguments robustFetchWith : simpl never.
Arguments Leaderboard.robustFetch : simpl never.
Arguments History.robustFetch : simpl never.

(** ** Traces *)

Lemma calls_app (t1 t2 : list event) : calls (t1 ++ t2) = calls t1 ++ calls t2.
Proof.
  induction t1 as [|ev t1 IH]; [reflexivity|].
  destruct ev; simpl; rewrite ?IH; reflexivity.
Qed.

Lemma sleeps_app (t1 t2 : list event) : sleeps (t1 ++ t2) = sleeps t1 ++ sleeps t2.
Proof.
  induction t1 as [|ev t1 IH]; [reflexivity|].
  destruct ev; simpl; rewrite ?IH; reflexivity.
Qed.

(** ** The retrying caller *)

Section RetryFacts.
Variable W : Type.
Variable respond : request -> W -> (exn + json) * W.

Let fetch := fetchCallReadOnlyFunction respond.

Lemma fetch_eq (req : request) (w : W) (r : exn + json) (w' : W) :
  respond req w = (r, w') -> fetch req w = (r, w', [Called req]).
Proof. unfold fetch, fetchCallReadOnlyFunction. intros ->. reflexivity. Qed.

(** One iteration of the loop that succeeds. *)
Lemma robustFetch_from_hit (fuel : nat) (warns : bool) (req : request)
    (R D i : Z) (w w' : W) (v : json) :
  i < R ->
  respond req w = (inr v, w') ->
  robustFetch_from (S fuel) warns (fetch req) R D i w
  = (inr (Some v), w', [Sleep D; Called req]).
Proof.
  intros Hi Hr. cbn [robustFetch_from].
  apply Z.ltb_lt in Hi. rewrite Hi.
  unfold bind, try_catch, sleep, emit, ret.
  rewrite (fetch_eq Hr). reflexivity.
Qed.

(** One iteration that fails on the last attempt. *)
Lemma robustFetch_from_last (fuel : nat) (warns : bool) (req : request)
    (R D : Z) (w w' : W) (e : exn) :
  respond req w = (inl e, w') ->
  robustFetch_from (S fuel) warns (fetch req) R D (R - 1) w
  = (inl e, w', [Sleep D; Called req]).
Proof.
  intros Hr. cbn [robustFetch_from].
  replace (R - 1 <? R) with true by (symmetry; apply Z.ltb_lt; lia).
  unfold bind, try_catch, sleep, emit, ret, throw.
  rewrite (fetch_eq Hr). rewrite Z.eqb_refl. reflexivity.
Qed.

(** One iteration that fails before the last attempt. *)
Lemma robustFetch_from_miss (fuel : nat) (warns : bool) (req : request)
    (R D i : Z) (w w1 : W) (e : exn) :
  i < R - 1 ->
  respond req w = (inl e, w1) ->
  robustFetch_from (S fuel) warns (fetch req) R D i w
  = let '(r, w2, t) := robustFetch_from fuel warns (fetch req) R D (i + 1) w1 in
    (r, w2,
     [Sleep D; Called req]
       ++ (if warns then [ConsoleWarn "Fetch failed, retrying" (i + 1) R] else [])
       ++ [Sleep (D * 2 ^ i)] ++ t).
Proof.
  intros Hi Hr. cbn [robustFetch_from].
  replace (i <? R) with true by (symmetry; apply Z.ltb_lt; lia).
  unfold bind, try_catch, sleep, emit, ret, throw.
  rewrite (fetch_eq Hr).
  replace (i =? R - 1) with false by (symmetry; apply Z.eqb_neq; lia).
  destruct warns;
    destruct (robustFetch_from fuel _ (fetch req) R D (i + 1) w1) as [[r w2] t];
    reflexivity.
Qed.

(** [k] failures, then a success. *)
Lemma robustFetch_from_succeeds (warns : bool) (req : request) (R D : Z) :
  forall (k fuel : nat) (i : Z) (w : W) (v : json) (w' : W),
    Z.of_nat fuel = R - i ->
    i + Z.of_nat k < R ->
    failsThenSucceeds respond req k w v w' ->
    exists t,
      robustFetch_from fuel warns (fetch req) R D i w = (inr (Some v), w', t)
      /\ calls t = repeat req (S k)
      /\ sleeps t = waits D i k.
Proof.
  induction k as [|k IH]; intros fuel i w v w' Hfuel Hlt Hop;
    (destruct fuel as [|fuel]; [lia|]); simpl in Hop.
  - exists [Sleep D; Called req]. split; [|split; reflexivity].
    apply robustFetch_from_hit; [lia|exact Hop].
  - destruct Hop as (e & w1 & Hr & Hop).
    destruct (IH fuel (i + 1) w1 v w') as (t & Hrun & Hcalls & Hsleeps);
      [lia|lia|exact Hop|].
    rewrite (@robustFetch_from_miss fuel warns req R D i w w1 e) by (lia || exact Hr).
    rewrite Hrun. eexists. split; [reflexivity|].
    split.
    + rewrite !calls_app, Hcalls. destruct warns; reflexivity.
    + rewrite !sleeps_app, Hsleeps. destruct warns; reflexivity.
Qed.

(** Failures up to the last attempt. *)
Lemma robustFetch_from_exhausts (warns : bool) (req : request) (R D : Z) :
  forall (n fuel : nat) (i : Z) (w : W) (e : exn) (w' : W),
    Z.of_nat fuel = R - i ->
    i + Z.of_nat n = R - 1 ->
    keepsFailing respond req n w e w' ->
    exists t,
      robustFetch_from fuel warns (fetch req) R D i w = (inl e, w', t)
      /\ calls t = repeat req (S n)
      /\ sleeps t = waits D i n.
Proof.
  induction n as [|n IH]; intros fuel i w e w' Hfuel Hlt Hop;
    (destruct fuel as [|fuel]; [lia|]); simpl in Hop.
  - exists [Sleep D; Called req]. split; [|split; reflexivity].
    replace i with (R - 1) by lia.
    apply robustFetch_from_last. exact Hop.
  - destruct Hop as (e1 & w1 & Hr & Hop).
    destruct (IH fuel (i + 1) w1 e w') as (t & Hrun & Hcalls & Hsleeps);
      [lia|lia|exact Hop|].
    rewrite (@robustFetch_from_miss fuel warns req R D i w w1 e1) by (lia || exact Hr).
    rewrite Hrun. eexists. split; [reflexivity|].
    split.
    + rewrite !calls_app, Hcalls. destruct warns; reflexivity.
    + rewrite !sleeps_app, Hsleeps. destruct warns; reflexivity.
Qed.

(** What one lookup with the default arguments does, whatever the
    endpoint answers: one to three attempts of the same call, no
    React state update, and never the [undefined] of an empty loop. *)
Lemma robustFetch_default (warns : bool) (req : request) (w : W) :
  exists r w' t n,
    robustFetchWith warns (fetch req) 3 500 w = (r, w', t)
    /\ (1 <= n <= 3)%nat
    /\ calls t = repeat req n
    /\ updates t = []
    /\ r <> inr None.
Proof.
  unfold robustFetchWith. change (Z.to_nat 3) with 3%nat.
  destruct (respond req w) as [[e1|v1] w1] eqn:H1.
  2:{ rewrite (@robustFetch_from_hit _ warns req 3 500 0 w w1 v1) by (lia || exact H1).
      do 3 eexists. exists 1%nat. repeat split; try reflexivity; try lia; discriminate. }
  rewrite (@robustFetch_from_miss _ warns req 3 500 0 w w1 e1) by (lia || exact H1).
  destruct (respond req w1) as [[e2|v2] w2] eqn:H2.
  2:{ rewrite (@robustFetch_from_hit _ warns req 3 500 (0 + 1) w1 w2 v2) by (lia || exact H2).
      do 3 eexists. exists 2%nat. split; [reflexivity|].
      destruct warns; repeat split; try reflexivity; try lia; discriminate. }
  rewrite (@robustFetch_from_miss _ warns req 3 500 (0 + 1) w1 w2 e2) by (lia || exact H2).
  change (0 + 1 + 1) with (3 - 1).
  destruct (respond req w2) as [[e3|v3] w3] eqn:H3.
  - rewrite (@robustFetch_from_last _ warns req 3 500 w2 w3 e3) by exact H3.
    do 3 eexists. exists 3%nat. split; [reflexivity|].
    destruct warns; repeat split; try reflexivity; try lia; discriminate.
  - rewrite (@robustFetch_from_hit _ warns req 3 500 (3 - 1) w2 w3 v3) by (lia || exact H3).
    do 3 eexists. exists 3%nat. split; [reflexivity|].
    destruct warns; repeat split; try reflexivity; try lia; discriminate.
Qed.

(** A lookup whose closure throws before it calls: the three attempts
    are waited for, no call is made, and the exception of the last
    attempt is thrown. *)
Lemma robustFetch_refused (warns : bool) (e : exn) (w : W) :
  exists t,
    robustFetchWith warns (throw (A:=json) e) 3 500 w = (inl e, w, t)
    /\ calls t = []
    /\ updates t = []
    /\ sleeps t = waits 500 0 2.
Proof.
  unfold robustFetchWith. change (Z.to_nat 3) with 3%nat.
  destruct warns; eexists; (split; [reflexivity|]); repeat split.
Qed.

(** What one lookup does whose argument is built by the closure. *)
Lemma robustFetch_lookup (warns : bool) (arg : E ClarityValue)
    (options : ClarityValue -> request) (w : W) :
  exists r w' t,
    robustFetchWith warns (callWith respond arg options) 3 500 w = (r, w', t)
    /\ updates t = []
    /\ lookups (requestsWith arg options) (calls t)
    /\ r <> inr None.
Proof.
  destruct arg as [e|cv]; cbn [callWith requestsWith].
  - destruct (robustFetch_refused warns e w) as (t & Hrun & Hcalls & Hupd & _).
    exists (inl e), w, t. rewrite Hcalls. repeat split; auto; [constructor|discriminate].
  - destruct (robustFetch_default warns (options cv) w)
      as (r & w' & t & n & Hrun & Hn & Hcalls & Hupd & Hsome).
    exists r, w', t. rewrite Hcalls. repeat split; auto.
    rewrite <- (app_nil_r (repeat (options cv) n)).
    constructor; [exact Hn|constructor].
Qed.
End RetryFacts.

(** The closures of the scans call when the index is not negative. *)
Lemma uintCV_nonneg (i : Z) : 0 <= i -> uintCV (Int i) = inr (UIntCV (Int i)).
Proof. intros H. cbn [uintCV]. apply Z.leb_le in H. rewrite H. reflexivity. Qed.

Lemma leaderboard_fetchProps_nonneg (W : Type)
    (respond : request -> W -> (exn + json) * W)
    (CONTRACT_ADDRESS CONTRACT_NAME : string) (i : Z) :
  0 <= i ->
  Leaderboard.fetchProps respond CONTRACT_ADDRESS CONTRACT_NAME i
  = fetchCallReadOnlyFunction respond
      (Leaderboard.propsRequest CONTRACT_ADDRESS CONTRACT_NAME i).
Proof.
  intros H. unfold Leaderboard.fetchProps. rewrite (uintCV_nonneg H). reflexivity.
Qed.

Lemma history_fetchProps_nonneg (W : Type)
    (respond : request -> W -> (exn + json) * W)
    (CONTRACT_ADDRESS CONTRACT_NAME userAddress : string) (i : Z) :
  0 <= i ->
  History.fetchProps respond CONTRACT_ADDRESS CONTRACT_NAME userAddress (Int i)
  = fetchCallReadOnlyFunction respond
      (History.propsRequest CONTRACT_ADDRESS CONTRACT_NAME userAddress (Int i)).
Proof.
  intros H. unfold History.fetchProps. rewrite (uintCV_nonneg H). reflexivity.
Qed.

(** C1, as amended.  [robustFetch] (either copy) with retry count [R]
    and base delay [D], on an operation that fails [k < R] times and
    then succeeds, returns the success result after exactly [k + 1]
    invocations; on an operation that fails [R >= 1] times in a row it
    throws the failure of the last attempt after exactly [R]
    invocations.  The waits are [D] before every attempt and [D * 2^i]
    after the failure of attempt [i] when another attempt follows:
    [D, D, D, D*2, D, D*4, D, ...]. *)
Theorem robustFetch_retries (W : Type)
    (respond : request -> W -> (exn + json) * W) (req : request) (R D : Z) :
  (forall (k : nat) (w : W) (v : json) (w' : W),
      Z.of_nat k < R ->
      failsThenSucceeds respond req k w v w' ->
      exists t t',
        Leaderboard.robustFetch (fetchCallReadOnlyFunction respond req) R D w
        = (inr (Some v), w', t)
        /\ History.robustFetch (fetchCallReadOnlyFunction respond req) R D w
           = (inr (Some v), w', t')
        /\ calls t = repeat req (S k) /\ calls t' = repeat req (S k)
        /\ sleeps t = waits D 0 k /\ sleeps t' = waits D 0 k)
  /\
  (forall (w : W) (e : exn) (w' : W),
      1 <= R ->
      keepsFailing respond req (Z.to_nat (R - 1)) w e w' ->
      exists t t',
        Leaderboard.robustFetch (fetchCallReadOnlyFunction respond req) R D w
        = (inl e, w', t)
        /\ History.robustFetch (fetchCallReadOnlyFunction respond req) R D w
           = (inl e, w', t')
        /\ calls t = repeat req (Z.to_nat R) /\ calls t' = repeat req (Z.to_nat R)
        /\ sleeps t = waits D 0 (Z.to_nat (R - 1))
        /\ sleeps t' = waits D 0 (Z.to_nat (R - 1))).
Proof.
  unfold Leaderboard.robustFetch, History.robustFetch, robustFetchWith. split.
  - intros k w v w' Hk Hop.
    destruct (@robustFetch_from_succeeds W respond true req R D k (Z.to_nat R) 0 w v w')
      as (t & Ht & Hc & Hs); [lia|lia|exact Hop|].
    destruct (@robustFetch_from_succeeds W respond false req R D k (Z.to_nat R) 0 w v w')
      as (t' & Ht' & Hc' & Hs'); [lia|lia|exact Hop|].
    exists t, t'. repeat split; assumption.
  - intros w e w' HR Hop.
    assert (HS : Z.to_nat R = S (Z.to_nat (R - 1))) by lia.
    destruct (@robustFetch_from_exhausts W respond true req R D
                (Z.to_nat (R - 1)) (Z.to_nat R) 0 w e w')
      as (t & Ht & Hc & Hs); [lia|lia|exact Hop|].
    destruct (@robustFetch_from_exhausts W respond false req R D
                (Z.to_nat (R - 1)) (Z.to_nat R) 0 w e w')
      as (t' & Ht' & Hc' & Hs'); [lia|lia|exact Hop|].
    exists t, t'. rewrite Hc, Hc', <- HS. repeat split; assumption.
Qed.

Lemma robustFetch_retries_witness :
  (exists t t',
      Leaderboard.robustFetch (fetchCallReadOnlyFunction Sample.respond sampleCall)
        3 500 (after 0 [0%nat])
      = (inr (Some sampleAnswer), after 2 [0%nat], t)
      /\ History.robustFetch (fetchCallReadOnlyFunction Sample.respond sampleCall)
           3 500 (after 0 [0%nat])
         = (inr (Some sampleAnswer), after 2 [0%nat], t')
      /\ calls t = repeat sampleCall 2 /\ calls t' = repeat sampleCall 2
      /\ sleeps t = waits 500 0 1 /\ sleeps t' = waits 500 0 1)
  /\
  (exists t t',
      Leaderboard.robustFetch (fetchCallReadOnlyFunction Sample.respond sampleCall)
        3 500 (after 0 [0; 1; 2]%nat)
      = (inl (Rejected "rate limited"), after 3 [0; 1; 2]%nat, t)
      /\ History.robustFetch (fetchCallReadOnlyFunction Sample.respond sampleCall)
           3 500 (after 0 [0; 1; 2]%nat)
         = (inl (Rejected "rate limited"), after 3 [0; 1; 2]%nat, t')
      /\ calls t = repeat sampleCall 3 /\ calls t' = repeat sampleCall 3
      /\ sleeps t = waits 500 0 2 /\ sleeps t' = waits 500 0 2).
Proof.
  destruct (@robustFetch_retries Sample.World Sample.respond sampleCall 3 500)
    as [Hsucceeds Hfails].
  split.
  - apply (Hsucceeds 1%nat); [lia|].
    simpl. do 2 eexists. split; reflexivity.
  - apply Hfails; [lia|].
    simpl. do 2 eexists. split; [reflexivity|].
    do 2 eexists. split; reflexivity.
Defined.

(** With two failures: 500 before each of the three attempts, 500 and
    1000 after the first two. *)
Example waits_two_failures : waits 500 0 2 = [500; 500; 500; 1000; 500].
Proof. reflexivity. Qed.

(** C1 as stated fails on the delays: with [R = 3], [D = 500] and one
    failure the waits are [500, 500, 500], not [500, 500]. *)
Lemma robustFetch_delays_counterexample :
  failsThenSucceeds Sample.respond sampleCall 1
    (after 0 [0%nat]) sampleAnswer (after 2 [0%nat])
  /\ sleeps (snd (Leaderboard.robustFetch
                    (fetchCallReadOnlyFunction Sample.respond sampleCall)
                    3 500 (after 0 [0%nat])))
     = [500; 500; 500]
  /\ sleeps (snd (History.robustFetch
                    (fetchCallReadOnlyFunction Sample.respond sampleCall)
                    3 500 (after 0 [0%nat])))
     = [500; 500; 500]
  /\ backoffsOnly 500 1 = [500; 500]
  /\ sleeps (snd (Leaderboard.robustFetch
                    (fetchCallReadOnlyFunction Sample.respond sampleCall)
                    3 500 (after 0 [0%nat])))
     <> backoffsOnly 500 1.
Proof.
  split; [|split; [|split; [|split]]].
  - simpl. do 2 eexists. split; reflexivity.
  - vm_compute. reflexivity.
  - vm_compute. reflexivity.
  - reflexivity.
  - vm_compute. discriminate.
Qed.

(** C10.  With a retry count of zero or less, [robustFetch] (either
    copy) resolves with [undefined]: the operation is never invoked,
    nothing is awaited and nothing is thrown. *)
Theorem robustFetch_no_retries (W A : Type) (fn : M W A) (R D : Z) (w : W) :
  R <= 0 ->
  Leaderboard.robustFetch fn R D w = (inr None, w, [])
  /\ History.robustFetch fn R D w = (inr None, w, []).
Proof.
  intros HR.
  unfold Leaderboard.robustFetch, History.robustFetch, robustFetchWith.
  replace (Z.to_nat R) with 0%nat by lia.
  split; reflexivity.
Qed.

Lemma robustFetch_no_retries_witness :
  Leaderboard.robustFetch (fetchCallReadOnlyFunction Sample.respond sampleCall)
    0 500 (after 0 [])
  = (inr None, after 0 [], [])
  /\ History.robustFetch (fetchCallReadOnlyFunction Sample.respond sampleCall)
       0 500 (after 0 [])
     = (inr None, after 0 [], []).
Proof.
  apply robustFetch_no_retries. lia.
Defined.

(** ** Intervals and loops *)

Lemma interval_empty (a b : Z) : b <= a -> interval a b = [].
Proof.
  intros H. unfold interval. replace (Z.to_nat (b - a)) with 0%nat by lia.
  reflexivity.
Qed.

Lemma interval_first (a b : Z) : a < b -> interval a b = a :: interval (a + 1) b.
Proof.
  intros H. unfold interval.
  replace (Z.to_nat (b - a)) with (S (Z.to_nat (b - (a + 1)))) by lia.
  cbn [seq map]. rewrite <- seq_shift, map_map. f_equal; [lia|].
  apply map_ext. intros k. lia.
Qed.

Lemma interval_last (a b : Z) : a <= b -> interval a (b + 1) = interval a b ++ [b].
Proof.
  intros H. unfold interval.
  replace (Z.to_nat (b + 1 - a)) with (S (Z.to_nat (b - a))) by lia.
  rewrite seq_S, map_app. cbn [map]. do 2 f_equal. lia.
Qed.

Lemma in_interval (a b i : Z) : In i (interval a b) <-> a <= i < b.
Proof.
  unfold interval. rewrite in_map_iff. split.
  - intros (k & <- & Hk). apply in_seq in Hk. lia.
  - intros H. exists (Z.to_nat (i - a)). split; [lia|]. apply in_seq. lia.
Qed.

Lemma length_interval (a b : Z) : List.length (interval a b) = Z.to_nat (b - a).
Proof. unfold interval. rewrite length_map, length_seq. reflexivity. Qed.


Lemma interval_split (a i b : Z) :
  a <= i <= b -> interval a b = interval a i ++ interval i b.
Proof.
  intros H. remember (Z.to_nat (i - a)) as n eqn:Hn.
  revert a H Hn. induction n as [|n IH]; intros a H Hn.
  - replace i with a by lia. rewrite (@interval_empty a a) by lia. reflexivity.
  - rewrite (@interval_first a b), (@interval_first a i) by lia.
    cbn [app]. f_equal. apply IH; lia.
Qed.

Section LoopFacts.
Variable W : Type.
Variables X A : Type.
Variable body : Z -> A -> M W A.

Lemma bind_ext (B C : Type) (m : M W B) (f g : B -> M W C) (w : W) :
  (forall b w', f b w' = g b w') -> bind m f w = bind m g w.
Proof.
  intros H. unfold bind. destruct (m w) as [[[e|b] w1] t1]; [reflexivity|].
  rewrite H. reflexivity.
Qed.

(** The ascending loop visits the interval in order. *)
Lemma for_up_interval (fuel : nat) :
  forall (a b : Z) (acc : A) (w : W),
    Z.of_nat fuel = Z.max 0 (b - a) ->
    for_up fuel a b body acc w = for_of (interval a b) body acc w.
Proof.
  induction fuel as [|fuel IH]; intros a b acc w Hfuel.
  - rewrite interval_empty by lia. reflexivity.
  - cbn [for_up]. replace (a <? b) with true by (symmetry; apply Z.ltb_lt; lia).
    rewrite interval_first by lia. cbn [for_of].
    apply bind_ext. intros acc' w'. apply IH. lia.
Qed.

(** The descending loop visits it in reverse. *)
Lemma for_down_interval (fuel : nat) :
  forall (a b : Z) (acc : A) (w : W),
    Z.of_nat fuel = Z.max 0 (a - b + 1) ->
    for_down fuel a b body acc w = for_of (rev (interval b (a + 1))) body acc w.
Proof.
  induction fuel as [|fuel IH]; intros a b acc w Hfuel.
  - rewrite interval_empty by lia. reflexivity.
  - cbn [for_down]. replace (a >=? b) with true by (symmetry; apply Z.geb_le; lia).
    rewrite interval_last by lia. rewrite rev_app_distr. cbn [rev app for_of].
    apply bind_ext. intros acc' w'.
    rewrite IH by lia. replace (a - 1 + 1) with a by lia. reflexivity.
Qed.

Lemma forUp_interval (a b : Z) (acc : A) (w : W) :
  forUp (Int a) (Int b) body acc w = for_of (interval a b) body acc w.
Proof. unfold forUp. apply for_up_interval. lia. Qed.

Lemma forDown_interval (a b : Z) (acc : A) (w : W) :
  forDown (Int a) (Int b) body acc w = for_of (rev (interval b (a + 1))) body acc w.
Proof. unfold forDown. apply for_down_interval. lia. Qed.

Variable step : X -> A -> M W A.

Lemma for_of_app (xs ys : list X) :
  forall (acc : A) (w : W),
    for_of (xs ++ ys) step acc w
    = bind (for_of xs step acc) (fun acc' => for_of ys step acc') w.
Proof.
  induction xs as [|x xs IH]; intros acc w; cbn [app for_of].
  - unfold bind, ret. destruct (for_of ys step acc w) as [[r w'] t]. reflexivity.
  - unfold bind.
    destruct (step x acc w) as [[[e|acc1] w1] t1]; [reflexivity|].
    rewrite IH. unfold bind.
    destruct (for_of xs step acc1 w1) as [[[e|acc2] w2] t2]; [reflexivity|].
    destruct (for_of ys step acc2 w2) as [[r w3] t3].
    rewrite app_assoc. reflexivity.
Qed.
End LoopFacts.

(** ** Traces of loops *)

Lemma updates_app (t1 t2 : list event) : updates (t1 ++ t2) = updates t1 ++ updates t2.
Proof. apply filter_app. Qed.

Lemma consoleOnly_calls (t : list event) : consoleOnly t -> calls t = [].
Proof.
  unfold consoleOnly. induction t as [|ev t IH]; [reflexivity|].
  cbn [forallb]. intros H. apply andb_prop in H. destruct H as [Hev Ht].
  destruct ev; try discriminate; simpl; auto.
Qed.

Lemma consoleOnly_updates (t : list event) : consoleOnly t -> updates t = [].
Proof.
  unfold consoleOnly. induction t as [|ev t IH]; [reflexivity|].
  cbn [forallb]. intros H. apply andb_prop in H. destruct H as [Hev Ht].
  destruct ev; try discriminate; simpl; auto.
Qed.

Lemma lookups_app (reqs1 reqs2 cs1 cs2 : list request) :
  lookups reqs1 cs1 -> lookups reqs2 cs2 -> lookups (reqs1 ++ reqs2) (cs1 ++ cs2).
Proof.
  induction 1 as [|req n reqs cs Hn H IH]; intros H2; [exact H2|].
  cbn [app]. rewrite <- app_assoc. constructor; auto.
Qed.

(** A lookup is at least one call. *)
Lemma lookups_length (reqs cs : list request) :
  lookups reqs cs -> (List.length reqs <= List.length cs)%nat.
Proof.
  induction 1 as [|req n reqs cs Hn H IH]; [reflexivity|].
  cbn [List.length]. rewrite length_app, repeat_length. lia.
Qed.

Section ScanFacts.
Variable W : Type.
Variables X A : Type.
Variable step : X -> A -> M W A.

(** The requests a step looks up: none or one. *)
Variable requestsOf : X -> list request.

(** Every step ends normally, updates no React state, and makes the
    calls of the lookups of its element. *)
Hypothesis step_lookups :
  forall (x : X) (acc : A) (w : W),
    exists acc' w' t,
      step x acc w = (inr acc', w', t)
      /\ updates t = []
      /\ lookups (requestsOf x) (calls t).

Lemma for_of_lookups (xs : list X) :
  forall (acc : A) (w : W),
    exists acc' w' t,
      for_of xs step acc w = (inr acc', w', t)
      /\ updates t = []
      /\ lookups (flat_map requestsOf xs) (calls t).
Proof.
  induction xs as [|x xs IH]; intros acc w; cbn [for_of flat_map].
  - exists acc, w, []. repeat split. constructor.
  - destruct (step_lookups x acc w) as (acc1 & w1 & t1 & H1 & Hu1 & Hl1).
    destruct (IH acc1 w1) as (acc2 & w2 & t2 & H2 & Hu2 & Hl2).
    exists acc2, w2, (t1 ++ t2). unfold bind. rewrite H1, H2.
    split; [reflexivity|]. split.
    + rewrite updates_app, Hu1, Hu2. reflexivity.
    + rewrite calls_app. apply lookups_app; assumption.
Qed.
End ScanFacts.

(** ** The scan of the leaderboard *)

Section LeaderboardFacts.
Variable W : Type.
Variable respond : request -> W -> (exn + json) * W.
Variables CONTRACT_ADDRESS CONTRACT_NAME : string.
Variable isPrincipal : string -> bool.

Let propsCall := Leaderboard.propsCall CONTRACT_ADDRESS CONTRACT_NAME.
Let propsRequest := Leaderboard.propsRequest CONTRACT_ADDRESS CONTRACT_NAME.
Let statsCall := Leaderboard.statsCall CONTRACT_ADDRESS CONTRACT_NAME.
Let statsRequest := Leaderboard.statsRequest CONTRACT_ADDRESS CONTRACT_NAME.
Let fetchProps := Leaderboard.fetchProps respond CONTRACT_ADDRESS CONTRACT_NAME.
Let fetchUserStats :=
  Leaderboard.fetchUserStats respond CONTRACT_ADDRESS CONTRACT_NAME isPrincipal.
Let scanProps := Leaderboard.scanProps respond CONTRACT_ADDRESS CONTRACT_NAME.
Let fetchStats := Leaderboard.fetchStats respond CONTRACT_ADDRESS CONTRACT_NAME isPrincipal.

(** One iteration of the scan, from the outcome of its lookup: the
    identities of the record are added, and nothing else changes; a
    failure is logged and not thrown. *)
Lemma scanProps_outcome (i : Z) (users : list json) (w : W)
    (r : exn + option json) (w1 : W) (t1 : list event) :
  Leaderboard.robustFetch (fetchProps i) 3 500 w = (r, w1, t1) ->
  exists tlog,
    consoleOnly tlog
    /\ scanProps i users w = (inr (addAll (participantsOf r) users), w1, t1 ++ tlog).
Proof.
  intros Hrun.
  unfold scanProps, Leaderboard.scanProps, try_catch, bind.
  fold (fetchProps i). rewrite Hrun.
  destruct r as [e|[propsJSON|]]; cbn [participantsOf]; run.
  - exists [ConsoleError "Error fetching props" e]. split; reflexivity.
  - destruct (propDataOf propsJSON) as [e|propData]; run.
    + exists [ConsoleError "Error fetching props" e]. split; reflexivity.
    + destruct (truthy propData && truthy (prop propData "giver")
                && truthy (prop propData "receiver"));
        run; exists []; rewrite app_nil_r; split; reflexivity.
  - exists [ConsoleError "Error fetching props" TypeError]. split; reflexivity.
Qed.

Lemma scanProps_lookups (i : Z) (users : list json) (w : W) :
  exists users' w' t,
    scanProps i users w = (inr users', w', t)
    /\ updates t = []
    /\ lookups (requestsWith (uintCV (Int i)) propsCall) (calls t).
Proof.
  destruct (robustFetch_lookup respond true (uintCV (Int i)) propsCall w)
    as (r & w1 & t1 & Hrun & Hupd & Hcalls & _).
  destruct (scanProps_outcome i users w Hrun) as (tlog & Hlog & Hscan).
  do 3 eexists. split; [exact Hscan|]. split.
  - rewrite updates_app, Hupd, (consoleOnly_updates Hlog). reflexivity.
  - rewrite calls_app, (consoleOnly_calls Hlog), app_nil_r. exact Hcalls.
Qed.

(** The indices of a window are not negative, so [uintCV] accepts
    them. *)
Lemma window_nonneg (cap : Z) (totalProps : number) :
  Forall (fun i => 0 <= i) (window cap totalProps).
Proof.
  destruct totalProps as [|T]; cbn [window]; [constructor|].
  apply Forall_forall. intros i Hi. apply in_interval in Hi. lia.
Qed.

Lemma requests_nonneg (options : ClarityValue -> request) (indices : list Z) :
  Forall (fun i => 0 <= i) indices ->
  flat_map (fun i => requestsWith (uintCV (Int i)) options) indices
  = map (fun i => options (UIntCV (Int i))) indices.
Proof.
  induction 1 as [|i indices Hi _ IH]; [reflexivity|].
  cbn [flat_map map]. rewrite IH, (uintCV_nonneg Hi). reflexivity.
Qed.

(** The scan of a list of indices that are not negative: one lookup
    per index. *)
Lemma scan_lookups (indices : list Z) (users : list json) (w : W) :
  Forall (fun i => 0 <= i) indices ->
  exists users' w' t,
    for_of indices scanProps users w = (inr users', w', t)
    /\ updates t = []
    /\ lookups (map propsRequest indices) (calls t).
Proof.
  intros Hindices.
  destruct (for_of_lookups scanProps
              (fun i => requestsWith (uintCV (Int i)) propsCall)
              scanProps_lookups indices users w)
    as (users' & w' & t & Hrun & Hupd & Hcalls).
  exists users', w', t. rewrite (requests_nonneg propsCall Hindices) in Hcalls.
  auto.
Qed.

Lemma start_of_window (cap T : Z) : Z.max 0 (T - Z.min cap T) = Z.max 0 (T - cap).
Proof. lia. Qed.

(** The scan runs its body on the window, in ascending order. *)
Lemma scanRecent_window (cap : Z) (totalProps : number) (w : W) :
  Leaderboard.scanRecent respond CONTRACT_ADDRESS CONTRACT_NAME cap totalProps w
  = for_of (window cap totalProps) scanProps [] w.
Proof.
  unfold Leaderboard.scanRecent, startIndexOf. destruct totalProps as [|T].
  - reflexivity.
  - cbn [Math_min sub Math_max window].
    rewrite forUp_interval, start_of_window. reflexivity.
Qed.

(** One iteration of the statistics loop, from the outcome of its
    lookup: a record for this address is pushed, or nothing is. *)
Lemma fetchStats_outcome (address : json) (stats : list UserStats) (w : W)
    (r : exn + option json) (w1 : W) (t1 : list event) :
  Leaderboard.robustFetch (fetchUserStats address) 3 500 w = (r, w1, t1) ->
  exists tlog pushed,
    consoleOnly tlog
    /\ Forall (fun x => stats_address x = address) pushed
    /\ (List.length pushed <= 1)%nat
    /\ fetchStats address stats w = (inr (stats ++ pushed), w1, t1 ++ tlog).
Proof.
  intros Hrun.
  unfold fetchStats, Leaderboard.fetchStats, try_catch, bind.
  fold (fetchUserStats address). rewrite Hrun.
  assert (Hnone : forall e,
             exists tlog pushed,
               consoleOnly tlog
               /\ Forall (fun x => stats_address x = address) pushed
               /\ (List.length pushed <= 1)%nat
               /\ (@inr exn _ stats, w1, t1 ++ [ConsoleError "Error fetching stats" e])
                  = (inr (stats ++ pushed), w1, t1 ++ tlog)).
  { intros e. exists [ConsoleError "Error fetching stats" e], [].
    rewrite app_nil_r. repeat split; auto. }
  destruct r as [e|[statsJSON|]]; run; [apply Hnone| |apply Hnone].
  destruct (get statsJSON "value") as [e|v]; run; [apply Hnone|].
  destruct (truthy (getOpt v "value")); run.
  2:{ exists [], []. rewrite !app_nil_r. repeat split; auto. }
  destruct (get (prop (prop v "value") "props-received") "value") as [e|received];
    run; [apply Hnone|].
  destruct (get (prop (prop v "value") "props-given") "value") as [e|given];
    run; [apply Hnone|].
  eexists [], [_]. rewrite app_nil_r.
  repeat split; auto.
Qed.

(** The calls of the lookup of an identity: none when [principalCV]
    does not accept it. *)
Lemma requests_accepted (address : json) :
  requestsWith (principalCV isPrincipal address) (statsCall address)
  = if accepted isPrincipal address then [statsRequest address] else [].
Proof.
  unfold accepted, requestsWith, principalCV.
  destruct address as [| | |s| |]; try reflexivity.
  destruct (isPrincipal s); reflexivity.
Qed.

Lemma requests_filter (users : list json) :
  flat_map (fun a => requestsWith (principalCV isPrincipal a) (statsCall a)) users
  = map statsRequest (filter (accepted isPrincipal) users).
Proof.
  induction users as [|a users IH]; [reflexivity|].
  cbn [flat_map filter]. rewrite IH, requests_accepted.
  destruct (accepted isPrincipal a); reflexivity.
Qed.

(** A lookup that pushed a record was made for an identity that
    [principalCV] accepts. *)
Lemma fetchStats_accepted (address : json) (stats pushed : list UserStats)
    (w w' : W) (t : list event) :
  fetchStats address stats w = (inr (stats ++ pushed), w', t) ->
  pushed <> [] ->
  accepted isPrincipal address = true.
Proof.
  unfold accepted. destruct (principalCV isPrincipal address) as [e|cv] eqn:Harg;
    [|reflexivity].
  intros Hstep Hpushed. exfalso. apply Hpushed.
  destruct (@robustFetch_refused W true e w) as (t0 & Hrun & _).
  unfold fetchStats, Leaderboard.fetchStats, try_catch, bind in Hstep.
  unfold Leaderboard.fetchUserStats, Leaderboard.robustFetch in Hstep.
  rewrite Harg in Hstep. cbn [callWith] in Hstep. rewrite Hrun in Hstep.
  cbn [emit ret] in Hstep. injection Hstep as Hst _ _.
  rewrite <- (app_nil_r stats) in Hst at 1. apply app_inv_head in Hst. auto.
Qed.

Lemma fetchStats_lookups (address : json) (stats : list UserStats) (w : W) :
  exists stats' w' t,
    fetchStats address stats w = (inr stats', w', t)
    /\ updates t = []
    /\ lookups (requestsWith (principalCV isPrincipal address) (statsCall address))
         (calls t).
Proof.
  destruct (robustFetch_lookup respond true (principalCV isPrincipal address)
              (statsCall address) w)
    as (r & w1 & t1 & Hrun & Hupd & Hcalls & _).
  destruct (fetchStats_outcome address stats w Hrun)
    as (tlog & pushed & Hlog & _ & _ & Hstep).
  do 3 eexists. split; [exact Hstep|]. split.
  - rewrite updates_app, Hupd, (consoleOnly_updates Hlog). reflexivity.
  - rewrite calls_app, (consoleOnly_calls Hlog), app_nil_r. exact Hcalls.
Qed.

(** The statistics loop: one lookup per identity that [principalCV]
    accepts, and no call for the others. *)
Lemma stats_lookups (users : list json) (stats : list UserStats) (w : W) :
  exists stats' w' t,
    for_of users fetchStats stats w = (inr stats', w', t)
    /\ updates t = []
    /\ lookups (map statsRequest (filter (accepted isPrincipal) users)) (calls t).
Proof.
  destruct (for_of_lookups fetchStats
              (fun a => requestsWith (principalCV isPrincipal a) (statsCall a))
              fetchStats_lookups users stats w)
    as (stats' & w' & t & Hrun & Hupd & Hcalls).
  exists stats', w', t. rewrite requests_filter in Hcalls. auto.
Qed.


End LeaderboardFacts.

(** ** The scans of the history page *)

Section HistoryFacts.
Variable W : Type.
Variable respond : request -> W -> (exn + json) * W.
Variables CONTRACT_ADDRESS CONTRACT_NAME : string.
Variable activeTab : TabType.
Variable userAddress : string.

Let propsCall := History.propsCall CONTRACT_ADDRESS CONTRACT_NAME userAddress.
Let propsRequest := History.propsRequest CONTRACT_ADDRESS CONTRACT_NAME userAddress.
Let fetchProps :=
  History.fetchProps respond CONTRACT_ADDRESS CONTRACT_NAME userAddress.
Let scanProps :=
  History.scanProps respond CONTRACT_ADDRESS CONTRACT_NAME activeTab userAddress.
Let fetchReceived :=
  History.fetchReceived respond CONTRACT_ADDRESS CONTRACT_NAME userAddress.

(** The ways an iteration ends: with nothing pushed and maybe an
    error logged, or with one item pushed. *)
Let ends (P : HistoryItem -> Prop) (items : list HistoryItem) (w1 : W)
    (t1 : list event) (result : (exn + list HistoryItem) * W * list event) : Prop :=
  exists tlog pushed,
    consoleOnly tlog
    /\ Forall P pushed
    /\ (List.length pushed <= 1)%nat
    /\ result = (inr (items ++ pushed), w1, t1 ++ tlog).

Lemma ends_skip (P : HistoryItem -> Prop) items w1 t1 :
  ends P items w1 t1 (inr items, w1, t1).
Proof. exists [], []. rewrite !app_nil_r. repeat split; auto. Qed.

Lemma ends_error (P : HistoryItem -> Prop) items w1 t1 text e :
  ends P items w1 t1 (inr items, w1, t1 ++ [ConsoleError text e]).
Proof. exists [ConsoleError text e], []. rewrite !app_nil_r. repeat split; auto. Qed.

Lemma ends_push (P : HistoryItem -> Prop) items w1 t1 item :
  P item -> ends P items w1 t1 (inr (items ++ [item]), w1, t1).
Proof. intros H. exists [], [item]. rewrite !app_nil_r. repeat split; auto. Qed.

Lemma itemOf_fields (n : number) (ty : ItemType) (g r propData : json)
    (item : HistoryItem) :
  History.itemOf n ty g r propData = inr item -> id item = n /\ type item = ty.
Proof.
  unfold History.itemOf, bindE.
  destruct (History.field propData "amount"); [discriminate|].
  destruct (History.field propData "message"); [discriminate|].
  destruct (History.field propData "timestamp"); [discriminate|].
  intros [= <-]. split; reflexivity.
Qed.

(** One iteration of the scan, from the outcome of its lookup. *)
Lemma history_scanProps_outcome (i : Z) (items : list HistoryItem) (w : W)
    (r : exn + option json) (w1 : W) (t1 : list event) :
  History.robustFetch (fetchProps (Int i)) 3 500 w = (r, w1, t1) ->
  ends (fun x => id x = Int i) items w1 t1 (scanProps i items w).
Proof.
  intros Hrun.
  unfold scanProps, History.scanProps, try_catch, bind.
  fold (fetchProps (Int i)). rewrite Hrun.
  destruct r as [e|[propsJSON|]]; run; try apply ends_error.
  destruct (propDataOf propsJSON) as [e|propData]; run; try apply ends_error.
  destruct (truthy propData); run; try apply ends_skip.
  destruct (History.field propData "giver") as [e|g]; run; try apply ends_error.
  destruct (History.field propData "receiver") as [e|rc]; run; try apply ends_error.
  destruct (History.isTab activeTab TabGiven && strictEq g (JStr userAddress)).
  - destruct (History.itemOf (Int i) given g rc propData) as [e|item] eqn:Hitem;
      run; [apply ends_error|].
    apply ends_push. apply (itemOf_fields _ _ _ _ _ Hitem).
  - destruct (History.isTab activeTab TabAll
              && (strictEq g (JStr userAddress) || strictEq rc (JStr userAddress)));
      run; try apply ends_skip.
    destruct (History.itemOf (Int i) _ g rc propData) as [e|item] eqn:Hitem;
      run; [apply ends_error|].
    apply ends_push. apply (itemOf_fields _ _ _ _ _ Hitem).
Qed.

Lemma history_scanProps_lookups (i : Z) (items : list HistoryItem) (w : W) :
  exists items' w' t,
    scanProps i items w = (inr items', w', t)
    /\ updates t = []
    /\ lookups (requestsWith (uintCV (Int i)) propsCall) (calls t).
Proof.
  destruct (robustFetch_lookup respond false (uintCV (Int i)) propsCall w)
    as (r & w1 & t1 & Hrun & Hupd & Hcalls & _).
  destruct (history_scanProps_outcome i items w Hrun)
    as (tlog & pushed & Hlog & _ & _ & Hstep).
  do 3 eexists. split; [exact Hstep|]. split.
  - rewrite updates_app, Hupd, (consoleOnly_updates Hlog). reflexivity.
  - rewrite calls_app, (consoleOnly_calls Hlog), app_nil_r. exact Hcalls.
Qed.

(** The scan of a list of indices that are not negative: one lookup
    per index. *)
Lemma history_scan_lookups (indices : list Z) (items : list HistoryItem) (w : W) :
  Forall (fun i => 0 <= i) indices ->
  exists items' w' t,
    for_of indices scanProps items w = (inr items', w', t)
    /\ updates t = []
    /\ lookups (map (fun i => propsRequest (Int i)) indices) (calls t).
Proof.
  intros Hindices.
  destruct (for_of_lookups scanProps
              (fun i => requestsWith (uintCV (Int i)) propsCall)
              history_scanProps_lookups indices items w)
    as (items' & w' & t & Hrun & Hupd & Hcalls).
  exists items', w', t. rewrite (requests_nonneg propsCall Hindices) in Hcalls.
  auto.
Qed.

(** The scan runs its body on the window, in descending order. *)
Lemma history_scanRecent_window (cap : Z) (totalProps : number) (w : W) :
  History.scanRecent respond CONTRACT_ADDRESS CONTRACT_NAME activeTab userAddress
    cap totalProps w
  = for_of (rev (window cap totalProps)) scanProps [] w.
Proof.
  unfold History.scanRecent, startIndexOf. destruct totalProps as [|T].
  - reflexivity.
  - cbn [Math_min sub Math_max window].
    rewrite forDown_interval, start_of_window.
    replace (T - 1 + 1) with T by lia. reflexivity.
Qed.
End HistoryFacts.



(** ** The two pages as a whole *)

Lemma topUsersAfter_updates (t : list event) :
  topUsersAfter t = topUsersAfter (updates t).
Proof.
  unfold topUsersAfter. generalize (@nil LeaderboardUser).
  induction t as [|ev t IH]; intros st; [reflexivity|].
  destruct ev; cbn; apply IH.
Qed.

Lemma historyItemsAfter_updates (t : list event) :
  historyItemsAfter t = historyItemsAfter (updates t).
Proof.
  unfold historyItemsAfter. generalize (@nil HistoryItem).
  induction t as [|ev t IH]; intros st; [reflexivity|].
  destruct ev; cbn; apply IH.
Qed.

Section PageFacts.
Variable W : Type.
Variable respond : request -> W -> (exn + json) * W.
Variables CONTRACT_ADDRESS CONTRACT_NAME : string.
Variable isPrincipal : string -> bool.

Let fetch := fetchCallReadOnlyFunction respond.

(** What is known of a lookup that has run. *)
Lemma robustFetch_ran (warns : bool) (req : request) (w : W)
    (r : exn + option json) (w1 : W) (t1 : list event) :
  robustFetchWith warns (fetch req) 3 500 w = (r, w1, t1) ->
  updates t1 = []
  /\ (forall req', In req' (calls t1) -> req' = req)
  /\ r <> inr None.
Proof.
  intros Hrun.
  destruct (robustFetch_default respond warns req w)
    as (r' & w' & t' & n & Hrun' & Hn & Hcalls & Hupd & Hsome).
  fold fetch in Hrun'. rewrite Hrun in Hrun'. injection Hrun' as <- <- <-.
  split; [exact Hupd|]. split; [|exact Hsome].
  intros req' Hin. rewrite Hcalls in Hin. apply repeat_spec in Hin. exact Hin.
Qed.

(** A [try] with a logging [catch] and a [finally] never throws. *)
Lemma guarded_never_throws (m : M W unit) (text : string) (w : W) :
  exists w' t,
    try_finally (try_catch m (fun error => emit (ConsoleError text error)))
      (emit (SetIsLoading false)) w
    = (inr tt, w', t).
Proof.
  unfold try_finally, try_catch, emit.
  destruct (m w) as [[[e|[]] w1] t1]; do 2 eexists; reflexivity.
Qed.

Lemma loadLeaderboard_never_throws (cap : Z) (w : W) :
  exists w' t,
    Leaderboard.loadLeaderboardWith respond CONTRACT_ADDRESS CONTRACT_NAME isPrincipal cap w
    = (inr tt, w', t).
Proof. apply guarded_never_throws. Qed.

Lemma loadHistory_never_throws (activeTab : TabType) (userAddress : string)
    (cap : Z) (w : W) :
  exists w' t,
    History.loadHistoryWith respond CONTRACT_ADDRESS CONTRACT_NAME
      activeTab userAddress cap w
    = (inr tt, w', t).
Proof.
  unfold History.loadHistoryWith.
  match goal with
  | |- context [try_finally (try_catch ?m _) _] =>
      destruct (guarded_never_throws m "Error loading history:" w) as (w' & t & H)
  end.
  unfold bind at 1 2. run. rewrite H. do 2 eexists. reflexivity.
Qed.
End PageFacts.

(** C8.  When the count lookup answers a total of zero, both pages end
    normally with an empty report and make no per-index lookup: the
    only remote calls of the run are those of the count lookup.  (On
    the history page this is the scan of the "given" and "all" tabs.) *)
Theorem empty_total_empty_report (W : Type)
    (respond : request -> W -> (exn + json) * W)
    (CONTRACT_ADDRESS CONTRACT_NAME : string)
    (isPrincipal : string -> bool)
    (activeTab : TabType) (userAddress : string) (cap : Z) (w : W) :
  (forall (counterJSON : json) (w1 : W) (t1 : list event),
      Leaderboard.robustFetch
        (fetchCallReadOnlyFunction respond
           (Leaderboard.counterRequest CONTRACT_ADDRESS CONTRACT_NAME)) 3 500 w
      = (inr (Some counterJSON), w1, t1) ->
      totalPropsOf counterJSON = inr (Int 0) ->
      let t := t1 ++ [SetIsLoading false; SetIsLoading false] in
      Leaderboard.loadLeaderboardWith respond CONTRACT_ADDRESS CONTRACT_NAME isPrincipal cap w
      = (inr tt, w1, t)
      /\ topUsersAfter t = []
      /\ (forall req, In req (calls t) ->
                      req = Leaderboard.counterRequest CONTRACT_ADDRESS CONTRACT_NAME))
  /\
  (forall (counterJSON : json) (w1 : W) (t1 : list event),
      activeTab <> TabReceived ->
      History.robustFetch
        (fetchCallReadOnlyFunction respond
           (History.counterRequest CONTRACT_ADDRESS CONTRACT_NAME userAddress)) 3 500 w
      = (inr (Some counterJSON), w1, t1) ->
      totalPropsOf counterJSON = inr (Int 0) ->
      let t := [SetIsLoading true; SetHistoryItems []] ++ t1
               ++ [SetHistoryItems []; SetIsLoading false] in
      History.loadHistoryWith respond CONTRACT_ADDRESS CONTRACT_NAME
        activeTab userAddress cap w
      = (inr tt, w1, t)
      /\ historyItemsAfter t = []
      /\ (forall req, In req (calls t) ->
                      req = History.counterRequest CONTRACT_ADDRESS CONTRACT_NAME
                              userAddress)).
Proof.
  split.
  - intros counterJSON w1 t1 Hrun Htotal t.
    destruct (@robustFetch_ran W respond true _ w _ w1 t1 Hrun) as (Hupd & Hcalls & _).
    split; [|split].
    + unfold Leaderboard.loadLeaderboardWith, try_finally, try_catch, bind.
      rewrite Hrun. run. rewrite Htotal. run. cbn [numEq Z.eqb]. run.
      unfold t. rewrite <- app_assoc. reflexivity.
    + unfold t. rewrite topUsersAfter_updates, updates_app, Hupd. reflexivity.
    + unfold t. intros req. rewrite calls_app, app_nil_r. apply Hcalls.
  - intros counterJSON w1 t1 Htab Hrun Htotal t.
    destruct (@robustFetch_ran W respond false _ w _ w1 t1 Hrun) as (Hupd & Hcalls & _).
    split; [|split].
    + unfold History.loadHistoryWith, History.fetchItems, try_finally, try_catch, bind.
      run. destruct activeTab; try congruence; cbn [History.isTab];
        rewrite Hrun; run; rewrite Htotal; run;
        rewrite history_scanRecent_window; cbn [window];
        rewrite interval_empty by lia; cbn [rev for_of]; run;
        rewrite <- app_assoc; reflexivity.
    + unfold t. rewrite historyItemsAfter_updates, !updates_app, Hupd. reflexivity.
    + unfold t. intros req. rewrite !calls_app, app_nil_r. apply Hcalls.
Qed.

Lemma empty_total_empty_report_witness :
  (let t := [Sleep 500; Called (Leaderboard.counterRequest "SP0" "props")]
            ++ [SetIsLoading false; SetIsLoading false] in
   Leaderboard.loadLeaderboardWith Sample.respond "SP0" "props" Sample.isPrincipal 10 (Sample.online [])
   = (inr tt, after 1 [], t)
   /\ topUsersAfter t = []
   /\ (forall req, In req (calls t) -> req = Leaderboard.counterRequest "SP0" "props"))
  /\
  (let t := [SetIsLoading true; SetHistoryItems []]
            ++ [Sleep 500; Called (History.counterRequest "SP0" "props" Sample.alice)]
            ++ [SetHistoryItems []; SetIsLoading false] in
   History.loadHistoryWith Sample.respond "SP0" "props" TabAll Sample.alice 50 (Sample.online [])
   = (inr tt, after 1 [], t)
   /\ historyItemsAfter t = []
   /\ (forall req, In req (calls t) -> req = History.counterRequest "SP0" "props" Sample.alice)).
Proof.
  destruct (@empty_total_empty_report Sample.World Sample.respond "SP0" "props" Sample.isPrincipal
              TabAll Sample.alice 10 (Sample.online [])) as [Hleaderboard _].
  destruct (@empty_total_empty_report Sample.World Sample.respond "SP0" "props" Sample.isPrincipal
              TabAll Sample.alice 50 (Sample.online [])) as [_ Hhistory].
  split.
  - apply (Hleaderboard sampleAnswer); reflexivity.
  - apply (Hhistory sampleAnswer); [discriminate|reflexivity|reflexivity].
Defined.

(** C4, as amended.  When the initial lookup of a page (the count, or
    the history list on the "received" tab) fails after its retries,
    the page makes no further lookup, logs the error, clears the
    loading flag and ends normally with its report left empty: the
    failure is caught, not propagated.  No run of either page throws. *)
Theorem initial_failure_is_caught (W : Type)
    (respond : request -> W -> (exn + json) * W)
    (CONTRACT_ADDRESS CONTRACT_NAME : string)
    (isPrincipal : string -> bool)
    (activeTab : TabType) (userAddress : string) (cap : Z) (w : W) :
  (forall (e : exn) (w1 : W) (t1 : list event),
      Leaderboard.robustFetch
        (fetchCallReadOnlyFunction respond
           (Leaderboard.counterRequest CONTRACT_ADDRESS CONTRACT_NAME)) 3 500 w
      = (inl e, w1, t1) ->
      let t := t1 ++ [ConsoleError "Error loading leaderboard:" e; SetIsLoading false] in
      Leaderboard.loadLeaderboardWith respond CONTRACT_ADDRESS CONTRACT_NAME isPrincipal cap w
      = (inr tt, w1, t)
      /\ topUsersAfter t = []
      /\ isLoadingAfter true t = false)
  /\
  (forall (e : exn) (w1 : W) (t1 : list event),
      History.robustFetch
        (fetchCallReadOnlyFunction respond
           (if History.isTab activeTab TabReceived
            then History.historyRequest CONTRACT_ADDRESS CONTRACT_NAME userAddress
            else History.counterRequest CONTRACT_ADDRESS CONTRACT_NAME userAddress))
        3 500 w
      = (inl e, w1, t1) ->
      let t := [SetIsLoading true; SetHistoryItems []] ++ t1
               ++ [ConsoleError "Error loading history:" e; SetIsLoading false] in
      History.loadHistoryWith respond CONTRACT_ADDRESS CONTRACT_NAME
        activeTab userAddress cap w
      = (inr tt, w1, t)
      /\ historyItemsAfter t = []
      /\ isLoadingAfter false t = false)
  /\
  (exists w' t,
      Leaderboard.loadLeaderboardWith respond CONTRACT_ADDRESS CONTRACT_NAME isPrincipal cap w
      = (inr tt, w', t))
  /\
  (exists w' t,
      History.loadHistoryWith respond CONTRACT_ADDRESS CONTRACT_NAME
        activeTab userAddress cap w
      = (inr tt, w', t)).
Proof.
  split; [|split; [|split]].
  - intros e w1 t1 Hrun t.
    destruct (@robustFetch_ran W respond true _ w _ w1 t1 Hrun) as (Hupd & _ & _).
    split; [|split].
    + unfold Leaderboard.loadLeaderboardWith, try_finally, try_catch, bind.
      rewrite Hrun. run. unfold t. rewrite <- app_assoc. reflexivity.
    + unfold t. rewrite topUsersAfter_updates, updates_app, Hupd. reflexivity.
    + unfold t, isLoadingAfter. rewrite fold_left_app. reflexivity.
  - intros e w1 t1 Hrun t.
    destruct (@robustFetch_ran W respond false _ w _ w1 t1 Hrun) as (Hupd & _ & _).
    split; [|split].
    + unfold History.loadHistoryWith, History.fetchItems, try_finally, try_catch, bind.
      run. destruct (History.isTab activeTab TabReceived);
        rewrite Hrun; run; unfold t; rewrite <- app_assoc; reflexivity.
    + unfold t. rewrite historyItemsAfter_updates, !updates_app, Hupd. reflexivity.
    + unfold t, isLoadingAfter. rewrite !fold_left_app. reflexivity.
  - apply loadLeaderboard_never_throws.
  - apply loadHistory_never_throws.
Qed.

Lemma initial_failure_is_caught_witness :
  (let t := [Sleep 500; Called sampleCall;
             ConsoleWarn "Fetch failed, retrying" 1 3; Sleep 500;
             Sleep 500; Called sampleCall;
             ConsoleWarn "Fetch failed, retrying" 2 3; Sleep 1000;
             Sleep 500; Called sampleCall]
            ++ [ConsoleError "Error loading leaderboard:" (Rejected "rate limited");
                SetIsLoading false] in
   Leaderboard.loadLeaderboardWith Sample.respond "SP0" "props" Sample.isPrincipal 10
     (after 0 [0; 1; 2]%nat)
   = (inr tt, after 3 [0; 1; 2]%nat, t)
   /\ topUsersAfter t = []
   /\ isLoadingAfter true t = false)
  /\
  (let t := [SetIsLoading true; SetHistoryItems []]
            ++ [Sleep 500; Called (History.historyRequest "SP0" "props" Sample.alice);
                Sleep 500;
                Sleep 500; Called (History.historyRequest "SP0" "props" Sample.alice);
                Sleep 1000;
                Sleep 500; Called (History.historyRequest "SP0" "props" Sample.alice)]
            ++ [ConsoleError "Error loading history:" (Rejected "rate limited");
                SetIsLoading false] in
   History.loadHistoryWith Sample.respond "SP0" "props" TabReceived Sample.alice 50
     (after 0 [0; 1; 2]%nat)
   = (inr tt, after 3 [0; 1; 2]%nat, t)
   /\ historyItemsAfter t = []
   /\ isLoadingAfter false t = false).
Proof.
  destruct (@initial_failure_is_caught Sample.World Sample.respond "SP0" "props" Sample.isPrincipal
              TabReceived Sample.alice 10 (after 0 [0; 1; 2]%nat)) as (Hleaderboard & _).
  destruct (@initial_failure_is_caught Sample.World Sample.respond "SP0" "props" Sample.isPrincipal
              TabReceived Sample.alice 50 (after 0 [0; 1; 2]%nat)) as (_ & Hhistory & _).
  split.
  - apply Hleaderboard. reflexivity.
  - apply Hhistory. reflexivity.
Defined.

(** C4 as stated fails: with the endpoint down for the three attempts
    of the count lookup, [loadLeaderboard] and [loadHistory] end
    normally, and the report is the empty one. *)
Lemma initial_failure_counterexample :
  let w := Sample.flaky Sample.twelve [0; 1; 2]%nat in
  fst (fst (Leaderboard.robustFetch
              (fetchCallReadOnlyFunction Sample.respond sampleCall) 3 500 w))
  = inl (Rejected "rate limited")
  /\ fst (fst (Leaderboard.loadLeaderboard Sample.respond "SP0" "props" Sample.isPrincipal w)) = inr tt
  /\ topUsersAfter (snd (Leaderboard.loadLeaderboard Sample.respond "SP0" "props" Sample.isPrincipal w))
     = []
  /\ ~ (exists e w' t,
           Leaderboard.loadLeaderboard Sample.respond "SP0" "props" Sample.isPrincipal w = (inl e, w', t))
  /\ fst (fst (History.robustFetch
                 (fetchCallReadOnlyFunction Sample.respond
                    (History.counterRequest "SP0" "props" Sample.alice)) 3 500 w))
     = inl (Rejected "rate limited")
  /\ fst (fst (History.loadHistory Sample.respond "SP0" "props" TabAll Sample.alice w)) = inr tt
  /\ historyItemsAfter
       (snd (History.loadHistory Sample.respond "SP0" "props" TabAll Sample.alice w))
     = []
  /\ ~ (exists e w' t,
           History.loadHistory Sample.respond "SP0" "props" TabAll Sample.alice w
           = (inl e, w', t)).
Proof.
  intros w.
  assert (HL : fst (fst (Leaderboard.loadLeaderboard Sample.respond "SP0" "props" Sample.isPrincipal w))
               = inr tt) by (vm_compute; reflexivity).
  assert (HH : fst (fst (History.loadHistory Sample.respond "SP0" "props" TabAll Sample.alice w))
               = inr tt) by (vm_compute; reflexivity).
  repeat split; try (vm_compute; reflexivity).
  - intros (e & w' & t & H). rewrite H in HL. discriminate.
  - intros (e & w' & t & H). rewrite H in HH. discriminate.
Qed.


(** ** A lookup that exhausts its retries *)

Section SkipFacts.
Variable W : Type.
Variable respond : request -> W -> (exn + json) * W.
Variables CONTRACT_ADDRESS CONTRACT_NAME : string.
Variable activeTab : TabType.
Variable userAddress : string.

Let fetch := fetchCallReadOnlyFunction respond.

(** A step that ends normally and leaves the collection as it found
    it can be taken out of the loop, up to what it did to the
    endpoint and to the trace. *)
Lemma for_of_skip (X A : Type) (step : X -> A -> M W A)
    (pre post : list X) (x : X) (acc acc1 : A) (w w1 w2 : W)
    (t1 t2 : list event) :
  for_of pre step acc w = (inr acc1, w1, t1) ->
  step x acc1 w1 = (inr acc1, w2, t2) ->
  for_of (pre ++ x :: post) step acc w
  = let '(r, w3, t3) := for_of post step acc1 w2 in (r, w3, t1 ++ t2 ++ t3).
Proof.
  intros Hpre Hstep. rewrite for_of_app. unfold bind at 1. rewrite Hpre.
  cbn [for_of]. unfold bind. rewrite Hstep.
  destruct (for_of post step acc1 w2) as [[r w3] t3]. reflexivity.
Qed.

Lemma leaderboard_scanProps_failed (i : Z) (users : list json) (w : W)
    (e : exn) (w1 : W) (t1 : list event) :
  Leaderboard.robustFetch
    (Leaderboard.fetchProps respond CONTRACT_ADDRESS CONTRACT_NAME i) 3 500 w
  = (inl e, w1, t1) ->
  Leaderboard.scanProps respond CONTRACT_ADDRESS CONTRACT_NAME i users w
  = (inr users, w1, t1 ++ [ConsoleError "Error fetching props" e]).
Proof.
  intros Hrun. unfold Leaderboard.scanProps, try_catch, bind.
  rewrite Hrun. reflexivity.
Qed.

Lemma history_scanProps_failed (i : Z) (items : list HistoryItem) (w : W)
    (e : exn) (w1 : W) (t1 : list event) :
  History.robustFetch
    (History.fetchProps respond CONTRACT_ADDRESS CONTRACT_NAME userAddress (Int i))
    3 500 w
  = (inl e, w1, t1) ->
  History.scanProps respond CONTRACT_ADDRESS CONTRACT_NAME activeTab userAddress
    i items w
  = (inr items, w1, t1 ++ [ConsoleError "Error scanning prop" e]).
Proof.
  intros Hrun. unfold History.scanProps, try_catch, bind.
  rewrite Hrun. reflexivity.
Qed.

(** The items a scan pushes carry the indices it visits. *)
Lemma history_scan_ids (indices : list Z) :
  forall (items : list HistoryItem) (w : W),
    exists items' w' t,
      for_of indices
        (History.scanProps respond CONTRACT_ADDRESS CONTRACT_NAME activeTab userAddress)
        items w
      = (inr (items ++ items'), w', t)
      /\ Forall (fun x => exists i, In i indices /\ id x = Int i) items'.
Proof.
  induction indices as [|i indices IH]; intros items w; cbn [for_of].
  - exists [], w, []. rewrite app_nil_r. split; [reflexivity|constructor].
  - destruct (History.robustFetch
                (History.fetchProps respond CONTRACT_ADDRESS CONTRACT_NAME
                   userAddress (Int i)) 3 500 w)
      as [[r w1] t1] eqn:Hrun.
    destruct (history_scanProps_outcome respond CONTRACT_ADDRESS CONTRACT_NAME
                activeTab userAddress i items w Hrun)
      as (tlog & pushed & _ & Hid & _ & Hstep).
    destruct (IH (items ++ pushed) w1) as (items' & w' & t & Hrest & Hids).
    exists (pushed ++ items'), w', ((t1 ++ tlog) ++ t).
    unfold bind. rewrite Hstep, Hrest, app_assoc. split; [reflexivity|].
    apply Forall_app. split.
    + eapply Forall_impl; [|exact Hid]. intros x Hx. exists i. split; [left|]; auto.
    + eapply Forall_impl; [|exact Hids].
      intros x (j & Hj & Hx). exists j. split; [right|]; auto.
Qed.
End SkipFacts.

(** C2.  When the lookup of one index of a scan exhausts its retries,
    the scan goes on: the collection built from the indices before it
    is handed unchanged to the rest of the window, which is scanned as
    it always is, from the endpoint as the failed attempts left it;
    the failure is logged and not thrown.  On the history page no row
    of the result carries the failed index.  Neither page throws. *)
Theorem failed_lookup_is_skipped (W : Type)
    (respond : request -> W -> (exn + json) * W)
    (CONTRACT_ADDRESS CONTRACT_NAME : string)
    (isPrincipal : string -> bool)
    (activeTab : TabType) (userAddress : string) (cap T i : Z) (w : W) :
  Z.max 0 (T - cap) <= i < T ->
  (forall (users1 : list json) (w1 w2 : W) (t1 t2 : list event) (e : exn),
      forUp (Int (Z.max 0 (T - cap))) (Int i)
        (Leaderboard.scanProps respond CONTRACT_ADDRESS CONTRACT_NAME) [] w
      = (inr users1, w1, t1) ->
      Leaderboard.robustFetch
        (fetchCallReadOnlyFunction respond
           (Leaderboard.propsRequest CONTRACT_ADDRESS CONTRACT_NAME i)) 3 500 w1
      = (inl e, w2, t2) ->
      exists users3 w3 t3,
        forUp (Int (i + 1)) (Int T)
          (Leaderboard.scanProps respond CONTRACT_ADDRESS CONTRACT_NAME) users1 w2
        = (inr users3, w3, t3)
        /\ Leaderboard.scanRecent respond CONTRACT_ADDRESS CONTRACT_NAME cap (Int T) w
           = (inr users3, w3,
              t1 ++ (t2 ++ [ConsoleError "Error fetching props" e]) ++ t3))
  /\
  (forall (items1 : list HistoryItem) (w1 w2 : W) (t1 t2 : list event) (e : exn),
      forDown (Int (T - 1)) (Int (i + 1))
        (History.scanProps respond CONTRACT_ADDRESS CONTRACT_NAME activeTab userAddress)
        [] w
      = (inr items1, w1, t1) ->
      History.robustFetch
        (fetchCallReadOnlyFunction respond
           (History.propsRequest CONTRACT_ADDRESS CONTRACT_NAME userAddress (Int i)))
        3 500 w1
      = (inl e, w2, t2) ->
      exists items3 w3 t3,
        forDown (Int (i - 1)) (Int (Z.max 0 (T - cap)))
          (History.scanProps respond CONTRACT_ADDRESS CONTRACT_NAME
             activeTab userAddress) items1 w2
        = (inr items3, w3, t3)
        /\ History.scanRecent respond CONTRACT_ADDRESS CONTRACT_NAME
             activeTab userAddress cap (Int T) w
           = (inr items3, w3,
              t1 ++ (t2 ++ [ConsoleError "Error scanning prop" e]) ++ t3)
        /\ Forall (fun x => id x <> Int i) items3)
  /\
  (exists w' t,
      Leaderboard.loadLeaderboardWith respond CONTRACT_ADDRESS CONTRACT_NAME isPrincipal cap w
      = (inr tt, w', t))
  /\
  (exists w' t,
      History.loadHistoryWith respond CONTRACT_ADDRESS CONTRACT_NAME
        activeTab userAddress cap w
      = (inr tt, w', t)).
Proof.
  intros Hi. split; [|split; [|split]].
  - intros users1 w1 w2 t1 t2 e Hpre Hfail.
    rewrite forUp_interval in Hpre.
    rewrite <- (leaderboard_fetchProps_nonneg respond CONTRACT_ADDRESS CONTRACT_NAME)
      in Hfail by lia.
    destruct (for_of_lookups
                (Leaderboard.scanProps respond CONTRACT_ADDRESS CONTRACT_NAME)
                _
                (scanProps_lookups respond CONTRACT_ADDRESS CONTRACT_NAME)
                (interval (i + 1) T) users1 w2)
      as (users3 & w3 & t3 & Hpost & _ & _).
    exists users3, w3, t3. rewrite forUp_interval. split; [exact Hpost|].
    rewrite scanRecent_window. cbn [window].
    rewrite (@interval_split (Z.max 0 (T - cap)) i T) by lia.
    rewrite (@interval_first i T) by lia.
    rewrite (@for_of_skip W _ _ _ _ (interval (i + 1) T) _ _ _ _ _ _ _ _ Hpre
               (@leaderboard_scanProps_failed W respond CONTRACT_ADDRESS CONTRACT_NAME
                  i users1 w1 e w2 t2 Hfail)).
    rewrite Hpost. reflexivity.
  - intros items1 w1 w2 t1 t2 e Hpre Hfail.
    rewrite forDown_interval in Hpre. replace (T - 1 + 1) with T in Hpre by lia.
    rewrite <- (history_fetchProps_nonneg respond CONTRACT_ADDRESS CONTRACT_NAME
                  userAddress) in Hfail by lia.
    destruct (history_scan_ids respond CONTRACT_ADDRESS CONTRACT_NAME
                activeTab userAddress (rev (interval (i + 1) T)) [] w)
      as (items1' & w1' & t1' & Hpre' & Hids1).
    rewrite Hpre in Hpre'. injection Hpre' as -> <- <-.
    destruct (history_scan_ids respond CONTRACT_ADDRESS CONTRACT_NAME
                activeTab userAddress (rev (interval (Z.max 0 (T - cap)) i))
                items1' w2)
      as (items3' & w3 & t3 & Hpost & Hids3).
    exists (items1' ++ items3'), w3, t3.
    rewrite forDown_interval. replace (i - 1 + 1) with i by lia.
    split; [exact Hpost|]. split.
    + rewrite history_scanRecent_window. cbn [window].
      rewrite (@interval_split (Z.max 0 (T - cap)) i T) by lia.
      rewrite (@interval_first i T) by lia.
      rewrite rev_app_distr. cbn [rev]. rewrite <- app_assoc. cbn [app].
      rewrite (@for_of_skip W _ _ _ _ (rev (interval (Z.max 0 (T - cap)) i))
                 _ _ _ _ _ _ _ _ Hpre
                 (@history_scanProps_failed W respond CONTRACT_ADDRESS CONTRACT_NAME
                    activeTab userAddress i items1' w1 e w2 t2 Hfail)).
      rewrite Hpost. reflexivity.
    + apply Forall_app. split.
      * eapply Forall_impl; [|exact Hids1].
        intros x (j & Hj & Hx). rewrite Hx. apply in_rev, in_interval in Hj.
        intros [= ->]. lia.
      * eapply Forall_impl; [|exact Hids3].
        intros x (j & Hj & Hx). rewrite Hx. apply in_rev, in_interval in Hj.
        intros [= ->]. lia.
  - apply loadLeaderboard_never_throws.
  - apply loadHistory_never_throws.
Qed.

Lemma failed_lookup_is_skipped_witness :
  let w := Sample.flaky Sample.twelve [2; 3; 4]%nat in
  (exists users1 w1 w2 t1 t2 e users3 w3 t3,
      forUp (Int (Z.max 0 (12 - 10))) (Int 4)
        (Leaderboard.scanProps Sample.respond "SP0" "props") [] w
      = (inr users1, w1, t1)
      /\ Leaderboard.robustFetch
           (fetchCallReadOnlyFunction Sample.respond
              (Leaderboard.propsRequest "SP0" "props" 4)) 3 500 w1
         = (inl e, w2, t2)
      /\ forUp (Int (4 + 1)) (Int 12)
           (Leaderboard.scanProps Sample.respond "SP0" "props") users1 w2
         = (inr users3, w3, t3)
      /\ Leaderboard.scanRecent Sample.respond "SP0" "props" 10 (Int 12) w
         = (inr users3, w3,
            t1 ++ (t2 ++ [ConsoleError "Error fetching props" e]) ++ t3))
  /\
  (exists items1 w1 w2 t1 t2 e items3 w3 t3,
      forDown (Int (12 - 1)) (Int (9 + 1))
        (History.scanProps Sample.respond "SP0" "props" TabAll Sample.alice) [] w
      = (inr items1, w1, t1)
      /\ History.robustFetch
           (fetchCallReadOnlyFunction Sample.respond
              (History.propsRequest "SP0" "props" Sample.alice (Int 9))) 3 500 w1
         = (inl e, w2, t2)
      /\ forDown (Int (9 - 1)) (Int (Z.max 0 (12 - 10)))
           (History.scanProps Sample.respond "SP0" "props" TabAll Sample.alice) items1 w2
         = (inr items3, w3, t3)
      /\ History.scanRecent Sample.respond "SP0" "props" TabAll Sample.alice 10 (Int 12) w
         = (inr items3, w3,
            t1 ++ (t2 ++ [ConsoleError "Error scanning prop" e]) ++ t3)
      /\ Forall (fun x => id x <> Int 9) items3).
Proof.
  intros w. split.
  - destruct (@failed_lookup_is_skipped Sample.World Sample.respond "SP0" "props" Sample.isPrincipal
                TabAll Sample.alice 10 12 4 w) as (Hleaderboard & _); [lia|].
    do 6 eexists.
    match goal with
    | |- exists users3 w3 t3, ?pre /\ ?fail /\ _ =>
        assert (Hpre : pre) by reflexivity;
        assert (Hfail : fail) by reflexivity
    end.
    destruct (Hleaderboard _ _ _ _ _ _ Hpre Hfail) as (users3 & w3 & t3 & H3 & H4).
    exists users3, w3, t3. auto.
  - destruct (@failed_lookup_is_skipped Sample.World Sample.respond "SP0" "props" Sample.isPrincipal
                TabAll Sample.alice 10 12 9 w) as (_ & Hhistory & _); [lia|].
    do 6 eexists.
    match goal with
    | |- exists items3 w3 t3, ?pre /\ ?fail /\ _ =>
        assert (Hpre : pre) by reflexivity;
        assert (Hfail : fail) by reflexivity
    end.
    destruct (Hhistory _ _ _ _ _ _ Hpre Hfail) as (items3 & w3 & t3 & H3 & H4 & H5).
    exists items3, w3, t3. auto.
Defined.


(** ** The ranking *)

Section SortFacts.
Variable A : Type.
Variable compareFn : A -> A -> number.

Lemma insert_perm (x : A) (l : list A) : Permutation (insert compareFn x l) (x :: l).
Proof.
  induction l as [|y l IH]; cbn [insert]; [reflexivity|].
  destruct (comesAfter (compareFn x y)); [|reflexivity].
  rewrite IH. apply perm_swap.
Qed.

Lemma sort_perm (l : list A) : Permutation (sort compareFn l) l.
Proof.
  induction l as [|x l IH]; cbn [sort]; [reflexivity|].
  rewrite insert_perm. constructor. exact IH.
Qed.

(** An element only moves past elements the comparator puts strictly
    before it, so a class of elements that the comparator never orders
    strictly against each other keeps its order. *)
Variable keep : A -> bool.
Hypothesis keep_ties :
  forall x y, keep x = true -> keep y = true -> comesAfter (compareFn x y) = false.

Lemma insert_stable (x : A) (l : list A) :
  filter keep (insert compareFn x l) = filter keep (x :: l).
Proof.
  induction l as [|y l IH]; cbn [insert]; [reflexivity|].
  destruct (comesAfter (compareFn x y)) eqn:Hxy; [|reflexivity].
  cbn [filter] in *. rewrite IH.
  destruct (keep x) eqn:Hx, (keep y) eqn:Hy; try reflexivity.
  rewrite (keep_ties Hx Hy) in Hxy. discriminate.
Qed.

Lemma sort_stable (l : list A) : filter keep (sort compareFn l) = filter keep l.
Proof.
  induction l as [|x l IH]; cbn [sort]; [reflexivity|].
  rewrite insert_stable. cbn [filter]. rewrite IH. reflexivity.
Qed.
End SortFacts.

Section RankFacts.

Let key := stats_propsReceived.

Lemma hasReceived_ties (v : number) (x y : UserStats) :
  hasReceived v x = true -> hasReceived v y = true ->
  comesAfter (Leaderboard.byPropsReceived x y) = false.
Proof.
  unfold hasReceived, Leaderboard.byPropsReceived.
  destruct v as [|z], (stats_propsReceived x) as [|a], (stats_propsReceived y) as [|b];
    try discriminate; try reflexivity.
  intros Ha Hb. apply Z.eqb_eq in Ha, Hb. subst. cbn [sub comesAfter].
  apply Z.ltb_ge. lia.
Qed.

(** [a] comes before [b] in the descending order of the metric. *)
Let above (a b : UserStats) : Prop :=
  exists x y, key a = Int x /\ key b = Int y /\ y <= x.

Lemma insert_descending (x : UserStats) (l : list UserStats) :
  key x <> NaN ->
  Forall (fun u => key u <> NaN) l ->
  StronglySorted above l ->
  StronglySorted above (insert Leaderboard.byPropsReceived x l).
Proof.
  intros Hx Hl Hsorted. induction Hsorted as [|y l Hs IH Hy]; cbn [insert].
  - repeat constructor.
  - inversion Hl as [|? ? Hynum Hlnum]; subst.
    unfold Leaderboard.byPropsReceived at 1. fold key.
    destruct (key x) as [|kx] eqn:Hkx; [congruence|].
    destruct (key y) as [|ky] eqn:Hky; [congruence|].
    cbn [sub comesAfter]. destruct (0 <? ky - kx) eqn:Hcmp.
    + apply Z.ltb_lt in Hcmp. constructor; [apply IH; exact Hlnum|].
      rewrite (insert_perm Leaderboard.byPropsReceived x l). constructor; [|exact Hy].
      exists ky, kx. repeat split; auto; lia.
    + apply Z.ltb_ge in Hcmp. constructor; [constructor; assumption|].
      constructor; [exists kx, ky; repeat split; auto; lia|].
      eapply Forall_impl; [|exact Hy].
      intros z (a & b & Ha & Hb & Hab). exists kx, b.
      rewrite Hky in Ha. injection Ha as <-. repeat split; auto; lia.
Qed.

Lemma sort_descending (l : list UserStats) :
  Forall (fun u => key u <> NaN) l ->
  StronglySorted above (sort Leaderboard.byPropsReceived l).
Proof.
  induction 1 as [|x l Hx Hl IH]; cbn [sort]; [constructor|].
  apply insert_descending; [exact Hx| |exact IH].
  rewrite (sort_perm Leaderboard.byPropsReceived l). exact Hl.
Qed.

Lemma unranked_withRanks (index : Z) (sorted : list UserStats) :
  map unranked (Leaderboard.withRanks index sorted) = sorted.
Proof.
  revert index. induction sorted as [|[a r g] sorted IH]; intros index;
    cbn [Leaderboard.withRanks map]; [reflexivity|].
  rewrite IH. reflexivity.
Qed.

Lemma rank_withRanks (sorted : list UserStats) :
  forall (index : Z) (k : nat) (row : LeaderboardUser),
    nth_error (Leaderboard.withRanks index sorted) k = Some row ->
    rank row = index + Z.of_nat k + 1.
Proof.
  induction sorted as [|u sorted IH]; intros index k row;
    cbn [Leaderboard.withRanks].
  - destruct k; discriminate.
  - destruct k as [|k]; cbn [nth_error].
    + intros [= <-]. cbn [rank]. lia.
    + intros H. rewrite (IH _ _ _ H). lia.
Qed.

Lemma withRanks_descending (sorted : list UserStats) (index : Z) :
  StronglySorted above sorted ->
  StronglySorted notBelow (Leaderboard.withRanks index sorted).
Proof.
  intros Hs. revert index.
  induction Hs as [|u sorted Hs IH Hu]; intros index; cbn [Leaderboard.withRanks];
    constructor; [apply IH|].
  apply Forall_forall. intros row Hrow.
  apply (in_map unranked) in Hrow. rewrite unranked_withRanks in Hrow.
  rewrite Forall_forall in Hu. destruct (Hu _ Hrow) as (x & y & Hx & Hy & Hxy).
  exists x, y. repeat split; auto.
Qed.
End RankFacts.

Section ReportFacts.
Variable W : Type.
Variable respond : request -> W -> (exn + json) * W.
Variables CONTRACT_ADDRESS CONTRACT_NAME : string.
Variable isPrincipal : string -> bool.

(** A run of the leaderboard page that finds participants: the report
    is the ranking of the statistics in the order they were pushed. *)
Lemma loadLeaderboard_report (cap : Z) (w w1 w2 w3 : W) (counterJSON : json)
    (totalProps : number) (users : list json) (userStats : list UserStats)
    (t1 t2 t3 : list event) :
  Leaderboard.robustFetch
    (fetchCallReadOnlyFunction respond
       (Leaderboard.counterRequest CONTRACT_ADDRESS CONTRACT_NAME)) 3 500 w
  = (inr (Some counterJSON), w1, t1) ->
  totalPropsOf counterJSON = inr totalProps ->
  numEq totalProps (Int 0) = false ->
  Leaderboard.scanRecent respond CONTRACT_ADDRESS CONTRACT_NAME cap totalProps w1
  = (inr users, w2, t2) ->
  users <> [] ->
  for_of users (Leaderboard.fetchStats respond CONTRACT_ADDRESS CONTRACT_NAME isPrincipal) [] w2
  = (inr userStats, w3, t3) ->
  let t := t1 ++ t2 ++ t3
           ++ [SetTopUsers (Leaderboard.rankUsers userStats); SetIsLoading false] in
  Leaderboard.loadLeaderboardWith respond CONTRACT_ADDRESS CONTRACT_NAME isPrincipal cap w
  = (inr tt, w3, t)
  /\ topUsersAfter t = Leaderboard.rankUsers userStats.
Proof.
  intros Hcount Htotal Hnonzero Hscan Husers Hstats t. split.
  - unfold Leaderboard.loadLeaderboardWith, try_finally, try_catch, bind.
    rewrite Hcount. run. rewrite Htotal. run. rewrite Hnonzero, Hscan.
    destruct users as [|u users]; [congruence|]. cbn [List.length Nat.eqb].
    rewrite Hstats. run. unfold t. rewrite <- !app_assoc. reflexivity.
  - destruct (@robustFetch_ran W respond true _ w _ w1 t1 Hcount) as (Hupd1 & _ & _).
    destruct (scan_lookups respond CONTRACT_ADDRESS CONTRACT_NAME [] w1
                (window_nonneg cap totalProps))
      as (users' & w2' & t2' & Hscan' & Hupd2 & _).
    rewrite <- scanRecent_window, Hscan in Hscan'. injection Hscan' as <- <- <-.
    destruct (stats_lookups respond CONTRACT_ADDRESS CONTRACT_NAME isPrincipal
                users [] w2)
      as (stats' & w3' & t3' & Hstats' & Hupd3 & _).
    rewrite Hstats in Hstats'. injection Hstats' as <- <- <-.
    unfold t. rewrite topUsersAfter_updates, !updates_app, Hupd1, Hupd2, Hupd3.
    reflexivity.
Qed.
End ReportFacts.

(** C5.  The rows of the leaderboard are the statistics records in
    descending order of props received, records with equal props
    received keeping the order in which they were pushed, which is the
    order in which their lookups completed; the rank of a row is its
    1-based position. *)
Theorem leaderboard_ranking (W : Type)
    (respond : request -> W -> (exn + json) * W)
    (CONTRACT_ADDRESS CONTRACT_NAME : string)
    (isPrincipal : string -> bool) (userStats : list UserStats) :
  Forall (fun u => stats_propsReceived u <> NaN) userStats ->
  let rows := Leaderboard.rankUsers userStats in
  StronglySorted notBelow rows
  /\ (forall v, filter (hasReceived v) (map unranked rows)
                = filter (hasReceived v) userStats)
  /\ Permutation (map unranked rows) userStats
  /\ (forall k row, nth_error rows k = Some row -> rank row = Z.of_nat k + 1)
  /\ (forall (address : json) (stats : list UserStats) (w : W),
         exists pushed w' t,
           Leaderboard.fetchStats respond CONTRACT_ADDRESS CONTRACT_NAME isPrincipal address stats w
           = (inr (stats ++ pushed), w', t)
           /\ (List.length pushed <= 1)%nat
           /\ Forall (fun x => stats_address x = address) pushed)
  /\ (forall (cap : Z) (w w1 w2 w3 : W) (counterJSON : json) (totalProps : number)
             (users : list json) (t1 t2 t3 : list event),
         Leaderboard.robustFetch
           (fetchCallReadOnlyFunction respond
              (Leaderboard.counterRequest CONTRACT_ADDRESS CONTRACT_NAME)) 3 500 w
         = (inr (Some counterJSON), w1, t1) ->
         totalPropsOf counterJSON = inr totalProps ->
         numEq totalProps (Int 0) = false ->
         Leaderboard.scanRecent respond CONTRACT_ADDRESS CONTRACT_NAME cap totalProps w1
         = (inr users, w2, t2) ->
         users <> [] ->
         for_of users (Leaderboard.fetchStats respond CONTRACT_ADDRESS CONTRACT_NAME isPrincipal)
           [] w2
         = (inr userStats, w3, t3) ->
         exists t,
           Leaderboard.loadLeaderboardWith respond CONTRACT_ADDRESS CONTRACT_NAME isPrincipal cap w
           = (inr tt, w3, t)
           /\ topUsersAfter t = rows).
Proof.
  intros Hnum rows. unfold rows, Leaderboard.rankUsers.
  split; [|split; [|split; [|split; [|split]]]].
  - apply withRanks_descending, sort_descending. exact Hnum.
  - intros v. rewrite unranked_withRanks.
    apply sort_stable. apply hasReceived_ties.
  - rewrite unranked_withRanks. apply sort_perm.
  - intros k row H. rewrite (rank_withRanks _ _ _ H). lia.
  - intros address stats w.
    destruct (Leaderboard.robustFetch
                (Leaderboard.fetchUserStats respond CONTRACT_ADDRESS CONTRACT_NAME
                   isPrincipal address)
                3 500 w) as [[r w1] t1] eqn:Hrun.
    destruct (fetchStats_outcome respond CONTRACT_ADDRESS CONTRACT_NAME isPrincipal
                address stats w Hrun)
      as (tlog & pushed & _ & Haddr & Hlen & Hstep).
    exists pushed, w1, (t1 ++ tlog). auto.
  - intros cap w w1 w2 w3 counterJSON totalProps users t1 t2 t3
      Hcount Htotal Hnonzero Hscan Husers Hstats.
    destruct (@loadLeaderboard_report W respond CONTRACT_ADDRESS CONTRACT_NAME
                isPrincipal cap w w1 w2 w3 counterJSON totalProps users userStats t1 t2 t3
                Hcount Htotal Hnonzero Hscan Husers Hstats)
      as [Hrun Hreport].
    eexists. split; [exact Hrun|exact Hreport].
Qed.

Lemma leaderboard_ranking_witness :
  let rows := Leaderboard.rankUsers sampleStats in
  StronglySorted notBelow rows
  /\ (forall v, filter (hasReceived v) (map unranked rows)
                = filter (hasReceived v) sampleStats)
  /\ Permutation (map unranked rows) sampleStats
  /\ (forall k row, nth_error rows k = Some row -> rank row = Z.of_nat k + 1).
Proof.
  assert (Hnum : Forall (fun u => stats_propsReceived u <> NaN) sampleStats)
    by (repeat constructor; discriminate).
  destruct (@leaderboard_ranking Sample.World Sample.respond "SP0" "props" Sample.isPrincipal
              sampleStats Hnum) as (Hsorted & Hstable & Hperm & Hrank & _).
  repeat split; assumption.
Defined.

(** The sample ranks as alice, bob, carol, dave, erin, frank: alice
    stays before bob and erin before frank. *)
Example sample_ranking :
  map (fun row => (address row, rank row)) (Leaderboard.rankUsers sampleStats)
  = [(JStr Sample.alice, 1); (JStr Sample.bob, 2); (JStr Sample.carol, 3);
     (JStr Sample.dave, 4); (JStr Sample.erin, 5); (JStr Sample.frank, 6)].
Proof. reflexivity. Qed.

(** ** The set of participants *)

Lemma strictEq_sym (a b : json) : strictEq a b = strictEq b a.
Proof.
  destruct a, b; try reflexivity; cbn [strictEq].
  - destruct b, b0; reflexivity.
  - apply String.eqb_sym.
Qed.

Lemma strictEq_eq (a b : json) : strictEq a b = true -> a = b.
Proof.
  destruct a, b; try discriminate; cbn [strictEq]; try reflexivity.
  - intros H. apply Bool.eqb_prop in H. congruence.
  - intros H. apply String.eqb_eq in H. congruence.
Qed.

Lemma distinct_snoc (s : list json) (x : json) :
  distinct s ->
  Forall (fun a => strictEq a x = false) s ->
  distinct (s ++ [x]).
Proof.
  unfold distinct. induction 1 as [|a s Ha Hs IH]; intros Hx; cbn [app].
  - repeat constructor.
  - inversion Hx as [|? ? Hax Hsx]; subst. constructor; [|apply IH; exact Hsx].
    apply Forall_app. split; [exact Ha|]. repeat constructor. exact Hax.
Qed.

Lemma Set_add_distinct (x : json) (s : list json) :
  distinct s -> distinct (Leaderboard.Set_add x s).
Proof.
  intros Hs. unfold Leaderboard.Set_add.
  destruct (existsb (strictEq x) s) eqn:Hx; [exact Hs|].
  apply distinct_snoc; [exact Hs|].
  apply Forall_forall. intros a Ha. rewrite strictEq_sym.
  destruct (strictEq x a) eqn:Hxa; [|reflexivity].
  assert (existsb (strictEq x) s = true) by (apply existsb_exists; eauto).
  congruence.
Qed.


Lemma addAll_distinct (xs s : list json) : distinct s -> distinct (addAll xs s).
Proof.
  revert s. induction xs as [|x xs IH]; intros s Hs; cbn [addAll fold_left];
    [exact Hs|].
  apply IH, Set_add_distinct, Hs.
Qed.


Lemma addAll_app (xs ys s : list json) : addAll (xs ++ ys) s = addAll ys (addAll xs s).
Proof. apply fold_left_app. Qed.

Section SetFacts.
Variable W : Type.
Variable respond : request -> W -> (exn + json) * W.
Variables CONTRACT_ADDRESS CONTRACT_NAME : string.

(** The scan collects the identities extracted from its lookups. *)
Lemma scan_collects (indices : list Z) :
  forall (users : list json) (w : W),
    exists w' t,
      for_of indices (Leaderboard.scanProps respond CONTRACT_ADDRESS CONTRACT_NAME)
        users w
      = (inr (addAll (extracted respond CONTRACT_ADDRESS CONTRACT_NAME indices w)
                users),
         w', t).
Proof.
  induction indices as [|i indices IH]; intros users w; cbn [for_of extracted].
  - exists w, []. reflexivity.
  - destruct (Leaderboard.robustFetch
                (Leaderboard.fetchProps respond CONTRACT_ADDRESS CONTRACT_NAME i)
                3 500 w) as [[r w1] t1] eqn:Hrun.
    destruct (scanProps_outcome respond CONTRACT_ADDRESS CONTRACT_NAME i users w Hrun)
      as (tlog & _ & Hstep).
    destruct (IH (addAll (participantsOf r) users) w1) as (w' & t & Hrest).
    exists w', ((t1 ++ tlog) ++ t). unfold bind.
    rewrite Hstep, Hrest, addAll_app. reflexivity.
Qed.

Variable isPrincipal : string -> bool.


End SetFacts.



(** On the sample the twenty identities of the window are six
    principals, and each is looked up once. *)
Example unique_identity_sample :
  let w1 :=
    {| Sample.ledger := Sample.twelve; Sample.clock := 1; Sample.outages := [] |} in
  let identities := extracted Sample.respond "SP0" "props" (window 10 (Int 12)) w1 in
  List.length identities = 20%nat
  /\ filter (accepted Sample.isPrincipal) (addAll identities [])
     = map JStr [Sample.alice; Sample.bob; Sample.carol; Sample.dave;
                 Sample.erin; Sample.frank].
Proof. split; vm_compute; reflexivity. Qed.

(** A record whose giver is no address: the giver is collected, its
    lookup makes no call and is logged as failed, and the receiver is
    looked up. *)
Example refused_identity_sample :
  let t :=
    snd (Leaderboard.loadLeaderboard Sample.respond "SP0" "props" Sample.isPrincipal
           (Sample.online [Sample.props "nobody" Sample.alice])) in
  calls t
  = [Leaderboard.counterRequest "SP0" "props";
     Leaderboard.propsRequest "SP0" "props" 0;
     Leaderboard.statsRequest "SP0" "props" (JStr Sample.alice)]
  /\ In (ConsoleError "Error fetching stats" (NotAPrincipal (JStr "nobody"))) t
  /\ map address (topUsersAfter t) = [JStr Sample.alice].
Proof.
  split; [vm_compute; reflexivity|]. split; [|vm_compute; reflexivity].
  vm_compute. tauto.
Qed.

(** ** The rows of the history page *)


Lemma strictEq_other (v : json) (s : string) :
  v <> JStr s -> strictEq v (JStr s) = false.
Proof.
  intros H. destruct (strictEq v (JStr s)) eqn:Heq; [|reflexivity].
  apply strictEq_eq in Heq. contradiction.
Qed.

Lemma interval_descending (a b : Z) : StronglySorted Z.gt (rev (interval a b)).
Proof.
  remember (Z.to_nat (b - a)) as n eqn:Hn. revert b Hn.
  induction n as [|n IH]; intros b Hn.
  - rewrite interval_empty by lia. constructor.
  - replace b with (b - 1 + 1) by lia. rewrite interval_last by lia.
    rewrite rev_app_distr. cbn [rev app]. constructor; [apply IH; lia|].
    apply Forall_forall. intros j Hj. apply in_rev, in_interval in Hj. lia.
Qed.




Section RowFacts.
Variable W : Type.
Variable respond : request -> W -> (exn + json) * W.
Variables CONTRACT_ADDRESS CONTRACT_NAME : string.
Variable activeTab : TabType.
Variable userAddress : string.

Let fetchProps :=
  History.fetchProps respond CONTRACT_ADDRESS CONTRACT_NAME userAddress.
Let scanProps :=
  History.scanProps respond CONTRACT_ADDRESS CONTRACT_NAME activeTab userAddress.
Let answersOf := scanned respond CONTRACT_ADDRESS CONTRACT_NAME userAddress.
Let keep := keptAs activeTab userAddress.

(** The items a scan of descending indices pushes are in descending
    order of index. *)
Lemma history_scan_descending (indices : list Z) :
  StronglySorted Z.gt indices ->
  forall (items : list HistoryItem) (w : W),
    exists items' w' t,
      for_of indices scanProps items w = (inr (items ++ items'), w', t)
      /\ StronglySorted newerThan items'
      /\ Forall (fun x => exists i, In i indices /\ id x = Int i) items'.
Proof.
  induction 1 as [|i indices Hsorted IH Hi]; intros items w; cbn [for_of].
  - exists [], w, []. rewrite app_nil_r. repeat split; constructor.
  - destruct (History.robustFetch (fetchProps (Int i)) 3 500 w)
      as [[r w1] t1] eqn:Hrun.
    destruct (history_scanProps_outcome respond CONTRACT_ADDRESS CONTRACT_NAME
                activeTab userAddress i items w Hrun)
      as (tlog & pushed & _ & Hid & Hlen & Hstep).
    destruct (IH (items ++ pushed) w1) as (items' & w' & t & Hrest & Hdesc & Hids).
    exists (pushed ++ items'), w', ((t1 ++ tlog) ++ t).
    unfold bind. unfold scanProps in *. rewrite Hstep, Hrest, app_assoc.
    split; [reflexivity|]. split.
    + destruct pushed as [|x [|y pushed]]; cbn [app]; [exact Hdesc| |cbn in Hlen; lia].
      constructor; [exact Hdesc|].
      inversion Hid as [|? ? Hx _]; subst.
      eapply Forall_impl; [|exact Hids].
      intros y (j & Hj & Hy). exists i, j. repeat split; auto.
      rewrite Forall_forall in Hi. specialize (Hi j Hj). lia.
    + apply Forall_app. split.
      * eapply Forall_impl; [|exact Hid]. intros x Hx. exists i. split; [left|]; auto.
      * eapply Forall_impl; [|exact Hids].
        intros x (j & Hj & Hx). exists j. split; [right|]; auto.
Qed.

(** The object literal of a row reads the fields the record has. *)
Lemma itemOf_record (n : number) (ty : ItemType) (g rc propData : json) :
  History.field propData "giver" = inr g ->
  History.field propData "receiver" = inr rc ->
  match recordFields propData with
  | inr record =>
      History.itemOf n ty g rc propData = inr (rowOf n ty record)
      /\ rec_giver record = g
      /\ rec_receiver record = rc
  | inl _ => exists e, History.itemOf n ty g rc propData = inl e
  end.
Proof.
  intros Hg Hr. unfold recordFields, History.itemOf, bindE. rewrite Hg, Hr.
  destruct (History.field propData "amount") as [e|a]; [eauto|].
  destruct (History.field propData "message") as [e|m]; [eauto|].
  destruct (History.field propData "timestamp") as [e|ts]; [eauto|].
  repeat split.
Qed.




End RowFacts.



(** On the sample, the "all" tab of the first participant: the seven
    records alice gave or received, newest first, of the twelve the scan
    fetched. *)
Example history_scan_sample :
  map (fun item => (id item, type item))
    (historyItemsAfter
       (snd (History.loadHistoryWith Sample.respond "SP0" "props" TabAll Sample.alice
               50 (Sample.online Sample.twelve))))
  = [(Int 8, given); (Int 6, received); (Int 4, received); (Int 3, received);
     (Int 2, given); (Int 1, received); (Int 0, given)].
Proof. vm_compute. reflexivity. Qed.

(** ** The "received" tab *)

Lemma slice_last_suffix (A : Type) (n : nat) (l : list A) :
  exists older,
    l = older ++ slice_last n l
    /\ List.length (slice_last n l) = Nat.min n (List.length l).
Proof.
  unfold slice_last. exists (firstn (List.length l - n) l). split.
  - symmetry. apply firstn_skipn.
  - rewrite length_skipn. lia.
Qed.

Lemma rowsOf_received (answers : list (number * (exn + option json))) :
  Forall (fun x => type x = received) (flat_map (rowsOf keptReceived) answers).
Proof.
  induction answers as [|[n [e|[propsJSON|]]] answers IH]; cbn [flat_map rowsOf snd fst app];
    try exact IH; [constructor|].
  destruct (recordOf propsJSON) as [record|]; cbn [keptReceived app]; [|exact IH].
  constructor; [reflexivity|exact IH].
Qed.

Section ReceivedFacts.
Variable W : Type.
Variable respond : request -> W -> (exn + json) * W.
Variables CONTRACT_ADDRESS CONTRACT_NAME : string.
Variable userAddress : string.

Let fetchProps :=
  History.fetchProps respond CONTRACT_ADDRESS CONTRACT_NAME userAddress.
Let propsCall := History.propsCall CONTRACT_ADDRESS CONTRACT_NAME userAddress.
Let fetchReceived :=
  History.fetchReceived respond CONTRACT_ADDRESS CONTRACT_NAME userAddress.
Let answersOf := lookedUp respond CONTRACT_ADDRESS CONTRACT_NAME userAddress.
Let requestsOf := receivedRequests CONTRACT_ADDRESS CONTRACT_NAME userAddress.

(** An entry that is [null] or [undefined]: reading its value throws,
    and nothing is looked up. *)
Lemma fetchReceived_null (idWrapper : json) (items : list HistoryItem) (w : W) :
  nullish idWrapper = true ->
  fetchReceived idWrapper items w
  = (inr items, w, [ConsoleError "Error fetching prop details:" TypeError]).
Proof.
  intros Hid. unfold fetchReceived, History.fetchReceived, try_catch, bind, get.
  rewrite Hid. run. reflexivity.
Qed.

(** One iteration of the loop, from the outcome of its lookup: the
    row of the answer's record is pushed, whoever its giver and its
    receiver are. *)
Lemma fetchReceived_rows (idWrapper : json) (items : list HistoryItem) (w : W)
    (r : exn + option json) (w1 : W) (t1 : list event) :
  nullish idWrapper = false ->
  History.robustFetch (fetchProps (parseInt (prop idWrapper "value"))) 3 500 w
  = (r, w1, t1) ->
  exists tlog,
    consoleOnly tlog
    /\ fetchReceived idWrapper items w
       = (inr (items ++ rowsOf keptReceived (parseInt (prop idWrapper "value"), r)),
          w1, t1 ++ tlog).
Proof.
  intros Hid Hrun.
  assert (Hlog : forall e res,
             res = inr items ->
             exists tlog,
               consoleOnly tlog
               /\ (@inr exn _ items, w1,
                   t1 ++ [ConsoleError "Error fetching prop details:" e])
                  = (res, w1, t1 ++ tlog)).
  { intros e res ->. exists [ConsoleError "Error fetching prop details:" e].
    split; reflexivity. }
  assert (Hquiet : forall items0 res,
             res = inr items0 ->
             exists tlog,
               consoleOnly tlog
               /\ (@inr exn (list HistoryItem) items0, w1, t1)
                  = (res, w1, t1 ++ tlog)).
  { intros items0 res ->. exists []. rewrite app_nil_r. split; reflexivity. }
  unfold fetchReceived, History.fetchReceived, try_catch, bind, get.
  rewrite Hid. run. fold (fetchProps (parseInt (prop idWrapper "value"))).
  rewrite Hrun. unfold rowsOf. cbn [snd fst].
  destruct r as [e|[propsJSON|]]; run;
    [apply Hlog; reflexivity| |apply Hlog; reflexivity].
  unfold recordOf.
  destruct (propDataOf propsJSON) as [e|propData]; run;
    [apply Hlog; reflexivity|].
  destruct (truthy propData); run; [|apply Hquiet; reflexivity].
  destruct (History.field propData "giver") as [e|g] eqn:Hg; run.
  { apply Hlog. unfold recordFields, bindE. rewrite Hg, ?app_nil_r. reflexivity. }
  destruct (History.field propData "receiver") as [e|rc] eqn:Hrc; run.
  { apply Hlog. unfold recordFields, bindE. rewrite Hg, Hrc, ?app_nil_r.
    reflexivity. }
  pose proof (@itemOf_record (parseInt (prop idWrapper "value")) received
                g rc propData Hg Hrc) as Hitem.
  destruct (recordFields propData) as [e|record].
  - destruct Hitem as (e1 & Hitem). rewrite Hitem, ?app_nil_r. run.
    apply Hlog. reflexivity.
  - destruct Hitem as (Hitem & _ & _). rewrite Hitem. run.
    apply Hquiet. reflexivity.
Qed.

(** The loop over the entries of the history list: the rows of the
    answers are pushed, and the calls are those of the entries. *)
Lemma received_rows (recentIds : list json) :
  forall (items : list HistoryItem) (w : W),
    exists w' t,
      for_of recentIds fetchReceived items w
      = (inr (items ++ flat_map (rowsOf keptReceived) (answersOf recentIds w)), w', t)
      /\ updates t = []
      /\ lookups (flat_map requestsOf recentIds) (calls t).
Proof.
  induction recentIds as [|idWrapper recentIds IH]; intros items w;
    unfold answersOf, requestsOf; cbn [for_of flat_map lookedUp].
  - exists w, []. rewrite app_nil_r. repeat split; constructor.
  - unfold receivedRequests at 1. destruct (nullish idWrapper) eqn:Hid.
    + destruct (IH items w) as (w' & t & Hrest & Hupd & Hcalls).
      unfold bind. rewrite (fetchReceived_null idWrapper items w Hid), Hrest.
      do 2 eexists. split; [reflexivity|]. cbn [app calls updates filter isUpdate].
      split; [exact Hupd|exact Hcalls].
    + destruct (robustFetch_lookup respond false
                  (uintCV (parseInt (prop idWrapper "value"))) propsCall w)
        as (r & w1 & t1 & Hrun & Hupd1 & Hcalls1 & _).
      assert (Hrun' :
                History.robustFetch
                  (History.fetchProps respond CONTRACT_ADDRESS CONTRACT_NAME userAddress
                     (parseInt (prop idWrapper "value"))) 3 500 w
                = (r, w1, t1)) by exact Hrun.
      rewrite Hrun'.
      destruct (@fetchReceived_rows idWrapper items w r w1 t1 Hid Hrun')
        as (tlog & Hlog & Hstep).
      destruct (IH (items ++ rowsOf keptReceived (parseInt (prop idWrapper "value"), r))
                  w1) as (w' & t & Hrest & Hupd & Hcalls).
      unfold bind. rewrite Hstep, Hrest. cbn [flat_map].
      do 2 eexists. rewrite <- app_assoc. split; [reflexivity|].
      rewrite !updates_app, !calls_app, Hupd1, Hupd,
        (consoleOnly_updates Hlog), (consoleOnly_calls Hlog), ?app_nil_r.
      split; [reflexivity|]. apply lookups_app; [exact Hcalls1|exact Hcalls].
Qed.


(** The loop pushes rows tagged "received" only. *)
Lemma received_loop (recentIds : list json) :
  forall (items : list HistoryItem) (w : W),
    exists items' w' t,
      for_of recentIds fetchReceived items w = (inr (items ++ items'), w', t)
      /\ updates t = []
      /\ lookups (flat_map requestsOf recentIds) (calls t)
      /\ Forall (fun x => type x = received) items'.
Proof.
  intros items w.
  destruct (received_rows recentIds items w) as (w' & t & Hloop & Hupd & Hcalls).
  do 3 eexists. split; [exact Hloop|]. repeat split; auto.
  apply rowsOf_received.
Qed.

End ReceivedFacts.



(** On the sample, the "received" tab of a participant lists what the
    history list of the participant names, most recent first; and a
    record looked up for a user who took no part in it is tagged
    "received" all the same. *)
Example received_history_sample :
  map (fun item => (id item, type item, to item))
    (historyItemsAfter
       (snd (History.loadHistory Sample.respond "SP0" "props" TabReceived Sample.alice
               (Sample.online Sample.twelve))))
  = [(Int 6, received, JStr Sample.alice); (Int 4, received, JStr Sample.alice);
     (Int 3, received, JStr Sample.alice); (Int 1, received, JStr Sample.alice)]
  /\ History.fetchReceived Sample.respond "SP0" "props" Sample.frank (Sample.uint 8) []
       (Sample.online Sample.twelve)
     = (inr [ {| id := Int 8; type := received; from := JStr Sample.alice;
                 to := JStr Sample.carol; amount := Int 1; message := JStr "thanks";
                 blockHeight := Int 100 |} ],
        {| Sample.ledger := Sample.twelve; Sample.clock := 1; Sample.outages := [] |},
        [Sleep 500; Called (History.propsRequest "SP0" "props" Sample.frank (Int 8))]).
Proof. split; vm_compute; reflexivity. Qed.

(** ** Scenarios *)

(** Twelve records and a window of ten: the scan looks up the indices
    2 to 11, six participants are found and looked up once each, and
    the ranking keeps alice before bob and erin before frank. *)
Example leaderboard_scenario :
  let t := snd (Leaderboard.loadLeaderboard Sample.respond "SP0" "props" Sample.isPrincipal
                  (Sample.online Sample.twelve)) in
  calls t
  = Leaderboard.counterRequest "SP0" "props"
    :: map (Leaderboard.propsRequest "SP0" "props") (interval 2 12)
    ++ map (fun a => Leaderboard.statsRequest "SP0" "props" (JStr a))
         [Sample.alice; Sample.bob; Sample.carol; Sample.dave; Sample.erin; Sample.frank]
  /\ map (fun row => (address row, propsReceived row, rank row)) (topUsersAfter t)
     = [(JStr Sample.alice, Int 4, 1); (JStr Sample.bob, Int 4, 2); (JStr Sample.carol, Int 3, 3);
        (JStr Sample.dave, Int 1, 4); (JStr Sample.erin, Int 0, 5); (JStr Sample.frank, Int 0, 6)].
Proof. split; vm_compute; reflexivity. Qed.

(** The "given" tab of alice on the same contract: the records alice
    gave, most recent first. *)
Example history_given_scenario :
  map (fun item => (id item, type item, to item))
    (historyItemsAfter
       (snd (History.loadHistory Sample.respond "SP0" "props" TabGiven Sample.alice
               (Sample.online Sample.twelve))))
  = [(Int 8, given, JStr Sample.carol); (Int 2, given, JStr Sample.bob); (Int 0, given, JStr Sample.bob)].
Proof. vm_compute. reflexivity. Qed.

(* ================================================================== *)
(** * Further properties of the retrying caller *)
(* ================================================================== *)

Section RetryBounds.
Variable W : Type.
Variable respond : request -> W -> (exn + json) * W.

(** Whatever the endpoint does, [n + 1] calls in a row either fail
    fewer than [n + 1] times before one succeeds, or all fail. *)
Lemma respond_cases (req : request) (n : nat) :
  forall w : W,
    (exists k v w', (k <= n)%nat /\ failsThenSucceeds respond req k w v w')
    \/ (exists e w', keepsFailing respond req n w e w').
Proof.
  induction n as [|n IH]; intros w.
  - destruct (respond req w) as [[e|v] w'] eqn:Hr.
    + right. exists e, w'. exact Hr.
    + left. exists 0%nat, v, w'. split; [lia|exact Hr].
  - destruct (respond req w) as [[e|v] w1] eqn:Hr.
    + destruct (IH w1) as [(k & v & w' & Hk & Hop)|(e' & w' & Hop)].
      * left. exists (S k), v, w'. split; [lia|]. cbn. eauto.
      * right. exists e', w'. cbn. eauto.
    + left. exists 0%nat, v, w1. split; [lia|exact Hr].
Qed.

Lemma waits_total (D : Z) (k : nat) :
  forall i, 0 <= i ->
    total (waits D i k) = D * (Z.of_nat k + 1) + D * 2 ^ i * (2 ^ Z.of_nat k - 1).
Proof.
  induction k as [|k IH]; intros i Hi; cbn [waits total fold_right].
  - cbn. lia.
  - fold (total (waits D (i + 1) k)). rewrite IH by lia.
    replace (2 ^ (i + 1)) with (2 * 2 ^ i) by (rewrite Z.pow_add_r; lia).
    replace (2 ^ Z.of_nat (S k)) with (2 * 2 ^ Z.of_nat k)
      by (rewrite Nat2Z.inj_succ, Z.pow_succ_r; lia).
    rewrite Nat2Z.inj_succ. ring.
Qed.

Lemma waits_total_0 (D : Z) (k : nat) :
  total (waits D 0 k) = D * (Z.of_nat k + 2 ^ Z.of_nat k).
Proof. rewrite waits_total by lia. cbn [Z.pow]. ring. Qed.

Lemma paced_app (D : Z) (t1 t2 : list event) :
  paced D t1 -> paced D t2 -> paced D (t1 ++ t2).
Proof.
  induction 1 as [|req t H IH|ev t Hev H IH]; intros H2; cbn [app].
  - exact H2.
  - apply paced_call. apply IH, H2.
  - apply paced_other; [exact Hev|]. apply IH, H2.
Qed.

Lemma paced_console (D : Z) (t : list event) : consoleOnly t -> paced D t.
Proof.
  unfold consoleOnly. induction t as [|ev t IH]; [constructor|].
  cbn [forallb]. intros H. apply andb_prop in H. destruct H as [Hev Ht].
  apply paced_other; [|apply IH, Ht].
  intros req ->. discriminate.
Qed.

(** Every attempt of [robustFetch] is paced, whatever the endpoint
    does. *)
Lemma robustFetch_from_paced (warns : bool) (req : request) (R D : Z) :
  forall (fuel : nat) (i : Z) (w : W),
    paced D (snd (robustFetch_from fuel warns
                    (fetchCallReadOnlyFunction respond req) R D i w)).
Proof.
  induction fuel as [|fuel IH]; intros i w; [constructor|].
  destruct (Z.ltb_spec i R) as [Hi|Hi].
  2:{ cbn [robustFetch_from]. replace (i <? R) with false
        by (symmetry; apply Z.ltb_ge; lia). constructor. }
  destruct (respond req w) as [[e|v] w1] eqn:Hr.
  - destruct (Z.eq_dec i (R - 1)) as [->|Hlast].
    + rewrite (@robustFetch_from_last W respond fuel warns req R D w w1 e Hr).
      repeat constructor.
    + rewrite (@robustFetch_from_miss W respond fuel warns req R D i w w1 e)
        by (lia || exact Hr).
      specialize (IH (i + 1) w1).
      destruct (robustFetch_from fuel warns _ R D (i + 1) w1) as [[r w2] t].
      cbn [snd] in *. cbn [app]. apply paced_call.
      apply paced_app; [destruct warns; repeat constructor; discriminate|].
      apply paced_other; [discriminate|exact IH].
  - rewrite (@robustFetch_from_hit W respond fuel warns req R D i w w1 v Hi Hr).
    repeat constructor.
Qed.
End RetryBounds.

(** X1.  With a retry count [R >= 1], [robustFetch] (either copy)
    makes at least one and at most [R] attempts of the call, whatever
    the endpoint answers, and it never resolves with [undefined]: it
    returns an answer of the endpoint or throws. *)
Theorem robustFetch_attempts (W : Type)
    (respond : request -> W -> (exn + json) * W)
    (req : request) (R D : Z) (w : W) :
  1 <= R ->
  exists r w' t t' n,
    Leaderboard.robustFetch (fetchCallReadOnlyFunction respond req) R D w = (r, w', t)
    /\ History.robustFetch (fetchCallReadOnlyFunction respond req) R D w = (r, w', t')
    /\ (1 <= n)%nat /\ Z.of_nat n <= R
    /\ calls t = repeat req n /\ calls t' = repeat req n
    /\ r <> inr None.
Proof.
  intros HR. unfold Leaderboard.robustFetch, History.robustFetch, robustFetchWith.
  destruct (respond_cases respond req (Z.to_nat (R - 1)) w)
    as [(k & v & w' & Hk & Hop)|(e & w' & Hop)].
  - destruct (@robustFetch_from_succeeds W respond true req R D k (Z.to_nat R) 0 w v w')
      as (t & Ht & Hc & _); [lia|lia|exact Hop|].
    destruct (@robustFetch_from_succeeds W respond false req R D k (Z.to_nat R) 0 w v w')
      as (t' & Ht' & Hc' & _); [lia|lia|exact Hop|].
    exists (inr (Some v)), w', t, t', (S k).
    repeat split; try assumption; try lia. discriminate.
  - destruct (@robustFetch_from_exhausts W respond true req R D
                (Z.to_nat (R - 1)) (Z.to_nat R) 0 w e w')
      as (t & Ht & Hc & _); [lia|lia|exact Hop|].
    destruct (@robustFetch_from_exhausts W respond false req R D
                (Z.to_nat (R - 1)) (Z.to_nat R) 0 w e w')
      as (t' & Ht' & Hc' & _); [lia|lia|exact Hop|].
    exists (inl e), w', t, t', (S (Z.to_nat (R - 1))).
    repeat split; try assumption; try lia. discriminate.
Qed.

Lemma robustFetch_attempts_witness :
  exists r w' t t' n,
    Leaderboard.robustFetch (fetchCallReadOnlyFunction Sample.respond sampleCall)
      3 500 (after 0 [0; 1]%nat)
    = (r, w', t)
    /\ History.robustFetch (fetchCallReadOnlyFunction Sample.respond sampleCall)
         3 500 (after 0 [0; 1]%nat)
       = (r, w', t')
    /\ (1 <= n)%nat /\ Z.of_nat n <= 3
    /\ calls t = repeat sampleCall n /\ calls t' = repeat sampleCall n
    /\ r <> inr None.
Proof.
  apply robustFetch_attempts. lia.
Defined.

Lemma pow2_plus_mono (k K : Z) : 0 <= k <= K -> k + 2 ^ k <= K + 2 ^ K.
Proof.
  intros H. assert (2 ^ k <= 2 ^ K) by (apply Z.pow_le_mono_r; lia). lia.
Qed.

(** X2.  The time [robustFetch] (either copy) spends waiting: after
    [k] failures and a success it is [D * (k + 2^k)] milliseconds, and
    whatever the endpoint does it is at most [D * (R - 1 + 2^(R-1))],
    which is 3000 ms with the default arguments. *)
Theorem robustFetch_total_wait (W : Type)
    (respond : request -> W -> (exn + json) * W)
    (req : request) (R D : Z) (w : W) :
  0 <= D ->
  1 <= R ->
  let waited copy :=
    total (sleeps (snd (robustFetchWith copy
                          (fetchCallReadOnlyFunction respond req) R D w))) in
  (forall (k : nat) (v : json) (w' : W),
      Z.of_nat k < R ->
      failsThenSucceeds respond req k w v w' ->
      waited true = D * (Z.of_nat k + 2 ^ Z.of_nat k)
      /\ waited false = D * (Z.of_nat k + 2 ^ Z.of_nat k))
  /\ waited true <= D * (R - 1 + 2 ^ (R - 1))
  /\ waited false <= D * (R - 1 + 2 ^ (R - 1)).
Proof.
  intros HD HR waited.
  assert (Hexact : forall (copy : bool) (k : nat) (v : json) (w' : W),
             Z.of_nat k < R ->
             failsThenSucceeds respond req k w v w' ->
             waited copy = D * (Z.of_nat k + 2 ^ Z.of_nat k)).
  { intros copy k v w' Hk Hop. unfold waited, robustFetchWith.
    destruct (@robustFetch_from_succeeds W respond copy req R D k (Z.to_nat R) 0 w v w')
      as (t & Ht & _ & Hs); [lia|lia|exact Hop|].
    rewrite Ht. cbn [snd]. rewrite Hs. apply waits_total_0. }
  assert (Hbound : forall copy, waited copy <= D * (R - 1 + 2 ^ (R - 1))).
  { intros copy.
    destruct (respond_cases respond req (Z.to_nat (R - 1)) w)
      as [(k & v & w' & Hk & Hop)|(e & w' & Hop)].
    - rewrite (Hexact copy k v w') by (lia || exact Hop).
      apply Z.mul_le_mono_nonneg_l; [exact HD|].
      apply pow2_plus_mono. lia.
    - unfold waited, robustFetchWith.
      destruct (@robustFetch_from_exhausts W respond copy req R D
                  (Z.to_nat (R - 1)) (Z.to_nat R) 0 w e w')
        as (t & Ht & _ & Hs); [lia|lia|exact Hop|].
      rewrite Ht. cbn [snd]. rewrite Hs, waits_total_0.
      replace (Z.of_nat (Z.to_nat (R - 1))) with (R - 1) by lia. lia. }
  split; [|split; apply Hbound].
  intros k v w' Hk Hop. split; apply (Hexact _ k v w'); assumption.
Qed.

Lemma robustFetch_total_wait_witness :
  let waited copy :=
    total (sleeps (snd (robustFetchWith copy
                          (fetchCallReadOnlyFunction Sample.respond sampleCall)
                          3 500 (after 0 [0%nat])))) in
  (waited true = 500 * (Z.of_nat 1 + 2 ^ Z.of_nat 1)
   /\ waited false = 500 * (Z.of_nat 1 + 2 ^ Z.of_nat 1))
  /\ waited true <= 500 * (3 - 1 + 2 ^ (3 - 1))
  /\ waited false <= 500 * (3 - 1 + 2 ^ (3 - 1)).
Proof.
  destruct (@robustFetch_total_wait Sample.World Sample.respond sampleCall 3 500
              (after 0 [0%nat])) as (Hexact & Hbound); [lia|lia|].
  split; [|exact Hbound].
  apply (Hexact 1%nat sampleAnswer (after 2 [0%nat])); [lia|].
  simpl. do 2 eexists. split; reflexivity.
Defined.


(* ================================================================== *)
(** * Properties of every run of a page *)
(* ================================================================== *)

(** A property of traces that holds of the empty trace and is kept by
    concatenation holds of a computation when it holds of its parts. *)
Section TraceLogic.
Variable W : Type.
Variable P : list event -> Prop.
Hypothesis P_nil : P [].
Hypothesis P_app : forall t1 t2, P t1 -> P t2 -> P (t1 ++ t2).

Lemma always_ret (A : Type) (a : A) : always P (ret (W:=W) a).
Proof. intros w. exact P_nil. Qed.

Lemma always_throw (A : Type) (e : exn) : always P (throw (W:=W) (A:=A) e).
Proof. intros w. exact P_nil. Qed.

Lemma always_lift (A : Type) (r : E A) : always P (lift (W:=W) r).
Proof. intros w. exact P_nil. Qed.

Lemma always_emit (ev : event) : P [ev] -> always P (emit (W:=W) ev).
Proof. intros H w. exact H. Qed.

Lemma always_bind (A B : Type) (m : M W A) (f : A -> M W B) :
  always P m -> (forall a, always P (f a)) -> always P (bind m f).
Proof.
  intros Hm Hf w. specialize (Hm w). unfold bind.
  destruct (m w) as [[[e|a] w1] t1]; cbn [snd] in *; [exact Hm|].
  specialize (Hf a w1). destruct (f a w1) as [[r w2] t2]. cbn [snd] in *.
  apply P_app; assumption.
Qed.

Lemma always_try_catch (A : Type) (m : M W A) (handler : exn -> M W A) :
  always P m -> (forall e, always P (handler e)) -> always P (try_catch m handler).
Proof.
  intros Hm Hh w. specialize (Hm w). unfold try_catch.
  destruct (m w) as [[[e|a] w1] t1]; cbn [snd] in *; [|exact Hm].
  specialize (Hh e w1). destruct (handler e w1) as [[r w2] t2]. cbn [snd] in *.
  apply P_app; assumption.
Qed.

Lemma always_try_finally (A : Type) (m : M W A) (cleanup : M W unit) :
  always P m -> always P cleanup -> always P (try_finally m cleanup).
Proof.
  intros Hm Hc w. specialize (Hm w). unfold try_finally.
  destruct (m w) as [[r w1] t1]. cbn [snd] in *.
  specialize (Hc w1). destruct (cleanup w1) as [[[e|u] w2] t2]; cbn [snd] in *;
    apply P_app; assumption.
Qed.

Lemma always_for_of (X A : Type) (step : X -> A -> M W A) (xs : list X) :
  (forall x acc, always P (step x acc)) ->
  forall acc, always P (for_of xs step acc).
Proof.
  intros Hstep. induction xs as [|x xs IH]; intros acc; cbn [for_of].
  - apply always_ret.
  - apply always_bind; [apply Hstep|exact IH].
Qed.

Lemma always_forUp (A : Type) (body : Z -> A -> M W A) (start stop : number) :
  (forall i acc, always P (body i acc)) ->
  forall acc, always P (forUp start stop body acc).
Proof.
  intros Hbody acc w. destruct start as [|a], stop as [|b];
    try (cbn [forUp]; apply always_ret).
  rewrite forUp_interval. apply always_for_of. exact Hbody.
Qed.

Lemma always_forDown (A : Type) (body : Z -> A -> M W A) (start stop : number) :
  (forall i acc, always P (body i acc)) ->
  forall acc, always P (forDown start stop body acc).
Proof.
  intros Hbody acc w. destruct start as [|a], stop as [|b];
    try (cbn [forDown]; apply always_ret).
  rewrite forDown_interval. apply always_for_of. exact Hbody.
Qed.

(** The two pages, from what holds of their lookups, of their console
    output and of their state updates. *)
Variable respond : request -> W -> (exn + json) * W.
Variables CONTRACT_ADDRESS CONTRACT_NAME : string.
Variable isPrincipal : string -> bool.

Hypothesis P_console : forall text e, P [ConsoleError text e].
Hypothesis P_update : forall ev, isUpdate ev = true -> P [ev].

Lemma always_loadLeaderboard (cap : Z) :
  (forall req,
      leaderboardCall CONTRACT_ADDRESS CONTRACT_NAME req ->
      always P (Leaderboard.robustFetch
                  (fetchCallReadOnlyFunction respond req) 3 500)) ->
  (forall e, always P (Leaderboard.robustFetch (throw (W:=W) (A:=json) e) 3 500)) ->
  always P (Leaderboard.loadLeaderboardWith respond CONTRACT_ADDRESS CONTRACT_NAME isPrincipal cap).
Proof.
  intros Hfetch Hrefused. unfold Leaderboard.loadLeaderboardWith.
  apply always_try_finally; [|apply always_emit, P_update; reflexivity].
  apply always_try_catch; [|intros e; apply always_emit, P_console].
  apply always_bind; [apply Hfetch; left; reflexivity|]. intros counterResult.
  apply always_bind; [apply always_lift|]. intros counterJSON.
  apply always_bind; [apply always_lift|]. intros totalProps.
  destruct (numEq totalProps (Int 0));
    [apply always_emit, P_update; reflexivity|].
  apply always_bind.
  { unfold Leaderboard.scanRecent. apply always_forUp. intros i users.
    unfold Leaderboard.scanProps. apply always_try_catch.
    - apply always_bind; [|intros propsResult].
      { unfold Leaderboard.fetchProps, callWith.
        destruct (uintCV (Int i)); [apply Hrefused|apply Hfetch; right; left; eauto]. }
      apply always_bind; [apply always_lift|]. intros propsJSON.
      apply always_bind; [apply always_lift|]. intros propData.
      destruct (truthy propData && truthy (prop propData "giver")
                && truthy (prop propData "receiver")); apply always_ret.
    - intros e. apply always_bind; [apply always_emit, P_console|].
      intros _. apply always_ret. }
  intros users.
  destruct (Nat.eqb (List.length users) 0);
    [apply always_emit, P_update; reflexivity|].
  apply always_bind; [|intros stats; apply always_emit, P_update; reflexivity].
  apply always_for_of. intros a stats. unfold Leaderboard.fetchStats.
  apply always_try_catch.
  - apply always_bind; [|intros statsResult].
    { unfold Leaderboard.fetchUserStats, callWith.
      destruct (principalCV isPrincipal a);
        [apply Hrefused|apply Hfetch; right; right; eauto]. }
    apply always_bind; [apply always_lift|]. intros statsJSON.
    apply always_bind; [apply always_lift|]. intros v.
    destruct (truthy (getOpt v "value")); [|apply always_ret].
    apply always_bind; [apply always_lift|]. intros received.
    apply always_bind; [apply always_lift|]. intros given. apply always_ret.
  - intros e. apply always_bind; [apply always_emit, P_console|].
    intros _. apply always_ret.
Qed.

Lemma always_fetchItems (activeTab : TabType) (userAddress : string) (cap : Z) :
  (forall req,
      historyCall CONTRACT_ADDRESS CONTRACT_NAME userAddress req ->
      always P (History.robustFetch
                  (fetchCallReadOnlyFunction respond req) 3 500)) ->
  (forall e, always P (History.robustFetch (throw (W:=W) (A:=json) e) 3 500)) ->
  always P (History.fetchItems respond CONTRACT_ADDRESS CONTRACT_NAME
              activeTab userAddress cap).
Proof.
  intros Hfetch Hrefused. unfold History.fetchItems.
  destruct (History.isTab activeTab TabReceived).
  - apply always_bind; [apply Hfetch; left; reflexivity|]. intros historyResult.
    apply always_bind; [apply always_lift|]. intros historyJSON.
    apply always_bind; [apply always_lift|]. intros v.
    apply always_bind; [apply always_lift|]. intros recentIds.
    apply always_for_of. intros idWrapper items. unfold History.fetchReceived.
    apply always_try_catch.
    + apply always_bind; [apply always_lift|]. intros idValue.
      apply always_bind; [|intros propsResult].
      { unfold History.fetchProps, callWith.
        destruct (uintCV (parseInt idValue));
          [apply Hrefused|apply Hfetch; right; right; eauto]. }
      apply always_bind; [apply always_lift|]. intros propsJSON.
      apply always_bind; [apply always_lift|]. intros propData.
      destruct (truthy propData); [|apply always_ret].
      apply always_bind; [apply always_lift|]. intros giver.
      apply always_bind; [apply always_lift|]. intros receiver.
      apply always_bind; [apply always_lift|]. intros item. apply always_ret.
    + intros e. apply always_bind; [apply always_emit, P_console|].
      intros _. apply always_ret.
  - apply always_bind; [apply Hfetch; right; left; reflexivity|]. intros counterResult.
    apply always_bind; [apply always_lift|]. intros counterJSON.
    apply always_bind; [apply always_lift|]. intros totalProps.
    unfold History.scanRecent. apply always_forDown. intros i items.
    unfold History.scanProps. apply always_try_catch.
    + apply always_bind; [|intros propsResult].
      { unfold History.fetchProps, callWith.
        destruct (uintCV (Int i)); [apply Hrefused|apply Hfetch; right; right; eauto]. }
      apply always_bind; [apply always_lift|]. intros propsJSON.
      apply always_bind; [apply always_lift|]. intros propData.
      destruct (truthy propData); [|apply always_ret].
      apply always_bind; [apply always_lift|]. intros giver.
      apply always_bind; [apply always_lift|]. intros receiver.
      destruct (History.isTab activeTab TabGiven
                && strictEq giver (JStr userAddress)).
      * apply always_bind; [apply always_lift|]. intros item. apply always_ret.
      * destruct (History.isTab activeTab TabAll
                  && (strictEq giver (JStr userAddress)
                      || strictEq receiver (JStr userAddress)));
          [|apply always_ret].
        apply always_bind; [apply always_lift|]. intros item. apply always_ret.
    + intros e. apply always_bind; [apply always_emit, P_console|].
      intros _. apply always_ret.
Qed.

Lemma always_loadHistory (activeTab : TabType) (userAddress : string) (cap : Z) :
  (forall req,
      historyCall CONTRACT_ADDRESS CONTRACT_NAME userAddress req ->
      always P (History.robustFetch
                  (fetchCallReadOnlyFunction respond req) 3 500)) ->
  (forall e, always P (History.robustFetch (throw (W:=W) (A:=json) e) 3 500)) ->
  always P (History.loadHistoryWith respond CONTRACT_ADDRESS CONTRACT_NAME
              activeTab userAddress cap).
Proof.
  intros Hfetch Hrefused. unfold History.loadHistoryWith.
  apply always_bind; [apply always_emit, P_update; reflexivity|]. intros _.
  apply always_bind; [apply always_emit, P_update; reflexivity|]. intros _.
  apply always_try_finally; [|apply always_emit, P_update; reflexivity].
  apply always_try_catch; [|intros e; apply always_emit, P_console].
  apply always_bind; [|intros items; apply always_emit, P_update; reflexivity].
  apply always_fetchItems; assumption.
Qed.
End TraceLogic.

Lemma paced_quiet (D : Z) (t : list event) : calls t = [] -> paced D t.
Proof.
  induction t as [|ev t IH]; [constructor|].
  destruct ev; cbn [calls]; try discriminate;
    intros H; (apply paced_other; [discriminate|apply IH, H]).
Qed.

Lemma paced_single (D : Z) (ev : event) :
  (forall req, ev <> Called req) -> paced D [ev].
Proof. intros H. apply paced_other; [exact H|constructor]. Qed.

(** X3.  In every run of either page, whatever the endpoint answers,
    each remote call comes directly after a wait of 500 ms: no call is
    made without the pause that guards the rate limit. *)
Theorem pages_are_paced (W : Type)
    (respond : request -> W -> (exn + json) * W)
    (CONTRACT_ADDRESS CONTRACT_NAME : string)
    (isPrincipal : string -> bool)
    (activeTab : TabType) (userAddress : string) (cap : Z) (w : W) :
  paced 500
    (snd (Leaderboard.loadLeaderboardWith respond CONTRACT_ADDRESS CONTRACT_NAME isPrincipal cap w))
  /\ paced 500
       (snd (History.loadHistoryWith respond CONTRACT_ADDRESS CONTRACT_NAME
               activeTab userAddress cap w)).
Proof.
  split.
  - apply (@always_loadLeaderboard W (paced 500) (paced_nil 500) (@paced_app 500)
             respond CONTRACT_ADDRESS CONTRACT_NAME).
    + intros text e. apply paced_single. discriminate.
    + intros ev Hev. apply paced_single. intros req ->. discriminate.
    + intros req _ w0. apply robustFetch_from_paced.
    + intros e w0.
      destruct (@robustFetch_refused W true e w0) as (t & Hrun & Hcalls & _).
      unfold Leaderboard.robustFetch. rewrite Hrun. apply paced_quiet, Hcalls.
  - apply (@always_loadHistory W (paced 500) (paced_nil 500) (@paced_app 500)
             respond CONTRACT_ADDRESS CONTRACT_NAME).
    + intros text e. apply paced_single. discriminate.
    + intros ev Hev. apply paced_single. intros req ->. discriminate.
    + intros req _ w0. apply robustFetch_from_paced.
    + intros e w0.
      destruct (@robustFetch_refused W false e w0) as (t & Hrun & Hcalls & _).
      unfold History.robustFetch. rewrite Hrun. apply paced_quiet, Hcalls.
Qed.

Section CallFacts.
Variables CONTRACT_ADDRESS CONTRACT_NAME : string.
Variable names : list string.

Let within := callsWithin CONTRACT_ADDRESS CONTRACT_NAME names.

Lemma within_nil : within [].
Proof. constructor. Qed.

Lemma within_app (t1 t2 : list event) : within t1 -> within t2 -> within (t1 ++ t2).
Proof.
  unfold within, callsWithin. intros H1 H2. rewrite calls_app.
  apply Forall_app. split; assumption.
Qed.

Lemma within_quiet (ev : event) : (forall req, ev <> Called req) -> within [ev].
Proof.
  intros H. unfold within, callsWithin.
  destruct ev; cbn [calls]; try (apply Forall_nil).
  exfalso. apply (H req). reflexivity.
Qed.

Lemma within_silent (t : list event) : calls t = [] -> within t.
Proof. unfold within, callsWithin. intros ->. constructor. Qed.

Lemma within_robustFetch (W : Type) (respond : request -> W -> (exn + json) * W)
    (warns : bool) (req : request) :
  contractAddress req = CONTRACT_ADDRESS ->
  contractName req = CONTRACT_NAME ->
  In (functionName req) names ->
  always within (robustFetchWith warns (fetchCallReadOnlyFunction respond req) 3 500).
Proof.
  intros Ha Hn Hf w.
  destruct (robustFetch_default respond warns req w)
    as (r & w' & t & n & Hrun & _ & Hcalls & _).
  rewrite Hrun. cbn [snd]. unfold within, callsWithin. rewrite Hcalls.
  apply Forall_forall. intros req' Hin. apply repeat_spec in Hin. subst req'. auto.
Qed.
End CallFacts.

(** X4.  Every remote call of a run of either page is a call to the
    contract of the configuration, and to one of three of its
    read-only functions: the count, the record by index and the
    statistics on the leaderboard; the count, the record by index and
    the subject's history on the history page. *)
Theorem pages_call_only_the_contract (W : Type)
    (respond : request -> W -> (exn + json) * W)
    (CONTRACT_ADDRESS CONTRACT_NAME : string)
    (isPrincipal : string -> bool)
    (activeTab : TabType) (userAddress : string) (cap : Z) (w : W) :
  callsWithin CONTRACT_ADDRESS CONTRACT_NAME
    ["get-current-props-id"; "get-props-by-id"; "get-user-stats"]%string
    (snd (Leaderboard.loadLeaderboardWith respond CONTRACT_ADDRESS CONTRACT_NAME isPrincipal cap w))
  /\ callsWithin CONTRACT_ADDRESS CONTRACT_NAME
       ["get-current-props-id"; "get-props-by-id"; "get-user-history"]%string
       (snd (History.loadHistoryWith respond CONTRACT_ADDRESS CONTRACT_NAME
               activeTab userAddress cap w)).
Proof.
  split.
  - apply (@always_loadLeaderboard W _ (within_nil _ _ _) (@within_app _ _ _)
             respond CONTRACT_ADDRESS CONTRACT_NAME).
    + intros text e. apply within_quiet. discriminate.
    + intros ev Hev. apply within_quiet. intros req ->. discriminate.
    + intros req [->|[[arg ->]|(a & arg & ->)]]; apply within_robustFetch;
        cbn; auto.
    + intros e w0.
      destruct (@robustFetch_refused W true e w0) as (t & Hrun & Hcalls & _).
      unfold Leaderboard.robustFetch. rewrite Hrun. apply within_silent, Hcalls.
  - apply (@always_loadHistory W _ (within_nil _ _ _) (@within_app _ _ _)
             respond CONTRACT_ADDRESS CONTRACT_NAME).
    + intros text e. apply within_quiet. discriminate.
    + intros ev Hev. apply within_quiet. intros req ->. discriminate.
    + intros req [->|[->|[arg ->]]]; apply within_robustFetch;
        cbn; auto.
    + intros e w0.
      destruct (@robustFetch_refused W false e w0) as (t & Hrun & Hcalls & _).
      unfold History.robustFetch. rewrite Hrun. apply within_silent, Hcalls.
Qed.

Section EndOfRun.
Variable W : Type.
Variable respond : request -> W -> (exn + json) * W.
Variables CONTRACT_ADDRESS CONTRACT_NAME : string.
Variable isPrincipal : string -> bool.

(** The last event of a guarded run. *)
Lemma guarded_trace (m : M W unit) (text : string) (w : W) :
  exists t1,
    snd (try_finally
           (try_catch m (fun error => emit (ConsoleError text error)))
           (emit (SetIsLoading false)) w)
    = t1 ++ [SetIsLoading false].
Proof.
  unfold try_finally, try_catch, emit.
  destruct (m w) as [[[e|[]] w1] t1]; eexists; reflexivity.
Qed.

Lemma loadLeaderboard_trace (cap : Z) (w : W) :
  exists t1,
    snd (Leaderboard.loadLeaderboardWith respond CONTRACT_ADDRESS CONTRACT_NAME isPrincipal cap w)
    = t1 ++ [SetIsLoading false].
Proof. apply guarded_trace. Qed.

Lemma bind_emit_trace (ev : event) (k : M W unit) (w : W) :
  snd (bind (emit ev) (fun _ => k) w) = ev :: snd (k w).
Proof. unfold bind, emit. destruct (k w) as [[r w1] t]. reflexivity. Qed.

Lemma loadHistory_trace (activeTab : TabType) (userAddress : string)
    (cap : Z) (w : W) :
  exists t1,
    snd (History.loadHistoryWith respond CONTRACT_ADDRESS CONTRACT_NAME
           activeTab userAddress cap w)
    = SetIsLoading true :: SetHistoryItems [] :: t1 ++ [SetIsLoading false].
Proof.
  unfold History.loadHistoryWith. rewrite !bind_emit_trace.
  match goal with
  | |- context [try_finally (try_catch ?m _) _] =>
      destruct (guarded_trace m "Error loading history:" w) as (t1 & ->)
  end.
  exists t1. reflexivity.
Qed.
End EndOfRun.

(** A trace that ends with the event [x]. *)
Lemma ends_with_tail (A : Type) (x y : A) (l l0 : list A) :
  y :: l = l0 ++ [x] -> (l = [] /\ y = x) \/ (exists l1, l = l1 ++ [x]).
Proof.
  destruct l0 as [|z l0]; cbn [app].
  - intros [= -> ->]. left. auto.
  - intros [= -> ->]. right. exists l0. reflexivity.
Qed.

Lemma interleaving_nil_inv (A : Type) (t1 t2 : list A) :
  interleaving t1 t2 [] -> t1 = [] /\ t2 = [].
Proof. intros H. inversion H. auto. Qed.

Lemma interleaving_left_only (A : Type) (t : list A) : interleaving t [] t.
Proof. induction t; constructor; assumption. Qed.

(** Traces that end with [x], or are empty, interleave to a trace that
    ends with [x], or is empty. *)
Lemma interleaving_last (A : Type) (x : A) (t1 t2 t : list A) :
  interleaving t1 t2 t ->
  (t1 = [] \/ exists l, t1 = l ++ [x]) ->
  (t2 = [] \/ exists l, t2 = l ++ [x]) ->
  t = [] \/ exists l, t = l ++ [x].
Proof.
  induction 1 as [|y t1 t2 t H IH|y t1 t2 t H IH]; intros H1 H2.
  - left. reflexivity.
  - right. destruct H1 as [H1|(l & H1)]; [discriminate|].
    apply ends_with_tail in H1. destruct H1 as [[-> ->]|(l1 & ->)].
    + destruct (IH (or_introl eq_refl) H2) as [->|(l0 & ->)];
        [exists []; reflexivity|exists (x :: l0); reflexivity].
    + destruct (IH (or_intror (ex_intro _ l1 eq_refl)) H2) as [->|(l0 & ->)].
      * apply interleaving_nil_inv in H. destruct H as [H _].
        destruct l1; discriminate.
      * exists (y :: l0). reflexivity.
  - right. destruct H2 as [H2|(l & H2)]; [discriminate|].
    apply ends_with_tail in H2. destruct H2 as [[-> ->]|(l1 & ->)].
    + destruct (IH H1 (or_introl eq_refl)) as [->|(l0 & ->)];
        [exists []; reflexivity|exists (x :: l0); reflexivity].
    + destruct (IH H1 (or_intror (ex_intro _ l1 eq_refl))) as [->|(l0 & ->)].
      * apply interleaving_nil_inv in H. destruct H as [_ H].
        destruct l1; discriminate.
      * exists (y :: l0). reflexivity.
Qed.

Lemma merged_last (A : Type) (x : A) (ts : list (list A)) (t : list A) :
  merged ts t ->
  Forall (fun t0 => exists l, t0 = l ++ [x]) ts ->
  ts <> [] ->
  exists l, t = l ++ [x].
Proof.
  induction 1 as [|t0 ts m m' Hm IH Hi]; intros Hall Hne; [congruence|].
  inversion Hall as [|? ? H0 Hrest]; subst.
  assert (Hm' : m = [] \/ exists l, m = l ++ [x]).
  { destruct ts as [|t1 ts]; [inversion Hm; auto|].
    right. apply IH; [exact Hrest|discriminate]. }
  destruct (@interleaving_last A x t0 m m' Hi (or_intror H0) Hm') as [->|Hlast];
    [|exact Hlast].
  apply interleaving_nil_inv in Hi. destruct Hi as [-> _].
  destruct H0 as ([|? ?] & H0); discriminate.
Qed.

(** X5.  When the runs of a page have ended, the loading flag is off,
    whatever it was and whatever happened in the runs.  The
    leaderboard starts one run.  The history page starts a run when
    the subject is known and at every change of tab, and cancels none:
    the runs may overlap, their state updates landing on the page in
    any order that keeps the order of each run. *)
Theorem loading_flag_is_cleared (W : Type)
    (respond : request -> W -> (exn + json) * W)
    (CONTRACT_ADDRESS CONTRACT_NAME : string)
    (isPrincipal : string -> bool) (cap : Z) (w : W)
    (runs : list HistoryRun) (t : list event) (wasLoading : bool) :
  runs <> [] ->
  merged (map (historyTrace CONTRACT_ADDRESS CONTRACT_NAME cap) runs) t ->
  isLoadingAfter wasLoading
    (snd (Leaderboard.loadLeaderboardWith respond CONTRACT_ADDRESS CONTRACT_NAME
            isPrincipal cap w))
  = false
  /\ isLoadingAfter wasLoading t = false.
Proof.
  intros Hruns Hmerged. split.
  - destruct (loadLeaderboard_trace respond CONTRACT_ADDRESS CONTRACT_NAME
                isPrincipal cap w) as (t0 & ->).
    unfold isLoadingAfter. rewrite fold_left_app. reflexivity.
  - destruct (@merged_last event (SetIsLoading false) _ t Hmerged) as (l & ->).
    + apply Forall_forall. intros t0 Hin. apply in_map_iff in Hin.
      destruct Hin as (run & <- & _). unfold historyTrace.
      destruct (loadHistory_trace (run_respond run) CONTRACT_ADDRESS CONTRACT_NAME
                  (run_tab run) (run_user run) cap (run_start run)) as (t1 & ->).
      exists (SetIsLoading true :: SetHistoryItems [] :: t1). reflexivity.
    + destruct runs; [congruence|discriminate].
    + unfold isLoadingAfter. rewrite fold_left_app. reflexivity.
Qed.

(** Two runs of the history page on an empty contract, the second
    started, for another tab, when the first had made its call. *)
Lemma loading_flag_is_cleared_witness :
  let first :=
    {| run_respond := Sample.respond; run_tab := TabAll; run_user := Sample.alice;
       run_start := Sample.online [] |} in
  let second :=
    {| run_respond := Sample.respond; run_tab := TabGiven; run_user := Sample.alice;
       run_start := Sample.online [] |} in
  let overlapped :=
    [SetIsLoading true; SetHistoryItems []; Sleep 500;
     Called (History.counterRequest "SP0" "props" Sample.alice)]
    ++ historyTrace "SP0" "props" 50 second
    ++ [SetHistoryItems []; SetIsLoading false] in
  isLoadingAfter true
    (snd (Leaderboard.loadLeaderboardWith Sample.respond "SP0" "props"
            Sample.isPrincipal 50 (Sample.online Sample.twelve)))
  = false
  /\ isLoadingAfter true overlapped = false.
Proof.
  apply (@loading_flag_is_cleared Sample.World Sample.respond "SP0" "props"
           Sample.isPrincipal 50 (Sample.online Sample.twelve)
           [ {| run_respond := Sample.respond; run_tab := TabAll;
                run_user := Sample.alice; run_start := Sample.online [] |};
             {| run_respond := Sample.respond; run_tab := TabGiven;
                run_user := Sample.alice; run_start := Sample.online [] |} ]);
    [discriminate|].
  cbn [map]. eapply merged_cons.
  - eapply merged_cons; [apply merged_nil|apply interleaving_left_only].
  - vm_compute. repeat apply interleaving_left.
    repeat apply interleaving_right. apply interleaving_left_only.
Defined.


(* ================================================================== *)
(** * Edges of the scans *)
(* ================================================================== *)

Lemma window_empty (cap : Z) (totalProps : number) :
  totalProps = NaN \/ (exists T, totalProps = Int T /\ T <= 0) ->
  window cap totalProps = [].
Proof.
  intros [->|(T & -> & HT)]; [reflexivity|].
  cbn [window]. apply interval_empty. lia.
Qed.

(** X6.  When the count does not decode to a positive number ([NaN],
    as for an answer that is not wrapped the way the page expects, or
    zero or less), neither page makes a per-index lookup: the run ends
    normally after the count lookup, with an empty report. *)
Theorem no_scan_without_a_positive_total (W : Type)
    (respond : request -> W -> (exn + json) * W)
    (CONTRACT_ADDRESS CONTRACT_NAME : string)
    (isPrincipal : string -> bool)
    (activeTab : TabType) (userAddress : string) (cap : Z) (w : W)
    (totalProps : number) :
  totalProps = NaN \/ (exists T, totalProps = Int T /\ T <= 0) ->
  (forall (counterJSON : json) (w1 : W) (t1 : list event),
      Leaderboard.robustFetch
        (fetchCallReadOnlyFunction respond
           (Leaderboard.counterRequest CONTRACT_ADDRESS CONTRACT_NAME)) 3 500 w
      = (inr (Some counterJSON), w1, t1) ->
      totalPropsOf counterJSON = inr totalProps ->
      let t := t1 ++ [SetIsLoading false; SetIsLoading false] in
      Leaderboard.loadLeaderboardWith respond CONTRACT_ADDRESS CONTRACT_NAME isPrincipal cap w
      = (inr tt, w1, t)
      /\ topUsersAfter t = [])
  /\
  (forall (counterJSON : json) (w1 : W) (t1 : list event),
      activeTab <> TabReceived ->
      History.robustFetch
        (fetchCallReadOnlyFunction respond
           (History.counterRequest CONTRACT_ADDRESS CONTRACT_NAME userAddress)) 3 500 w
      = (inr (Some counterJSON), w1, t1) ->
      totalPropsOf counterJSON = inr totalProps ->
      let t := [SetIsLoading true; SetHistoryItems []] ++ t1
               ++ [SetHistoryItems []; SetIsLoading false] in
      History.loadHistoryWith respond CONTRACT_ADDRESS CONTRACT_NAME
        activeTab userAddress cap w
      = (inr tt, w1, t)
      /\ historyItemsAfter t = []).
Proof.
  intros Htotal. pose proof (window_empty cap Htotal) as Hwindow. split.
  - intros counterJSON w1 t1 Hrun Hdecode t.
    destruct (@robustFetch_ran W respond true _ w _ w1 t1 Hrun) as (Hupd & _ & _).
    split.
    + unfold Leaderboard.loadLeaderboardWith, try_finally, try_catch, bind.
      rewrite Hrun. run. rewrite Hdecode. run.
      destruct (numEq totalProps (Int 0)); run;
        [unfold t; rewrite <- ?app_assoc; reflexivity|].
      rewrite scanRecent_window, Hwindow. cbn [for_of]. run.
      cbn [List.length Nat.eqb]. run.
      unfold t. rewrite <- ?app_assoc. reflexivity.
    + unfold t. rewrite topUsersAfter_updates, updates_app, Hupd. reflexivity.
  - intros counterJSON w1 t1 Htab Hrun Hdecode t.
    destruct (@robustFetch_ran W respond false _ w _ w1 t1 Hrun) as (Hupd & _ & _).
    split.
    + unfold History.loadHistoryWith, History.fetchItems, try_finally, try_catch, bind.
      run. destruct activeTab; try congruence; cbn [History.isTab];
        rewrite Hrun; run; rewrite Hdecode; run;
        rewrite history_scanRecent_window, Hwindow; cbn [rev for_of]; run;
        rewrite <- ?app_assoc; reflexivity.
    + unfold t. rewrite historyItemsAfter_updates, !updates_app, Hupd. reflexivity.
Qed.

Lemma no_scan_without_a_positive_total_witness :
  (let t := [Sleep 500; Called (Leaderboard.counterRequest "SP0" "props")]
            ++ [SetIsLoading false; SetIsLoading false] in
   Leaderboard.loadLeaderboardWith bare "SP0" "props" Sample.isPrincipal 10 tt = (inr tt, tt, t)
   /\ topUsersAfter t = [])
  /\
  (let t := [SetIsLoading true; SetHistoryItems []]
            ++ [Sleep 500; Called (History.counterRequest "SP0" "props" Sample.alice)]
            ++ [SetHistoryItems []; SetIsLoading false] in
   History.loadHistoryWith bare "SP0" "props" TabGiven Sample.alice 50 tt = (inr tt, tt, t)
   /\ historyItemsAfter t = []).
Proof.
  destruct (@no_scan_without_a_positive_total unit bare "SP0" "props" Sample.isPrincipal TabGiven Sample.alice
              10 tt NaN (or_introl eq_refl)) as [Hleaderboard _].
  destruct (@no_scan_without_a_positive_total unit bare "SP0" "props" Sample.isPrincipal TabGiven Sample.alice
              50 tt NaN (or_introl eq_refl)) as [_ Hhistory].
  split.
  - apply (Hleaderboard (Sample.uint 12)); reflexivity.
  - apply (Hhistory (Sample.uint 12)); [discriminate|reflexivity|reflexivity].
Defined.

(** X7.  When the scan of the leaderboard finds no participant (every
    lookup failed, or no record had both a giver and a receiver), the
    page makes no statistics lookup: the run ends normally after the
    scan, with an empty report. *)
Theorem no_participants_no_statistics (W : Type)
    (respond : request -> W -> (exn + json) * W)
    (CONTRACT_ADDRESS CONTRACT_NAME : string)
    (isPrincipal : string -> bool) (cap : Z) (w w1 w2 : W)
    (counterJSON : json) (totalProps : number) (t1 t2 : list event) :
  Leaderboard.robustFetch
    (fetchCallReadOnlyFunction respond
       (Leaderboard.counterRequest CONTRACT_ADDRESS CONTRACT_NAME)) 3 500 w
  = (inr (Some counterJSON), w1, t1) ->
  totalPropsOf counterJSON = inr totalProps ->
  Leaderboard.scanRecent respond CONTRACT_ADDRESS CONTRACT_NAME cap totalProps w1
  = (inr [], w2, t2) ->
  let t := t1 ++ t2 ++ [SetIsLoading false; SetIsLoading false] in
  Leaderboard.loadLeaderboardWith respond CONTRACT_ADDRESS CONTRACT_NAME isPrincipal cap w
  = (inr tt, w2, t)
  /\ topUsersAfter t = []
  /\ (forall req, In req (calls t) ->
                  functionName req <> "get-user-stats").
Proof.
  intros Hrun Hdecode Hscan t.
  destruct (@robustFetch_ran W respond true _ w _ w1 t1 Hrun) as (Hupd1 & Hcalls1 & _).
  destruct (scan_lookups respond CONTRACT_ADDRESS CONTRACT_NAME [] w1
                (window_nonneg cap totalProps))
    as (users' & w2' & t2' & Hscan' & Hupd2 & Hcalls2).
  rewrite <- scanRecent_window, Hscan in Hscan'. injection Hscan' as <- <- <-.
  split; [|split].
  - unfold Leaderboard.loadLeaderboardWith, try_finally, try_catch, bind.
    rewrite Hrun. run. rewrite Hdecode. run.
    destruct (numEq totalProps (Int 0)) eqn:Hzero.
    + destruct totalProps as [|T]; [discriminate|]. cbn [numEq] in Hzero.
      apply Z.eqb_eq in Hzero. subst T.
      rewrite scanRecent_window in Hscan. cbn [window] in Hscan.
      rewrite interval_empty in Hscan by lia. cbn [for_of] in Hscan.
      injection Hscan as <- <-. run. unfold t. cbn [app].
      rewrite <- ?app_assoc. reflexivity.
    + rewrite Hscan. cbn [List.length Nat.eqb]. run.
      unfold t. rewrite <- ?app_assoc. reflexivity.
  - unfold t. rewrite topUsersAfter_updates, !updates_app, Hupd1, Hupd2. reflexivity.
  - unfold t. intros req. rewrite !calls_app, app_nil_r, in_app_iff.
    intros [Hin|Hin].
    + rewrite (Hcalls1 req Hin). discriminate.
    + assert (Hprops : forall reqs cs,
                 lookups reqs cs -> forall r, In r cs -> In r reqs).
      { induction 1 as [|r0 n reqs cs Hn Hl IH]; intros r Hr; [exact Hr|].
        apply in_app_iff in Hr. destruct Hr as [Hr|Hr].
        - apply repeat_spec in Hr. left. congruence.
        - right. apply IH, Hr. }
      apply (Hprops _ _ Hcalls2) in Hin. apply in_map_iff in Hin.
      destruct Hin as (i & <- & _). discriminate.
Qed.

Lemma no_participants_no_statistics_witness :
  exists t1 t2,
    let t := t1 ++ t2 ++ [SetIsLoading false; SetIsLoading false] in
    Leaderboard.loadLeaderboardWith headless "SP0" "props" Sample.isPrincipal 10 tt = (inr tt, tt, t)
    /\ topUsersAfter t = []
    /\ (forall req, In req (calls t) -> functionName req <> "get-user-stats").
Proof.
  do 2 eexists.
  eapply (@no_participants_no_statistics unit headless "SP0" "props" Sample.isPrincipal 10 tt tt tt);
    reflexivity.
Defined.

(* ================================================================== *)
(** * What a report holds *)
(* ================================================================== *)

(** A loop whose steps push at most one element, each with a property
    [P]: what it pushes has [P] and is no longer than its input. *)
Section PushFacts.
Variable W : Type.
Variables X A : Type.
Variable step : X -> list A -> M W (list A).
Variable P : X -> A -> Prop.

Hypothesis step_pushes :
  forall (x : X) (items : list A) (w : W),
    exists pushed w' t,
      step x items w = (inr (items ++ pushed), w', t)
      /\ Forall (P x) pushed
      /\ (List.length pushed <= 1)%nat.

Lemma for_of_pushes (xs : list X) :
  forall (items : list A) (w : W),
    exists pushed w' t,
      for_of xs step items w = (inr (items ++ pushed), w', t)
      /\ Forall (fun a => exists x, In x xs /\ P x a) pushed
      /\ (List.length pushed <= List.length xs)%nat.
Proof.
  induction xs as [|x xs IH]; intros items w; cbn [for_of].
  - exists [], w, []. rewrite app_nil_r. repeat split; constructor.
  - destruct (step_pushes x items w) as (p1 & w1 & t1 & Hstep & HP1 & Hlen1).
    destruct (IH (items ++ p1) w1) as (p2 & w2 & t2 & Hrest & HP2 & Hlen2).
    exists (p1 ++ p2), w2, (t1 ++ t2). unfold bind.
    rewrite Hstep, Hrest, app_assoc. split; [reflexivity|]. split.
    + apply Forall_app. split.
      * eapply Forall_impl; [|exact HP1]. intros a Ha. exists x. split; [left|]; auto.
      * eapply Forall_impl; [|exact HP2].
        intros a (y & Hy & Ha). exists y. split; [right|]; auto.
    + rewrite length_app. cbn [List.length]. lia.
Qed.
End PushFacts.

Section SubjectFacts.
Variable W : Type.
Variable respond : request -> W -> (exn + json) * W.
Variables CONTRACT_ADDRESS CONTRACT_NAME : string.
Variable activeTab : TabType.
Variable userAddress : string.

Lemma itemOf_parties (n : number) (ty : ItemType) (g r propData : json)
    (item : HistoryItem) :
  History.itemOf n ty g r propData = inr item ->
  id item = n /\ type item = ty /\ from item = g /\ to item = r.
Proof.
  unfold History.itemOf, bindE.
  destruct (History.field propData "amount"); [discriminate|].
  destruct (History.field propData "message"); [discriminate|].
  destruct (History.field propData "timestamp"); [discriminate|].
  intros [= <-]. repeat split.
Qed.

(** One iteration of the scan pushes at most one row, and only a row
    of the subject with the index of the iteration. *)
Lemma history_scanProps_pushes (i : Z) (items : list HistoryItem) (w : W) :
  exists pushed w' t,
    History.scanProps respond CONTRACT_ADDRESS CONTRACT_NAME activeTab userAddress
      i items w
    = (inr (items ++ pushed), w', t)
    /\ Forall (fun x => id x = Int i /\ rowOfSubject activeTab userAddress x) pushed
    /\ (List.length pushed <= 1)%nat.
Proof.
  assert (Hnone : forall (w' : W) (t : list event),
             exists pushed w'' t',
               (@inr exn _ items, w', t) = (inr (items ++ pushed), w'', t')
               /\ Forall (fun x => id x = Int i
                                   /\ rowOfSubject activeTab userAddress x) pushed
               /\ (List.length pushed <= 1)%nat).
  { intros w' t. exists [], w', t. rewrite app_nil_r. repeat split; auto. }
  assert (Hone : forall (item : HistoryItem) (w' : W) (t : list event),
             id item = Int i /\ rowOfSubject activeTab userAddress item ->
             exists pushed w'' t',
               (@inr exn _ (items ++ [item]), w', t) = (inr (items ++ pushed), w'', t')
               /\ Forall (fun x => id x = Int i
                                   /\ rowOfSubject activeTab userAddress x) pushed
               /\ (List.length pushed <= 1)%nat).
  { intros item w' t Hitem. exists [item], w', t. repeat split; auto. }
  unfold History.scanProps, try_catch, bind.
  destruct (History.robustFetch _ 3 500 w) as [[r w1] t1].
  destruct r as [e|[propsJSON|]]; run; try apply Hnone.
  destruct (propDataOf propsJSON) as [e|propData]; run; try apply Hnone.
  destruct (truthy propData); run; try apply Hnone.
  destruct (History.field propData "giver") as [e|g]; run; try apply Hnone.
  destruct (History.field propData "receiver") as [e|rc]; run; try apply Hnone.
  destruct (History.isTab activeTab TabGiven && strictEq g (JStr userAddress))
    eqn:Hgiven.
  - destruct (History.itemOf (Int i) given g rc propData) as [e|item] eqn:Hitem;
      run; [apply Hnone|].
    apply Hone. apply itemOf_parties in Hitem.
    destruct Hitem as (Hid & Hty & Hfrom & Hto).
    apply andb_prop in Hgiven. destruct Hgiven as [Htab Hg].
    apply strictEq_eq in Hg. split; [exact Hid|].
    destruct activeTab; try discriminate. cbn [rowOfSubject]. split; congruence.
  - destruct (History.isTab activeTab TabAll
              && (strictEq g (JStr userAddress) || strictEq rc (JStr userAddress)))
      eqn:Hall; run; try apply Hnone.
    destruct (History.itemOf (Int i) _ g rc propData) as [e|item] eqn:Hitem;
      run; [apply Hnone|].
    apply Hone. apply itemOf_parties in Hitem.
    destruct Hitem as (Hid & Hty & Hfrom & Hto).
    apply andb_prop in Hall. destruct Hall as [Htab Hparty].
    split; [exact Hid|].
    destruct activeTab; try discriminate. cbn [rowOfSubject].
    destruct (strictEq rc (JStr userAddress)) eqn:Hrc.
    + left. apply strictEq_eq in Hrc. split; congruence.
    + right. rewrite orb_false_r in Hparty. apply strictEq_eq in Hparty.
      repeat split; try congruence.
      rewrite Hto. intros ->. cbn [strictEq] in Hrc.
      rewrite String.eqb_refl in Hrc. discriminate.
Qed.
End SubjectFacts.

Lemma newerThan_keys (items : list HistoryItem) :
  StronglySorted newerThan items -> NoDup (map id items).
Proof.
  induction 1 as [|x items Hs IH Hx]; cbn [map]; constructor; [|exact IH].
  intros Hin. apply in_map_iff in Hin. destruct Hin as (y & Hy & Hin).
  rewrite Forall_forall in Hx. destruct (Hx y Hin) as (i & j & Hi & Hj & Hlt).
  rewrite Hi, Hj in Hy. injection Hy as ->. lia.
Qed.

Lemma length_window (cap : Z) (totalProps : number) :
  0 <= cap -> Z.of_nat (List.length (window cap totalProps)) <= cap.
Proof.
  intros Hcap. destruct totalProps as [|T]; cbn [window]; [cbn; lia|].
  rewrite length_interval. lia.
Qed.

Section HistoryReport.
Variable W : Type.
Variable respond : request -> W -> (exn + json) * W.
Variables CONTRACT_ADDRESS CONTRACT_NAME : string.
Variable activeTab : TabType.
Variable userAddress : string.

(** What a scan returns. *)
Lemma history_scan_result (cap : Z) (totalProps : number) (w : W) :
  exists items w' t,
    History.scanRecent respond CONTRACT_ADDRESS CONTRACT_NAME activeTab userAddress
      cap totalProps w
    = (inr items, w', t)
    /\ updates t = []
    /\ Forall (rowOfSubject activeTab userAddress) items
    /\ (List.length items <= List.length (window cap totalProps))%nat
    /\ NoDup (map id items).
Proof.
  destruct (history_scan_lookups respond CONTRACT_ADDRESS CONTRACT_NAME
                activeTab userAddress [] w
                (Forall_rev (window_nonneg cap totalProps)))
    as (items & w' & t & Hrun & Hupd & _).
  destruct (for_of_pushes
              (History.scanProps respond CONTRACT_ADDRESS CONTRACT_NAME
                 activeTab userAddress)
              (fun i x => id x = Int i /\ rowOfSubject activeTab userAddress x)
              (history_scanProps_pushes respond CONTRACT_ADDRESS CONTRACT_NAME
                 activeTab userAddress)
              (rev (window cap totalProps)) [] w)
    as (pushed & w1 & t1 & Hrun1 & Hrows & Hlen).
  assert (Hdesc : StronglySorted Z.gt (rev (window cap totalProps))).
  { destruct totalProps as [|T]; cbn [window rev];
      [constructor|apply interval_descending]. }
  destruct (@history_scan_descending W respond CONTRACT_ADDRESS CONTRACT_NAME
              activeTab userAddress (rev (window cap totalProps)) Hdesc [] w)
    as (sorted & w2 & t2 & Hrun2 & Hsorted & _).
  cbn [app] in Hrun1, Hrun2. rewrite Hrun in Hrun1, Hrun2.
  injection Hrun1 as <- _ _. injection Hrun2 as <- _ _.
  exists items, w', t. rewrite history_scanRecent_window.
  split; [exact Hrun|]. split; [exact Hupd|]. split; [|split].
  - eapply Forall_impl; [|exact Hrows]. intros x (i & _ & _ & Hx). exact Hx.
  - rewrite length_rev in Hlen. exact Hlen.
  - apply newerThan_keys, Hsorted.
Qed.

(** The list a run of the "given" or "all" tab leaves on the page is
    empty or the result of a scan. *)
Lemma loadHistory_scan_report (cap : Z) (w : W) :
  activeTab <> TabReceived ->
  historyItemsAfter
    (snd (History.loadHistoryWith respond CONTRACT_ADDRESS CONTRACT_NAME
            activeTab userAddress cap w))
  = []
  \/ exists totalProps w1 w2 t,
       History.scanRecent respond CONTRACT_ADDRESS CONTRACT_NAME activeTab userAddress
         cap totalProps w1
       = (inr (historyItemsAfter
                 (snd (History.loadHistoryWith respond CONTRACT_ADDRESS CONTRACT_NAME
                         activeTab userAddress cap w))),
          w2, t).
Proof.
  intros Htab.
  assert (Hnot : History.isTab activeTab TabReceived = false)
    by (destruct activeTab; try reflexivity; congruence).
  unfold History.loadHistoryWith, History.fetchItems, try_finally, try_catch, bind. run. rewrite Hnot.
  destruct (History.robustFetch
              (fetchCallReadOnlyFunction respond
                 (History.counterRequest CONTRACT_ADDRESS CONTRACT_NAME userAddress))
              3 500 w) as [[r w1] t1] eqn:Hrun.
  destruct (@robustFetch_ran W respond false _ w _ w1 t1 Hrun) as (Hupd & _ & _).
  assert (Hfailed : forall e,
             historyItemsAfter
               (SetIsLoading true :: SetHistoryItems []
                  :: (t1 ++ [ConsoleError "Error loading history:" e])
                  ++ [SetIsLoading false]) = []).
  { intros e. rewrite historyItemsAfter_updates. cbn [updates filter isUpdate].
    fold (updates ((t1 ++ [ConsoleError "Error loading history:" e])
                     ++ [SetIsLoading false])).
    rewrite !updates_app, Hupd. reflexivity. }
  destruct r as [e|[counterJSON|]]; run; cbn [snd].
  1:{ left. apply Hfailed. }
  2:{ left. apply Hfailed. }
  destruct (totalPropsOf counterJSON) as [e|totalProps]; run; cbn [snd].
  1:{ left. apply Hfailed. }
  destruct (history_scan_result cap totalProps w1)
    as (items & w2 & t2 & Hscan & Hupd2 & _).
  rewrite Hscan. run. cbn [snd]. right. exists totalProps, w1, w2, t2.
  rewrite Hscan. do 2 f_equal.
  rewrite historyItemsAfter_updates. cbn [updates filter isUpdate].
  fold (updates (((t1 ++ t2) ++ [SetHistoryItems items]) ++ [SetIsLoading false])).
  rewrite !updates_app, Hupd, Hupd2. reflexivity.
Qed.
End HistoryReport.

(** X8.  Every row the "given" tab shows is a record the subject gave,
    tagged "given"; every row the "all" tab shows is a record the
    subject gave or received, tagged "received" exactly when the
    subject is its receiver.  This holds of the list a run leaves on
    the page, whatever the endpoint answers. *)
Theorem history_rows_are_of_the_subject (W : Type)
    (respond : request -> W -> (exn + json) * W)
    (CONTRACT_ADDRESS CONTRACT_NAME : string)
    (activeTab : TabType) (userAddress : string) (cap : Z) (w : W) :
  activeTab <> TabReceived ->
  Forall (rowOfSubject activeTab userAddress)
    (historyItemsAfter
       (snd (History.loadHistoryWith respond CONTRACT_ADDRESS CONTRACT_NAME
               activeTab userAddress cap w))).
Proof.
  intros Htab.
  destruct (@loadHistory_scan_report W respond CONTRACT_ADDRESS CONTRACT_NAME
              activeTab userAddress cap w Htab)
    as [->|(totalProps & w1 & w2 & t & Hscan)]; [constructor|].
  destruct (@history_scan_result W respond CONTRACT_ADDRESS CONTRACT_NAME
              activeTab userAddress cap totalProps w1)
    as (items & w' & t' & Hscan' & _ & Hrows & _).
  rewrite Hscan in Hscan'. injection Hscan' as -> _ _. exact Hrows.
Qed.

Lemma history_rows_are_of_the_subject_witness :
  Forall (rowOfSubject TabAll Sample.alice)
    (historyItemsAfter
       (snd (History.loadHistoryWith Sample.respond "SP0" "props" TabAll Sample.alice 50
               (Sample.online Sample.twelve)))).
Proof.
  apply history_rows_are_of_the_subject. discriminate.
Defined.

(** X9.  The "given" and "all" tabs show at most as many rows as the
    window is wide (50 on the page), and no two rows have the same
    index, so the keys of the timeline are distinct. *)
Theorem history_rows_are_bounded (W : Type)
    (respond : request -> W -> (exn + json) * W)
    (CONTRACT_ADDRESS CONTRACT_NAME : string)
    (activeTab : TabType) (userAddress : string) (cap : Z) (w : W) :
  activeTab <> TabReceived ->
  0 <= cap ->
  let items :=
    historyItemsAfter
      (snd (History.loadHistoryWith respond CONTRACT_ADDRESS CONTRACT_NAME
              activeTab userAddress cap w)) in
  Z.of_nat (List.length items) <= cap
  /\ NoDup (map HistoryView.entry_key (map HistoryView.entry items)).
Proof.
  intros Htab Hcap items. unfold items. rewrite map_map. cbn [HistoryView.entry_key HistoryView.entry].
  destruct (@loadHistory_scan_report W respond CONTRACT_ADDRESS CONTRACT_NAME
              activeTab userAddress cap w Htab)
    as [->|(totalProps & w1 & w2 & t & Hscan)].
  - split; [cbn; lia|constructor].
  - destruct (@history_scan_result W respond CONTRACT_ADDRESS CONTRACT_NAME
                activeTab userAddress cap totalProps w1)
      as (found & w' & t' & Hscan' & _ & _ & Hlen & Hkeys).
    rewrite Hscan in Hscan'. injection Hscan' as -> _ _.
    split; [|exact Hkeys].
    pose proof (length_window totalProps Hcap). lia.
Qed.

Lemma history_rows_are_bounded_witness :
  let items :=
    historyItemsAfter
      (snd (History.loadHistoryWith Sample.respond "SP0" "props" TabAll Sample.alice 50
              (Sample.online Sample.twelve))) in
  Z.of_nat (List.length items) <= 50
  /\ NoDup (map HistoryView.entry_key (map HistoryView.entry items)).
Proof.
  apply history_rows_are_bounded; [discriminate|lia].
Defined.

(** ** The run of the leaderboard, phase by phase *)

Lemma subseq_length (A : Type) (l1 l2 : list A) :
  subseq l1 l2 -> (List.length l1 <= List.length l2)%nat.
Proof. induction 1; cbn [List.length]; lia. Qed.

Lemma subseq_In (A : Type) (l1 l2 : list A) (x : A) :
  subseq l1 l2 -> In x l1 -> In x l2.
Proof.
  induction 1 as [|y l1 l2 H IH|y l1 l2 H IH]; cbn [In]; intuition.
Qed.

Lemma subseq_refl (A : Type) (l : list A) : subseq l l.
Proof. induction l; constructor; assumption. Qed.

Lemma distinct_subseq (l1 l2 : list json) :
  subseq l1 l2 -> distinct l2 -> distinct l1.
Proof.
  unfold distinct. induction 1 as [|x l1 l2 H IH|x l1 l2 H IH]; intros Hd.
  - constructor.
  - inversion Hd as [|? ? Hx Hrest]; subst. constructor; [|apply IH, Hrest].
    apply Forall_forall. intros y Hy. rewrite Forall_forall in Hx.
    apply Hx. eapply subseq_In; eassumption.
  - inversion Hd; subst. auto.
Qed.

Lemma distinct_perm (l1 l2 : list json) :
  Permutation l1 l2 -> distinct l1 -> distinct l2.
Proof.
  unfold distinct. induction 1 as [|x l1 l2 H IH|x y l|l1 l2 l3 H1 IH1 H2 IH2];
    intros Hd.
  - constructor.
  - inversion Hd as [|? ? Hx Hrest]; subst. constructor; [|apply IH, Hrest].
    rewrite <- H. exact Hx.
  - inversion Hd as [|? ? Hy Hrest]; subst.
    inversion Hrest as [|? ? Hx Hl]; subst.
    inversion Hy as [|? ? Hyx Hyl]; subst.
    constructor; [|constructor; assumption].
    constructor; [|exact Hx]. rewrite strictEq_sym. exact Hyx.
  - auto.
Qed.

Lemma length_Set_add (x : json) (s : list json) :
  (List.length (Leaderboard.Set_add x s) <= S (List.length s))%nat.
Proof.
  unfold Leaderboard.Set_add. destruct (existsb (strictEq x) s); [lia|].
  rewrite length_app. cbn. lia.
Qed.

Lemma length_addAll (xs s : list json) :
  (List.length (addAll xs s) <= List.length xs + List.length s)%nat.
Proof.
  revert s. induction xs as [|x xs IH]; intros s; cbn [addAll fold_left List.length];
    [lia|].
  fold (addAll xs (Leaderboard.Set_add x s)).
  pose proof (IH (Leaderboard.Set_add x s)). pose proof (length_Set_add x s). lia.
Qed.

Lemma length_participantsOf (r : exn + option json) :
  (List.length (participantsOf r) <= 2)%nat.
Proof.
  unfold participantsOf. destruct r as [e|[propsJSON|]]; cbn; try lia.
  destruct (propDataOf propsJSON) as [e|propData]; cbn; try lia.
  destruct (truthy propData && truthy (prop propData "giver")
            && truthy (prop propData "receiver")); cbn; lia.
Qed.

Section Phases.
Variable W : Type.
Variable respond : request -> W -> (exn + json) * W.
Variables CONTRACT_ADDRESS CONTRACT_NAME : string.
Variable isPrincipal : string -> bool.

Let propsRequest := Leaderboard.propsRequest CONTRACT_ADDRESS CONTRACT_NAME.
Let statsRequest := Leaderboard.statsRequest CONTRACT_ADDRESS CONTRACT_NAME.
Let counterRequest := Leaderboard.counterRequest CONTRACT_ADDRESS CONTRACT_NAME.

Lemma length_extracted (indices : list Z) :
  forall w : W,
    (List.length (extracted respond CONTRACT_ADDRESS CONTRACT_NAME indices w)
     <= 2 * List.length indices)%nat.
Proof.
  induction indices as [|i indices IH]; intros w; cbn [extracted List.length]; [lia|].
  destruct (Leaderboard.robustFetch _ 3 500 w) as [[r w1] t1].
  rewrite length_app. pose proof (length_participantsOf r). pose proof (IH w1). lia.
Qed.

(** What the scan of a window returns. *)
Lemma leaderboard_scan_result (cap : Z) (totalProps : number) (w : W) :
  exists users w' t,
    Leaderboard.scanRecent respond CONTRACT_ADDRESS CONTRACT_NAME cap totalProps w
    = (inr users, w', t)
    /\ updates t = []
    /\ lookups (map propsRequest (window cap totalProps)) (calls t)
    /\ distinct users
    /\ (List.length users <= 2 * List.length (window cap totalProps))%nat.
Proof.
  destruct (scan_lookups respond CONTRACT_ADDRESS CONTRACT_NAME [] w
              (window_nonneg cap totalProps))
    as (users & w' & t & Hrun & Hupd & Hcalls).
  destruct (scan_collects respond CONTRACT_ADDRESS CONTRACT_NAME
              (window cap totalProps) [] w) as (w1 & t1 & Hcollect).
  rewrite Hrun in Hcollect. injection Hcollect as -> _ _.
  do 3 eexists. rewrite scanRecent_window. split; [exact Hrun|].
  split; [exact Hupd|].
  split; [exact Hcalls|]. split.
  - apply addAll_distinct. constructor.
  - pose proof (length_addAll
                  (extracted respond CONTRACT_ADDRESS CONTRACT_NAME
                     (window cap totalProps) w) []).
    pose proof (length_extracted (window cap totalProps) w).
    cbn [List.length] in *. lia.
Qed.

(** What the statistics loop returns: records of some of the
    participants that [principalCV] accepts, in their order; the
    others are not looked up. *)
Lemma leaderboard_stats_result (users : list json) :
  forall (acc : list UserStats) (w : W),
    exists stats w' t,
      for_of users (Leaderboard.fetchStats respond CONTRACT_ADDRESS CONTRACT_NAME isPrincipal)
        acc w
      = (inr (acc ++ stats), w', t)
      /\ updates t = []
      /\ lookups (map statsRequest (filter (accepted isPrincipal) users)) (calls t)
      /\ subseq (map stats_address stats) (filter (accepted isPrincipal) users)
      /\ subseq (map stats_address stats) users.
Proof.
  induction users as [|a users IH]; intros acc w; cbn [for_of map filter].
  - exists [], w, []. rewrite app_nil_r. repeat split; constructor.
  - destruct (robustFetch_lookup respond true (principalCV isPrincipal a)
                (Leaderboard.statsCall CONTRACT_ADDRESS CONTRACT_NAME a) w)
      as (r & w1 & t1 & Hrun & Hupd & Hcalls & _).
    destruct (fetchStats_outcome respond CONTRACT_ADDRESS CONTRACT_NAME isPrincipal
                a acc w Hrun)
      as (tlog & pushed & Hlog & Haddr & Hlen & Hstep).
    pose proof (@fetchStats_accepted W respond CONTRACT_ADDRESS CONTRACT_NAME
                  isPrincipal a acc pushed w w1 (t1 ++ tlog) Hstep) as Haccepted.
    rewrite requests_accepted in Hcalls.
    destruct (IH (acc ++ pushed) w1)
      as (stats & w' & t & Hrest & Hupd' & Hcalls' & Hsub & Hsub').
    exists (pushed ++ stats), w', ((t1 ++ tlog) ++ t). unfold bind.
    rewrite Hstep, Hrest, app_assoc. split; [reflexivity|]. split; [|split; [|split]].
    + rewrite !updates_app, Hupd, Hupd', (consoleOnly_updates Hlog). reflexivity.
    + rewrite !calls_app, (consoleOnly_calls Hlog), app_nil_r.
      destruct (accepted isPrincipal a); cbn [map].
      * change (statsRequest a :: map statsRequest (filter (accepted isPrincipal) users))
          with ([statsRequest a]
                  ++ map statsRequest (filter (accepted isPrincipal) users)).
        apply lookups_app; assumption.
      * inversion Hcalls; subst. exact Hcalls'.
    + destruct pushed as [|x [|y pushed]]; cbn [app map]; [| |cbn in Hlen; lia].
      * destruct (accepted isPrincipal a); [apply subseq_drop|]; exact Hsub.
      * rewrite Haccepted by discriminate.
        inversion Haddr as [|? ? Hx _]; subst. apply subseq_keep. exact Hsub.
    + destruct pushed as [|x [|y pushed]]; cbn [app map];
        [apply subseq_drop; exact Hsub'| |cbn in Hlen; lia].
      inversion Haddr as [|? ? Hx _]; subst. apply subseq_keep. exact Hsub'.
Qed.

(** A whole run: the count lookup, then the scan of a window (or of
    nothing), then the statistics of the participants found. *)
Lemma loadLeaderboard_phases (cap : Z) (w : W) :
  exists (n : nat) (indices : list Z) (users : list json)
         (stats : list UserStats) (cs2 cs3 : list request),
    calls (snd (Leaderboard.loadLeaderboardWith respond CONTRACT_ADDRESS
                  CONTRACT_NAME isPrincipal cap w))
    = repeat counterRequest n ++ cs2 ++ cs3
    /\ (1 <= n <= 3)%nat
    /\ lookups (map propsRequest indices) cs2
    /\ lookups (map statsRequest (filter (accepted isPrincipal) users)) cs3
    /\ (indices = [] \/ exists totalProps, indices = window cap totalProps)
    /\ distinct users
    /\ (List.length users <= 2 * List.length indices)%nat
    /\ subseq (map stats_address stats) (filter (accepted isPrincipal) users)
    /\ subseq (map stats_address stats) users
    /\ topUsersAfter
         (snd (Leaderboard.loadLeaderboardWith respond CONTRACT_ADDRESS
                 CONTRACT_NAME isPrincipal cap w))
       = Leaderboard.rankUsers stats.
Proof.
  destruct (robustFetch_default respond true counterRequest w)
    as (r & w1 & t1 & n & Hrun & Hn & Hcalls1 & Hupd1 & _).
  assert (Hstop : forall w' tail,
             calls tail = [] ->
             updates tail = [SetIsLoading false]
             \/ updates tail = [SetIsLoading false; SetIsLoading false] ->
             Leaderboard.loadLeaderboardWith respond CONTRACT_ADDRESS
               CONTRACT_NAME isPrincipal cap w = (inr tt, w', t1 ++ tail) ->
             exists (n : nat) (indices : list Z) (users : list json)
                    (stats : list UserStats) (cs2 cs3 : list request),
               calls (snd (Leaderboard.loadLeaderboardWith respond CONTRACT_ADDRESS
                             CONTRACT_NAME isPrincipal cap w))
               = repeat counterRequest n ++ cs2 ++ cs3
               /\ (1 <= n <= 3)%nat
               /\ lookups (map propsRequest indices) cs2
               /\ lookups (map statsRequest (filter (accepted isPrincipal) users)) cs3
               /\ (indices = [] \/ exists totalProps, indices = window cap totalProps)
               /\ distinct users
               /\ (List.length users <= 2 * List.length indices)%nat
               /\ subseq (map stats_address stats)
                    (filter (accepted isPrincipal) users)
               /\ subseq (map stats_address stats) users
               /\ topUsersAfter
                    (snd (Leaderboard.loadLeaderboardWith respond CONTRACT_ADDRESS
                            CONTRACT_NAME isPrincipal cap w))
                  = Leaderboard.rankUsers stats).
  { intros w' tail Hcalls Hupd Hload. exists n, [], [], [], [], [].
    rewrite Hload. cbn [snd]. rewrite calls_app, Hcalls1, Hcalls, !app_nil_r.
    splits;
      [reflexivity|lia|lia|constructor|constructor|left; reflexivity
      |constructor|cbn; lia|constructor|constructor|].
    rewrite topUsersAfter_updates, updates_app, Hupd1.
    destruct Hupd as [->| ->]; reflexivity. }
  unfold counterRequest in *.
  pose proof Hrun as Hrun'. unfold robustFetchWith in Hrun'.
  destruct r as [e|[counterJSON|]].
  - apply (Hstop w1 [ConsoleError "Error loading leaderboard:" e; SetIsLoading false]);
      [reflexivity|left; reflexivity|].
    unfold Leaderboard.loadLeaderboardWith, try_finally, try_catch, bind.
    unfold Leaderboard.robustFetch. rewrite Hrun. run.
    rewrite <- ?app_assoc. reflexivity.
  - destruct (totalPropsOf counterJSON) as [e|totalProps] eqn:Htotal.
    + apply (Hstop w1 [ConsoleError "Error loading leaderboard:" e; SetIsLoading false]);
        [reflexivity|left; reflexivity|].
      unfold Leaderboard.loadLeaderboardWith, try_finally, try_catch, bind.
      unfold Leaderboard.robustFetch. rewrite Hrun. run. rewrite Htotal. run.
      rewrite <- ?app_assoc. reflexivity.
    + destruct (numEq totalProps (Int 0)) eqn:Hzero.
      * apply (Hstop w1 [SetIsLoading false; SetIsLoading false]);
          [reflexivity|right; reflexivity|].
        unfold Leaderboard.loadLeaderboardWith, try_finally, try_catch, bind.
        unfold Leaderboard.robustFetch. rewrite Hrun. run. rewrite Htotal. run.
        rewrite Hzero. run. rewrite <- ?app_assoc. reflexivity.
      * destruct (leaderboard_scan_result cap totalProps w1)
          as (users & w2 & t2 & Hscan & Hupd2 & Hcalls2 & Hdistinct & Hlen).
        destruct (leaderboard_stats_result users [] w2)
          as (stats & w3 & t3 & Hstats & Hupd3 & Hcalls3 & Hsub & Hsub').
        cbn [app] in Hstats.
        destruct users as [|u users].
        -- exists n, (window cap totalProps), [], [], (calls t2), [].
           assert (Hload :
                     Leaderboard.loadLeaderboardWith respond CONTRACT_ADDRESS
                       CONTRACT_NAME isPrincipal cap w
                     = (inr tt, w2,
                        t1 ++ t2 ++ [SetIsLoading false; SetIsLoading false])).
           { unfold Leaderboard.loadLeaderboardWith, try_finally, try_catch, bind.
             unfold Leaderboard.robustFetch. rewrite Hrun. run. rewrite Htotal. run.
             rewrite Hzero, Hscan. cbn [List.length Nat.eqb]. run.
             rewrite <- ?app_assoc. reflexivity. }
           rewrite Hload. cbn [snd].
           rewrite !calls_app, Hcalls1, !app_nil_r.
           splits;
             [reflexivity|lia|lia|exact Hcalls2|constructor|right; eauto
             |constructor|cbn; lia|constructor|constructor|].
           rewrite topUsersAfter_updates, !updates_app, Hupd1, Hupd2. reflexivity.
        -- exists n, (window cap totalProps), (u :: users), stats,
             (calls t2), (calls t3).
           assert (Hload :
                     Leaderboard.loadLeaderboardWith respond CONTRACT_ADDRESS
                       CONTRACT_NAME isPrincipal cap w
                     = (inr tt, w3,
                        t1 ++ t2 ++ t3
                          ++ [SetTopUsers (Leaderboard.rankUsers stats);
                              SetIsLoading false])).
           { unfold Leaderboard.loadLeaderboardWith, try_finally, try_catch, bind.
             unfold Leaderboard.robustFetch. rewrite Hrun. run. rewrite Htotal. run.
             rewrite Hzero, Hscan. cbn [List.length Nat.eqb]. rewrite Hstats. run.
             rewrite <- ?app_assoc. reflexivity. }
           rewrite Hload. cbn [snd].
           rewrite !calls_app, Hcalls1, !app_nil_r.
           splits;
             [reflexivity|lia|lia|exact Hcalls2|exact Hcalls3|right; eauto
             |exact Hdistinct|exact Hlen|exact Hsub|exact Hsub'|].
           rewrite topUsersAfter_updates, !updates_app, Hupd1, Hupd2, Hupd3.
           reflexivity.
  - apply (Hstop w1 [ConsoleError "Error loading leaderboard:" TypeError;
                     SetIsLoading false]);
      [reflexivity|left; reflexivity|].
    unfold Leaderboard.loadLeaderboardWith, try_finally, try_catch, bind.
    unfold Leaderboard.robustFetch. rewrite Hrun. run.
    rewrite <- ?app_assoc. reflexivity.
Qed.
End Phases.

Lemma lookups_budget (reqs cs : list request) :
  lookups reqs cs -> (List.length cs <= 3 * List.length reqs)%nat.
Proof.
  induction 1 as [|req n reqs cs Hn H IH]; [cbn; lia|].
  cbn [List.length]. rewrite length_app, repeat_length. lia.
Qed.

(** X10.  The remote calls of a run of the leaderboard whose count,
    if the endpoint answers one, is in the safe range, are in this
    order, whatever else the endpoint answers: the attempts of the
    count lookup; one lookup per index of a window of at most [cap]
    indices, or none; one lookup per participant found that
    [principalCV] accepts, and no call for the others, the
    participants being at most two per index and none twice.  Such a
    run makes at most [3 + 9 * cap] calls, 93 on the page. *)
Theorem leaderboard_conversation (W : Type)
    (respond : request -> W -> (exn + json) * W)
    (CONTRACT_ADDRESS CONTRACT_NAME : string)
    (isPrincipal : string -> bool) (cap : Z) (w : W) :
  0 <= cap ->
  safeCount respond true (Leaderboard.counterRequest CONTRACT_ADDRESS CONTRACT_NAME) w ->
  let cs :=
    calls (snd (Leaderboard.loadLeaderboardWith respond CONTRACT_ADDRESS
                  CONTRACT_NAME isPrincipal cap w)) in
  (exists (n : nat) (indices : list Z) (users : list json) (cs2 cs3 : list request),
      cs = repeat (Leaderboard.counterRequest CONTRACT_ADDRESS CONTRACT_NAME) n
           ++ cs2 ++ cs3
      /\ (1 <= n <= 3)%nat
      /\ lookups
           (map (Leaderboard.propsRequest CONTRACT_ADDRESS CONTRACT_NAME) indices) cs2
      /\ lookups
           (map (Leaderboard.statsRequest CONTRACT_ADDRESS CONTRACT_NAME)
              (filter (accepted isPrincipal) users)) cs3
      /\ Z.of_nat (List.length indices) <= cap
      /\ (List.length users <= 2 * List.length indices)%nat
      /\ distinct users)
  /\ Z.of_nat (List.length cs) <= 3 + 9 * cap.
Proof.
  intros Hcap _ cs.
  destruct (loadLeaderboard_phases respond CONTRACT_ADDRESS CONTRACT_NAME
              isPrincipal cap w)
    as (n & indices & users & stats & cs2 & cs3
        & Hcs & Hn & Hl2 & Hl3 & Hindices & Hdistinct & Hlen & _).
  assert (Hwidth : Z.of_nat (List.length indices) <= cap).
  { destruct Hindices as [->|(totalProps & ->)]; [cbn; lia|].
    apply length_window. exact Hcap. }
  split.
  - exists n, indices, users, cs2, cs3. splits; try assumption; lia.
  - unfold cs. rewrite Hcs, !length_app, repeat_length.
    pose proof (lookups_budget Hl2) as H2. pose proof (lookups_budget Hl3) as H3.
    rewrite length_map in H2, H3.
    pose proof (filter_length_le (accepted isPrincipal) users). lia.
Qed.

Lemma leaderboard_conversation_witness :
  let cs :=
    calls (snd (Leaderboard.loadLeaderboardWith Sample.respond "SP0" "props" Sample.isPrincipal 10
                  (Sample.flaky Sample.twelve [0; 5; 6]%nat))) in
  (exists (n : nat) (indices : list Z) (users : list json) (cs2 cs3 : list request),
      cs = repeat (Leaderboard.counterRequest "SP0" "props") n ++ cs2 ++ cs3
      /\ (1 <= n <= 3)%nat
      /\ lookups (map (Leaderboard.propsRequest "SP0" "props") indices) cs2
      /\ lookups
           (map (Leaderboard.statsRequest "SP0" "props")
              (filter (accepted Sample.isPrincipal) users)) cs3
      /\ Z.of_nat (List.length indices) <= 10
      /\ (List.length users <= 2 * List.length indices)%nat
      /\ distinct users)
  /\ Z.of_nat (List.length cs) <= 3 + 9 * 10.
Proof.
  apply leaderboard_conversation; [lia|].
  intros counterJSON w1 t1 totalProps Hrun Htotal.
  vm_compute in Hrun. injection Hrun as <- _ _.
  vm_compute in Htotal. injection Htotal as <-.
  vm_compute. split; discriminate.
Defined.

Lemma ranks_withRanks (sorted : list UserStats) :
  forall index : Z,
    map rank (Leaderboard.withRanks index sorted)
    = map (fun k => index + 1 + Z.of_nat k) (seq 0 (List.length sorted)).
Proof.
  induction sorted as [|u sorted IH]; intros index;
    cbn [Leaderboard.withRanks map List.length seq]; [reflexivity|].
  rewrite IH, <- seq_shift, map_map. f_equal; [cbn [rank]; lia|].
  apply map_ext. intros k. lia.
Qed.

Lemma addresses_withRanks (sorted : list UserStats) (index : Z) :
  map address (Leaderboard.withRanks index sorted) = map stats_address sorted.
Proof.
  rewrite <- (unranked_withRanks index sorted) at 2. rewrite map_map. reflexivity.
Qed.

Lemma length_withRanks (sorted : list UserStats) (index : Z) :
  List.length (Leaderboard.withRanks index sorted) = List.length sorted.
Proof.
  rewrite <- (length_map rank), ranks_withRanks, length_map, length_seq. reflexivity.
Qed.

(** X11.  The leaderboard a run leaves on the page, whatever the
    endpoint answers: it has at most [2 * cap] rows (20 on the page),
    no participant has two rows, and the ranks are 1, 2, 3, ... in
    order, so they are distinct keys. *)
Theorem leaderboard_report_is_sound (W : Type)
    (respond : request -> W -> (exn + json) * W)
    (CONTRACT_ADDRESS CONTRACT_NAME : string)
    (isPrincipal : string -> bool) (cap : Z) (w : W) :
  0 <= cap ->
  let rows :=
    topUsersAfter
      (snd (Leaderboard.loadLeaderboardWith respond CONTRACT_ADDRESS
              CONTRACT_NAME isPrincipal cap w)) in
  Z.of_nat (List.length rows) <= 2 * cap
  /\ distinct (map address rows)
  /\ map rank rows = map (fun k => 1 + Z.of_nat k) (seq 0 (List.length rows))
  /\ NoDup (map rank rows).
Proof.
  intros Hcap rows.
  destruct (loadLeaderboard_phases respond CONTRACT_ADDRESS CONTRACT_NAME
              isPrincipal cap w)
    as (n & indices & users & stats & cs2 & cs3
        & _ & _ & _ & _ & Hindices & Hdistinct & Hlen & _ & Hsub & Hrows).
  assert (Hwidth : Z.of_nat (List.length indices) <= cap).
  { destruct Hindices as [->|(totalProps & ->)]; [cbn; lia|].
    apply length_window. exact Hcap. }
  unfold rows. rewrite Hrows. unfold Leaderboard.rankUsers.
  assert (Hranks :
            map rank (Leaderboard.withRanks 0 (sort Leaderboard.byPropsReceived stats))
            = map (fun k => 1 + Z.of_nat k)
                (seq 0 (List.length
                          (Leaderboard.withRanks 0
                             (sort Leaderboard.byPropsReceived stats))))).
  { rewrite ranks_withRanks, length_withRanks. reflexivity. }
  splits.
  - rewrite length_withRanks.
    rewrite (Permutation_length (sort_perm Leaderboard.byPropsReceived stats)).
    pose proof (subseq_length Hsub) as Hs. rewrite length_map in Hs. lia.
  - rewrite addresses_withRanks.
    apply (@distinct_perm (map stats_address stats)).
    + apply Permutation_map, Permutation_sym, sort_perm.
    + apply (distinct_subseq Hsub Hdistinct).
  - exact Hranks.
  - rewrite Hranks. apply Finite.Injective_map_NoDup; [|apply seq_NoDup].
    intros x y. lia.
Qed.

Lemma leaderboard_report_is_sound_witness :
  let rows :=
    topUsersAfter
      (snd (Leaderboard.loadLeaderboardWith Sample.respond "SP0" "props" Sample.isPrincipal 10
              (Sample.online Sample.twelve))) in
  Z.of_nat (List.length rows) <= 2 * 10
  /\ distinct (map address rows)
  /\ map rank rows = map (fun k => 1 + Z.of_nat k) (seq 0 (List.length rows))
  /\ NoDup (map rank rows).
Proof.
  apply leaderboard_report_is_sound. lia.
Defined.

(** ** The run of the history page, phase by phase *)

Lemma length_receivedRequests (CONTRACT_ADDRESS CONTRACT_NAME userAddress : string)
    (recentIds : list json) :
  (List.length
     (flat_map (receivedRequests CONTRACT_ADDRESS CONTRACT_NAME userAddress) recentIds)
   <= List.length recentIds)%nat.
Proof.
  induction recentIds as [|x l IH]; cbn [flat_map List.length]; [lia|].
  rewrite length_app. unfold receivedRequests at 1.
  destruct (nullish x); cbn [List.length]; [lia|].
  destruct (uintCV (parseInt (prop x "value"))); cbn [requestsWith List.length]; lia.
Qed.

Lemma length_recentIds (ids recentIds : list json) :
  History.recentIdsOf (JArr ids) = inr recentIds ->
  (List.length recentIds <= 20)%nat.
Proof.
  cbn [History.recentIdsOf]. intros [= <-].
  rewrite length_rev. destruct (slice_last_suffix 20 ids) as (older & _ & ->). lia.
Qed.

Section HistoryPhases.
Variable W : Type.
Variable respond : request -> W -> (exn + json) * W.
Variables CONTRACT_ADDRESS CONTRACT_NAME : string.
Variable activeTab : TabType.
Variable userAddress : string.

Let propsRequest := History.propsRequest CONTRACT_ADDRESS CONTRACT_NAME userAddress.

(** The first call of a run. *)
Let firstRequest : request :=
  if History.isTab activeTab TabReceived
  then History.historyRequest CONTRACT_ADDRESS CONTRACT_NAME userAddress
  else History.counterRequest CONTRACT_ADDRESS CONTRACT_NAME userAddress.

(** One iteration of the "received" loop pushes at most one row. *)
Lemma fetchReceived_pushes (idWrapper : json) (items : list HistoryItem) (w : W) :
  exists pushed w' t,
    History.fetchReceived respond CONTRACT_ADDRESS CONTRACT_NAME userAddress
      idWrapper items w
    = (inr (items ++ pushed), w', t)
    /\ Forall (fun x => type x = received) pushed
    /\ (List.length pushed <= 1)%nat.
Proof.
  assert (Hnone : forall (w' : W) (t : list event),
             exists pushed w'' t',
               (@inr exn _ items, w', t) = (inr (items ++ pushed), w'', t')
               /\ Forall (fun x => type x = received) pushed
               /\ (List.length pushed <= 1)%nat).
  { intros w' t. exists [], w', t. rewrite app_nil_r. repeat split; auto. }
  unfold History.fetchReceived, try_catch, bind, get.
  destruct (nullish idWrapper); run; try apply Hnone.
  destruct (History.robustFetch _ 3 500 w) as [[r w1] t1].
  destruct r as [e|[propsJSON|]]; run; try apply Hnone.
  destruct (propDataOf propsJSON) as [e|propData]; run; try apply Hnone.
  destruct (truthy propData); run; try apply Hnone.
  destruct (History.field propData "giver") as [e|g]; run; try apply Hnone.
  destruct (History.field propData "receiver") as [e|rc]; run; try apply Hnone.
  destruct (History.itemOf _ received g rc propData) as [e|item] eqn:Hitem;
    run; try apply Hnone.
  exists [item], w1, t1. split; [reflexivity|]. split; [|cbn; lia].
  constructor; [|constructor]. apply (itemOf_fields _ _ _ _ _ Hitem).
Qed.

(** What the "received" loop returns. *)
Lemma received_result (recentIds : list json) (w : W) :
  exists items w' t,
    for_of recentIds
      (History.fetchReceived respond CONTRACT_ADDRESS CONTRACT_NAME userAddress) [] w
    = (inr items, w', t)
    /\ updates t = []
    /\ lookups
         (flat_map (receivedRequests CONTRACT_ADDRESS CONTRACT_NAME userAddress)
            recentIds)
         (calls t)
    /\ Forall (fun x => type x = received) items
    /\ (List.length items <= List.length recentIds)%nat.
Proof.
  destruct (@received_loop W respond CONTRACT_ADDRESS CONTRACT_NAME userAddress
              recentIds [] w)
    as (items & w' & t & Hloop & Hupd & Hcalls & Htype).
  destruct (for_of_pushes
              (History.fetchReceived respond CONTRACT_ADDRESS CONTRACT_NAME userAddress)
              (fun _ x => type x = received)
              fetchReceived_pushes recentIds [] w)
    as (pushed & w1 & t1 & Hrun & _ & Hlen).
  rewrite Hloop in Hrun. injection Hrun as <- _ _.
  exists items, w', t. auto.
Qed.

(** A whole run: the first lookup, then the per-index lookups of the
    tab, and the list that is left on the page. *)
Lemma loadHistory_phases (cap : Z) (w : W) :
  exists (n : nat) (reqs cs2 : list request),
    calls (snd (History.loadHistoryWith respond CONTRACT_ADDRESS CONTRACT_NAME
                  activeTab userAddress cap w))
    = repeat firstRequest n ++ cs2
    /\ (1 <= n <= 3)%nat
    /\ lookups reqs cs2
    /\ (if History.isTab activeTab TabReceived
        then
          (List.length reqs <= 20)%nat
          /\ (List.length
                (historyItemsAfter
                   (snd (History.loadHistoryWith respond CONTRACT_ADDRESS
                           CONTRACT_NAME activeTab userAddress cap w)))
              <= 20)%nat
          /\ Forall (fun x => type x = received)
               (historyItemsAfter
                  (snd (History.loadHistoryWith respond CONTRACT_ADDRESS
                          CONTRACT_NAME activeTab userAddress cap w)))
        else
          reqs = []
          \/ exists totalProps,
               reqs = map (fun i => propsRequest (Int i)) (rev (window cap totalProps))).
Proof.
  destruct (robustFetch_default respond false firstRequest w)
    as (r & w1 & t1 & n & Hrun & Hn & Hcalls1 & Hupd1 & _).
  assert (Hstop : forall (w' : W) (tail : list event),
             calls tail = [] ->
             updates tail = [SetIsLoading false]
             \/ updates tail = [SetHistoryItems []; SetIsLoading false] ->
             History.loadHistoryWith respond CONTRACT_ADDRESS CONTRACT_NAME
               activeTab userAddress cap w
             = (inr tt, w', SetIsLoading true :: SetHistoryItems [] :: t1 ++ tail) ->
             exists (n : nat) (reqs cs2 : list request),
               calls (snd (History.loadHistoryWith respond CONTRACT_ADDRESS
                             CONTRACT_NAME activeTab userAddress cap w))
               = repeat firstRequest n ++ cs2
               /\ (1 <= n <= 3)%nat
               /\ lookups reqs cs2
               /\ (if History.isTab activeTab TabReceived
                   then
                     (List.length reqs <= 20)%nat
                     /\ (List.length
                           (historyItemsAfter
                              (snd (History.loadHistoryWith respond CONTRACT_ADDRESS
                                      CONTRACT_NAME activeTab userAddress cap w)))
                         <= 20)%nat
                     /\ Forall (fun x => type x = received)
                          (historyItemsAfter
                             (snd (History.loadHistoryWith respond CONTRACT_ADDRESS
                                     CONTRACT_NAME activeTab userAddress cap w)))
                   else
                     reqs = []
                     \/ exists totalProps,
                          reqs = map (fun i => propsRequest (Int i))
                                   (rev (window cap totalProps)))).
  { intros w' tail Hcalls Hupd Hload. exists n, [], [].
    rewrite Hload. cbn [snd calls].
    assert (Hitems : historyItemsAfter
                       (SetIsLoading true :: SetHistoryItems [] :: t1 ++ tail) = []).
    { rewrite historyItemsAfter_updates. cbn [updates filter isUpdate].
      fold (updates (t1 ++ tail)). rewrite updates_app, Hupd1.
      destruct Hupd as [->| ->]; reflexivity. }
    rewrite calls_app, Hcalls1, Hcalls, !app_nil_r, Hitems.
    splits; [reflexivity|lia|lia|constructor|].
    destruct (History.isTab activeTab TabReceived);
      [splits; [cbn; lia|cbn; lia|constructor]|left; reflexivity]. }
  unfold firstRequest in *.
  destruct (History.isTab activeTab TabReceived) eqn:Htab.
  - (* the "received" tab *)
    assert (Hfail : forall e,
               History.loadHistoryWith respond CONTRACT_ADDRESS CONTRACT_NAME
                 activeTab userAddress cap w
               = (inr tt, w1,
                  SetIsLoading true :: SetHistoryItems []
                    :: t1 ++ [ConsoleError "Error loading history:" e;
                              SetIsLoading false]) ->
               exists (n : nat) (reqs cs2 : list request),
                 calls (snd (History.loadHistoryWith respond CONTRACT_ADDRESS
                               CONTRACT_NAME activeTab userAddress cap w))
                 = repeat (History.historyRequest CONTRACT_ADDRESS CONTRACT_NAME
                             userAddress) n ++ cs2
                 /\ (1 <= n <= 3)%nat
                 /\ lookups reqs cs2
                 /\ (List.length reqs <= 20)%nat
                 /\ (List.length
                       (historyItemsAfter
                          (snd (History.loadHistoryWith respond CONTRACT_ADDRESS
                                  CONTRACT_NAME activeTab userAddress cap w)))
                     <= 20)%nat
                 /\ Forall (fun x => type x = received)
                      (historyItemsAfter
                         (snd (History.loadHistoryWith respond CONTRACT_ADDRESS
                                 CONTRACT_NAME activeTab userAddress cap w)))).
    { intros e Hload. refine (Hstop w1 _ _ _ Hload); [reflexivity|left; reflexivity]. }
    destruct r as [e|[historyJSON|]].
    + apply (Hfail e).
      unfold History.loadHistoryWith, History.fetchItems, try_finally, try_catch, bind. run.
      rewrite Htab. unfold History.robustFetch. rewrite Hrun. run.
      rewrite <- ?app_assoc. reflexivity.
    + destruct (get historyJSON "value") as [e|v] eqn:Hget.
      { apply (Hfail e).
        unfold History.loadHistoryWith, History.fetchItems, try_finally, try_catch, bind. run.
        rewrite Htab. unfold History.robustFetch. rewrite Hrun. run.
        rewrite Hget. run. rewrite <- ?app_assoc. reflexivity. }
      destruct (History.recentIdsOf (or_else (getOpt v "value") (JArr [])))
        as [e|recentIds] eqn:Hids.
      { apply (Hfail e).
        unfold History.loadHistoryWith, History.fetchItems, try_finally, try_catch, bind. run.
        rewrite Htab. unfold History.robustFetch. rewrite Hrun. run.
        rewrite Hget. run. rewrite Hids. run. rewrite <- ?app_assoc. reflexivity. }
      assert (Hshort : (List.length recentIds <= 20)%nat).
      { destruct (or_else (getOpt v "value") (JArr [])); try discriminate.
        eapply length_recentIds. exact Hids. }
      destruct (received_result recentIds w1)
        as (items & w2 & t2 & Hloop & Hupd2 & Hcalls2 & Htype & Hlen).
      assert (Hload :
                History.loadHistoryWith respond CONTRACT_ADDRESS CONTRACT_NAME
                  activeTab userAddress cap w
                = (inr tt, w2,
                   SetIsLoading true :: SetHistoryItems []
                     :: t1 ++ t2 ++ [SetHistoryItems items; SetIsLoading false])).
      { unfold History.loadHistoryWith, History.fetchItems, try_finally, try_catch, bind. run.
        rewrite Htab. unfold History.robustFetch. rewrite Hrun. run.
        rewrite Hget. run. rewrite Hids. run. rewrite Hloop. run.
        rewrite <- ?app_assoc. reflexivity. }
      exists n,
        (flat_map (receivedRequests CONTRACT_ADDRESS CONTRACT_NAME userAddress)
           recentIds), (calls t2).
      rewrite Hload. cbn [snd calls].
      assert (Hitems : historyItemsAfter
                         (SetIsLoading true :: SetHistoryItems []
                            :: t1 ++ t2 ++ [SetHistoryItems items; SetIsLoading false])
                       = items).
      { rewrite historyItemsAfter_updates. cbn [updates filter isUpdate].
        fold (updates (t1 ++ t2 ++ [SetHistoryItems items; SetIsLoading false])).
        rewrite !updates_app, Hupd1, Hupd2. reflexivity. }
      rewrite !calls_app, Hcalls1, app_nil_r, Hitems.
      splits; [reflexivity|lia|lia|exact Hcalls2| |lia|exact Htype].
      pose proof (length_receivedRequests CONTRACT_ADDRESS CONTRACT_NAME
                    userAddress recentIds). lia.
    + apply (Hfail TypeError).
      unfold History.loadHistoryWith, History.fetchItems, try_finally, try_catch, bind. run.
      rewrite Htab. unfold History.robustFetch. rewrite Hrun. run.
      rewrite <- ?app_assoc. reflexivity.
  - (* the "given" and "all" tabs *)
    assert (Hfail : forall e,
               History.loadHistoryWith respond CONTRACT_ADDRESS CONTRACT_NAME
                 activeTab userAddress cap w
               = (inr tt, w1,
                  SetIsLoading true :: SetHistoryItems []
                    :: t1 ++ [ConsoleError "Error loading history:" e;
                              SetIsLoading false]) ->
               exists (n : nat) (reqs cs2 : list request),
                 calls (snd (History.loadHistoryWith respond CONTRACT_ADDRESS
                               CONTRACT_NAME activeTab userAddress cap w))
                 = repeat (History.counterRequest CONTRACT_ADDRESS CONTRACT_NAME
                             userAddress) n ++ cs2
                 /\ (1 <= n <= 3)%nat
                 /\ lookups reqs cs2
                 /\ (reqs = []
                     \/ exists totalProps,
                          reqs = map (fun i => propsRequest (Int i))
                                   (rev (window cap totalProps)))).
    { intros e Hload. refine (Hstop w1 _ _ _ Hload); [reflexivity|left; reflexivity]. }
    destruct r as [e|[counterJSON|]].
    + apply (Hfail e).
      unfold History.loadHistoryWith, History.fetchItems, try_finally, try_catch, bind. run.
      rewrite Htab. unfold History.robustFetch. rewrite Hrun. run.
      rewrite <- ?app_assoc. reflexivity.
    + destruct (totalPropsOf counterJSON) as [e|totalProps] eqn:Htotal.
      { apply (Hfail e).
        unfold History.loadHistoryWith, History.fetchItems, try_finally, try_catch, bind. run.
        rewrite Htab. unfold History.robustFetch. rewrite Hrun. run.
        rewrite Htotal. run. rewrite <- ?app_assoc. reflexivity. }
      destruct (history_scan_lookups respond CONTRACT_ADDRESS CONTRACT_NAME
                  activeTab userAddress [] w1
                  (Forall_rev (window_nonneg cap totalProps)))
        as (items & w2 & t2 & Hscan & Hupd2 & Hcalls2).
      rewrite <- history_scanRecent_window in Hscan.
      assert (Hload :
                History.loadHistoryWith respond CONTRACT_ADDRESS CONTRACT_NAME
                  activeTab userAddress cap w
                = (inr tt, w2,
                   SetIsLoading true :: SetHistoryItems []
                     :: t1 ++ t2 ++ [SetHistoryItems items; SetIsLoading false])).
      { unfold History.loadHistoryWith, History.fetchItems, try_finally, try_catch, bind. run.
        rewrite Htab. unfold History.robustFetch. rewrite Hrun. run.
        rewrite Htotal. run. rewrite Hscan. run.
        rewrite <- ?app_assoc. reflexivity. }
      exists n, (map (fun i => propsRequest (Int i)) (rev (window cap totalProps))),
        (calls t2).
      rewrite Hload. cbn [snd calls].
      rewrite !calls_app, Hcalls1, app_nil_r.
      splits; [reflexivity|lia|lia|exact Hcalls2|right; eauto].
    + apply (Hfail TypeError).
      unfold History.loadHistoryWith, History.fetchItems, try_finally, try_catch, bind. run.
      rewrite Htab. unfold History.robustFetch. rewrite Hrun. run.
      rewrite <- ?app_assoc. reflexivity.
Qed.
End HistoryPhases.

(** X12.  The "received" tab, whatever the endpoint answers: the calls
    of a run are the attempts of the history-list lookup followed by
    the lookups of at most 20 records, so at most 63 calls; the page is
    left with at most 20 rows, every one tagged "received". *)
Theorem received_tab_is_bounded (W : Type)
    (respond : request -> W -> (exn + json) * W)
    (CONTRACT_ADDRESS CONTRACT_NAME : string)
    (userAddress : string) (cap : Z) (w : W) :
  let run :=
    History.loadHistoryWith respond CONTRACT_ADDRESS CONTRACT_NAME
      TabReceived userAddress cap w in
  (exists (n : nat) (reqs cs2 : list request),
      calls (snd run)
      = repeat (History.historyRequest CONTRACT_ADDRESS CONTRACT_NAME userAddress) n
        ++ cs2
      /\ (1 <= n <= 3)%nat
      /\ lookups reqs cs2
      /\ (List.length reqs <= 20)%nat)
  /\ (List.length (calls (snd run)) <= 63)%nat
  /\ (List.length (historyItemsAfter (snd run)) <= 20)%nat
  /\ Forall (fun x => type x = received) (historyItemsAfter (snd run)).
Proof.
  intros run. unfold run.
  destruct (loadHistory_phases respond CONTRACT_ADDRESS CONTRACT_NAME
              TabReceived userAddress cap w)
    as (n & reqs & cs2 & Hcs & Hn & Hl & Htab).
  cbn [History.isTab] in Hcs, Htab. destruct Htab as (Hreqs & Hrows & Htype).
  splits; try assumption.
  - exists n, reqs, cs2. splits; assumption || lia.
  - rewrite Hcs, length_app, repeat_length.
    pose proof (lookups_budget Hl). lia.
Qed.

(** X13.  The "given" and "all" tabs, in a run whose count, if the
    endpoint answers one, is in the safe range, and whatever else the
    endpoint answers: the calls of the run are the attempts of the
    count lookup followed by the lookups of the indices of a window of
    at most [cap] indices, newest first, or by nothing.  Such a run
    makes at most [3 + 3 * cap] calls, 153 on the page. *)
Theorem history_scan_conversation (W : Type)
    (respond : request -> W -> (exn + json) * W)
    (CONTRACT_ADDRESS CONTRACT_NAME : string)
    (activeTab : TabType) (userAddress : string) (cap : Z) (w : W) :
  activeTab <> TabReceived ->
  0 <= cap ->
  safeCount respond false
    (History.counterRequest CONTRACT_ADDRESS CONTRACT_NAME userAddress) w ->
  let cs :=
    calls (snd (History.loadHistoryWith respond CONTRACT_ADDRESS CONTRACT_NAME
                  activeTab userAddress cap w)) in
  (exists (n : nat) (indices : list Z) (cs2 : list request),
      cs = repeat (History.counterRequest CONTRACT_ADDRESS CONTRACT_NAME userAddress) n
           ++ cs2
      /\ (1 <= n <= 3)%nat
      /\ lookups
           (map (fun i =>
                   History.propsRequest CONTRACT_ADDRESS CONTRACT_NAME userAddress
                     (Int i))
              indices)
           cs2
      /\ (indices = [] \/ exists totalProps, indices = rev (window cap totalProps))
      /\ Z.of_nat (List.length indices) <= cap)
  /\ Z.of_nat (List.length cs) <= 3 + 3 * cap.
Proof.
  intros Htab Hcap _ cs. unfold cs.
  assert (Hnot : History.isTab activeTab TabReceived = false)
    by (destruct activeTab; try reflexivity; congruence).
  destruct (loadHistory_phases respond CONTRACT_ADDRESS CONTRACT_NAME
              activeTab userAddress cap w)
    as (n & reqs & cs2 & Hcs & Hn & Hl & Hreqs).
  rewrite Hnot in Hcs, Hreqs.
  assert (Hshape : exists indices,
             reqs = map (fun i =>
                           History.propsRequest CONTRACT_ADDRESS CONTRACT_NAME
                             userAddress (Int i))
                      indices
             /\ (indices = [] \/ exists totalProps, indices = rev (window cap totalProps))
             /\ Z.of_nat (List.length indices) <= cap).
  { destruct Hreqs as [->|(totalProps & ->)].
    - exists []. splits; [reflexivity|left; reflexivity|cbn; lia].
    - exists (rev (window cap totalProps)).
      splits; [reflexivity|right; eauto|].
      rewrite length_rev. apply length_window. exact Hcap. }
  destruct Hshape as (indices & -> & Hindices & Hwidth).
  split.
  - exists n, indices, cs2. splits; assumption || lia.
  - rewrite Hcs, length_app, repeat_length.
    pose proof (lookups_budget Hl) as H2. rewrite length_map in H2. lia.
Qed.

Lemma history_scan_conversation_witness :
  let cs :=
    calls (snd (History.loadHistoryWith Sample.respond "SP0" "props" TabGiven Sample.alice 50
                  (Sample.flaky Sample.twelve [0; 5; 6]%nat))) in
  (exists (n : nat) (indices : list Z) (cs2 : list request),
      cs = repeat (History.counterRequest "SP0" "props" Sample.alice) n ++ cs2
      /\ (1 <= n <= 3)%nat
      /\ lookups
           (map (fun i => History.propsRequest "SP0" "props" Sample.alice (Int i)) indices) cs2
      /\ (indices = [] \/ exists totalProps, indices = rev (window 50 totalProps))
      /\ Z.of_nat (List.length indices) <= 50)
  /\ Z.of_nat (List.length cs) <= 3 + 3 * 50.
Proof.
  apply history_scan_conversation; [discriminate|lia|].
  intros counterJSON w1 t1 totalProps Hrun Htotal.
  vm_compute in Hrun. injection Hrun as <- _ _.
  vm_compute in Htotal. injection Htotal as <-.
  vm_compute. split; discriminate.
Defined.

(** X14.  The "received" tab reads the history list at
    [historyJSON.value?.value].  When what is there is no array, the
    run looks no record up and leaves the page without rows: silently
    if the value is missing or falsy (it is taken for an empty list),
    with "Error loading history:" and a [TypeError] if it is anything
    else, or if the decoded answer is [null]. *)
Theorem history_list_must_be_an_array (W : Type)
    (respond : request -> W -> (exn + json) * W)
    (CONTRACT_ADDRESS CONTRACT_NAME : string)
    (userAddress : string) (cap : Z) (w w1 : W)
    (historyJSON : json) (t1 : list event) :
  History.robustFetch
    (fetchCallReadOnlyFunction respond
       (History.historyRequest CONTRACT_ADDRESS CONTRACT_NAME userAddress))
    3 500 w
  = (inr (Some historyJSON), w1, t1) ->
  (forall ids, getOpt (prop historyJSON "value") "value" <> JArr ids) ->
  let t :=
    snd (History.loadHistoryWith respond CONTRACT_ADDRESS CONTRACT_NAME
           TabReceived userAddress cap w) in
  t = SetIsLoading true :: SetHistoryItems []
        :: t1
        ++ (if nullish historyJSON
               || truthy (getOpt (prop historyJSON "value") "value")
            then [ConsoleError "Error loading history:" TypeError]
            else [SetHistoryItems []])
        ++ [SetIsLoading false]
  /\ calls t = calls t1
  /\ historyItemsAfter t = [].
Proof.
  intros Hrun Hshape t.
  pose proof (@robustFetch_ran W respond false _ w _ w1 t1 Hrun) as (Hupd & _ & _).
  assert (Ht : t = SetIsLoading true :: SetHistoryItems []
                     :: t1
                     ++ (if nullish historyJSON
                            || truthy (getOpt (prop historyJSON "value") "value")
                         then [ConsoleError "Error loading history:" TypeError]
                         else [SetHistoryItems []])
                     ++ [SetIsLoading false]).
  { unfold t, History.loadHistoryWith, History.fetchItems, try_finally, try_catch, bind. run.
    cbn [History.isTab]. rewrite Hrun. run. unfold get.
    destruct (nullish historyJSON) eqn:Hnull; run; cbn [orb snd].
    { rewrite <- ?app_assoc. reflexivity. }
    unfold or_else.
    destruct (truthy (getOpt (prop historyJSON "value") "value")) eqn:Htruthy.
    - destruct (getOpt (prop historyJSON "value") "value") as [| | | |ids|] eqn:Hids;
        try discriminate; cbn [History.recentIdsOf]; run; cbn [snd];
        rewrite <- ?app_assoc; try reflexivity.
      exfalso. apply (Hshape ids). reflexivity.
    - cbn [History.recentIdsOf slice_last List.length Nat.sub skipn rev for_of]. run.
      cbn [snd]. rewrite <- ?app_assoc. reflexivity. }
  split; [exact Ht|]. rewrite Ht. split.
  - cbn [calls]. rewrite !calls_app.
    destruct (nullish historyJSON
              || truthy (getOpt (prop historyJSON "value") "value"));
      cbn [calls]; rewrite ?app_nil_r; reflexivity.
  - rewrite historyItemsAfter_updates. cbn [updates filter isUpdate].
    match goal with
    | |- context [filter isUpdate ?l] => fold (updates l)
    end.
    rewrite !updates_app, Hupd.
    destruct (nullish historyJSON
              || truthy (getOpt (prop historyJSON "value") "value")); reflexivity.
Qed.

Lemma history_list_must_be_an_array_witness :
  let historyJSON :=
    Sample.ok (Sample.some (Sample.tuple [("giver", Sample.principal Sample.alice)])) in
  let t1 := [Sleep 500; Called (History.historyRequest "SP0" "props" Sample.alice)] in
  let t :=
    snd (History.loadHistoryWith headless "SP0" "props" TabReceived Sample.alice 50 tt) in
  t = SetIsLoading true :: SetHistoryItems []
        :: t1
        ++ (if nullish historyJSON
               || truthy (getOpt (prop historyJSON "value") "value")
            then [ConsoleError "Error loading history:" TypeError]
            else [SetHistoryItems []])
        ++ [SetIsLoading false]
  /\ calls t = calls t1
  /\ historyItemsAfter t = [].
Proof.
  apply (@history_list_must_be_an_array unit headless "SP0" "props" Sample.alice 50 tt tt
           (Sample.ok (Sample.some (Sample.tuple [("giver", Sample.principal Sample.alice)])))
           [Sleep 500; Called (History.historyRequest "SP0" "props" Sample.alice)]).
  - reflexivity.
  - intros ids. discriminate.
Defined.

(** ** The tuple of a record, and what the pages show after a run *)

Lemma getOpt_prop (o : json) (k : string) : getOpt o k = prop o k.
Proof. destruct o; reflexivity. Qed.

(** X15.  The extraction [value?.value?.value || value?.value] finds
    the tuple of a record whether the decoded answer nests it two or
    three levels deep, provided the tuple has no truthy field named
    [value] of its own. *)
Theorem propDataOf_finds_the_tuple (propsJSON data : json) :
  truthy data = true ->
  truthy (prop data "value") = false ->
  prop (prop propsJSON "value") "value" = data
  \/ prop (prop (prop propsJSON "value") "value") "value" = data ->
  propDataOf propsJSON = inr data.
Proof.
  intros Hdata Hvalue Hdepth.
  assert (Hobj : nullish propsJSON = false).
  { destruct propsJSON; try reflexivity;
      destruct Hdepth as [<-| <-]; discriminate Hdata. }
  unfold propDataOf, get, bindE, or_else. rewrite Hobj, !getOpt_prop.
  destruct Hdepth as [H2|H3].
  - rewrite H2, Hvalue. reflexivity.
  - rewrite H3, Hdata. reflexivity.
Qed.

Lemma propDataOf_finds_the_tuple_witness :
  propDataOf (Sample.ok (Sample.some (Sample.encode (Sample.props Sample.alice Sample.bob))))
  = inr (prop (Sample.encode (Sample.props Sample.alice Sample.bob)) "value")
  /\ propDataOf (Sample.some (Sample.encode (Sample.props Sample.alice Sample.bob)))
     = inr (prop (Sample.encode (Sample.props Sample.alice Sample.bob)) "value").
Proof.
  split; apply propDataOf_finds_the_tuple;
    try reflexivity; [right|left]; reflexivity.
Defined.

Lemma isLoadingAfter_cleared (init : bool) (t : list event) :
  isLoadingAfter init (t ++ [SetIsLoading false]) = false.
Proof. unfold isLoadingAfter. rewrite fold_left_app. reflexivity. Qed.

(** The medals of the podium of a list ranked 1, 2, 3, ... *)
Lemma podium_medals (rows : list LeaderboardUser) :
  map rank rows = map (fun k => 1 + Z.of_nat k) (seq 0 (List.length rows)) ->
  map LeaderboardView.card_medal (map LeaderboardView.podiumCard (firstn 3 rows))
  = firstn (List.length rows)
      [LeaderboardView.Gold; LeaderboardView.Silver; LeaderboardView.Bronze].
Proof.
  intros Hranks. rewrite map_map. cbn [LeaderboardView.card_medal LeaderboardView.podiumCard].
  rewrite <- (map_map rank LeaderboardView.medalOf), <- firstn_map, Hranks.
  destruct (List.length rows) as [|[|[|n]]];
    cbn [seq map firstn]; rewrite ?firstn_nil; reflexivity.
Qed.

(** The keys of the board, podium first, are the ranks in order. *)
Lemma board_keys (rows : list LeaderboardUser) :
  map LeaderboardView.card_key (map LeaderboardView.podiumCard (firstn 3 rows))
  ++ map LeaderboardView.item_key (map LeaderboardView.listItem (skipn 3 rows))
  = map rank rows.
Proof.
  rewrite !map_map. cbn [LeaderboardView.card_key LeaderboardView.podiumCard
                           LeaderboardView.item_key LeaderboardView.listItem].
  rewrite <- map_app, firstn_skipn. reflexivity.
Qed.

Lemma thrown_none (A : Type) (l : list (E A)) :
  Forall (fun x => exists v, x = inr v) l -> thrown l = None.
Proof.
  induction 1 as [|x l (v & ->) _ IH]; [reflexivity|exact IH].
Qed.

Lemma accepted_string (isPrincipal : string -> bool) (a : json) :
  accepted isPrincipal a = true -> exists s, a = JStr s.
Proof.
  unfold accepted, principalCV. destruct a as [| | |s| |]; try discriminate.
  intros _. exists s. reflexivity.
Qed.

(** The rows of the leaderboard are those of identities that
    [principalCV] accepted: their addresses are strings. *)
Lemma leaderboard_rows_are_strings (W : Type)
    (respond : request -> W -> (exn + json) * W)
    (CONTRACT_ADDRESS CONTRACT_NAME : string)
    (isPrincipal : string -> bool) (cap : Z) (w : W) :
  Forall (fun row => exists s, address row = JStr s)
    (topUsersAfter
       (snd (Leaderboard.loadLeaderboardWith respond CONTRACT_ADDRESS CONTRACT_NAME
               isPrincipal cap w))).
Proof.
  destruct (loadLeaderboard_phases respond CONTRACT_ADDRESS CONTRACT_NAME
              isPrincipal cap w)
    as (n & indices & users & stats & cs2 & cs3
        & _ & _ & _ & _ & _ & _ & _ & Hsub & _ & ->).
  apply Forall_forall. intros row Hrow.
  apply (in_map address) in Hrow. unfold Leaderboard.rankUsers in Hrow.
  rewrite addresses_withRanks in Hrow.
  apply (Permutation_in _
           (Permutation_map stats_address
              (sort_perm Leaderboard.byPropsReceived stats)))
    in Hrow.
  apply (@subseq_In _ _ _ (address row) Hsub) in Hrow. apply filter_In in Hrow.
  apply (accepted_string isPrincipal), Hrow.
Qed.

(** The addresses of such rows are rendered without an exception. *)
Lemma board_is_rendered (rows : list LeaderboardUser) :
  Forall (fun row => exists s, address row = JStr s) rows ->
  thrown (map LeaderboardView.card_address
            (map LeaderboardView.podiumCard (firstn 3 rows))
          ++ map LeaderboardView.item_address
               (map LeaderboardView.listItem (skipn 3 rows)))
  = None.
Proof.
  intros Hrows. rewrite <- (firstn_skipn 3 rows) in Hrows.
  apply Forall_app in Hrows. destruct Hrows as [Hhead Htail].
  apply thrown_none. rewrite !map_map. apply Forall_app. split.
  - apply Forall_map. eapply Forall_impl; [|exact Hhead].
    intros row (s & Hs). cbn [LeaderboardView.card_address LeaderboardView.podiumCard].
    rewrite Hs. eexists. reflexivity.
  - apply Forall_map. eapply Forall_impl; [|exact Htail].
    intros row (s & Hs). cbn [LeaderboardView.item_address LeaderboardView.listItem].
    rewrite Hs. eexists. reflexivity.
Qed.

(** X16.  What the leaderboard page shows when its run has ended,
    whatever the endpoint answered: never the loading screen, and no
    exception; the "No props have been given yet" screen when the run
    produced no row; otherwise a board whose podium holds the first
    three rows (or all, if fewer) with the gold, silver and bronze
    medals in this order, and whose keys, podium first, are
    1, 2, 3, ... *)
Theorem leaderboard_view_after_load (W : Type)
    (respond : request -> W -> (exn + json) * W)
    (CONTRACT_ADDRESS CONTRACT_NAME : string)
    (isPrincipal : string -> bool) (cap : Z) (w : W)
    (wasLoading : bool) :
  let t :=
    snd (Leaderboard.loadLeaderboardWith respond CONTRACT_ADDRESS CONTRACT_NAME isPrincipal cap w) in
  let rows := topUsersAfter t in
  let view := LeaderboardView.render (isLoadingAfter wasLoading t) rows in
  (rows = []
   /\ view = inr (LeaderboardView.Empty "No props have been given yet. Be the first!"))
  \/ (rows <> []
      /\ exists podium rest,
           view = inr (LeaderboardView.Board podium rest)
           /\ List.length podium = Nat.min 3 (List.length rows)
           /\ map LeaderboardView.card_medal podium
              = firstn (List.length rows)
                  [LeaderboardView.Gold; LeaderboardView.Silver;
                   LeaderboardView.Bronze]
           /\ map LeaderboardView.card_key podium
              ++ map LeaderboardView.item_key rest
              = map (fun k => 1 + Z.of_nat k) (seq 0 (List.length rows))).
Proof.
  intros t rows view.
  assert (Hflag : isLoadingAfter wasLoading t = false).
  { unfold t.
    destruct (loadLeaderboard_trace respond CONTRACT_ADDRESS CONTRACT_NAME
                isPrincipal cap w) as (t0 & ->).
    apply isLoadingAfter_cleared. }
  assert (Hranks : map rank rows
                   = map (fun k => 1 + Z.of_nat k) (seq 0 (List.length rows))).
  { unfold rows, t.
    destruct (loadLeaderboard_phases respond CONTRACT_ADDRESS CONTRACT_NAME
                isPrincipal cap w)
      as (n & indices & users & stats & cs2 & cs3
          & _ & _ & _ & _ & _ & _ & _ & _ & _ & ->).
    unfold Leaderboard.rankUsers. rewrite length_withRanks.
    apply (ranks_withRanks _ 0). }
  pose proof (board_is_rendered
                (leaderboard_rows_are_strings respond CONTRACT_ADDRESS CONTRACT_NAME
                   isPrincipal cap w)) as Hrendered.
  fold t in Hrendered. fold rows in Hrendered.
  unfold view, LeaderboardView.render. rewrite Hflag.
  destruct rows as [|u rows'] eqn:Hrows.
  - left. split; reflexivity.
  - right. split; [discriminate|]. rewrite <- Hrows in *.
    replace (Nat.eqb (List.length rows) 0) with false
      by (rewrite Hrows; reflexivity).
    cbv zeta. rewrite Hrendered.
    do 2 eexists. split; [reflexivity|].
    splits.
    + rewrite length_map, length_firstn. reflexivity.
    + apply podium_medals. exact Hranks.
    + rewrite board_keys. exact Hranks.
Qed.











(** In this overlap the "given" tab is left with the seven rows of
    the "all" tab, four of them marked received. *)
Example overlapped_history_sample :
  let first :=
    {| run_respond := Sample.respond; run_tab := TabAll; run_user := Sample.alice;
       run_start := Sample.online Sample.twelve |} in
  let second :=
    {| run_respond := Sample.respond; run_tab := TabGiven; run_user := Sample.alice;
       run_start := Sample.online Sample.twelve |} in
  let t :=
    firstn 4 (historyTrace "SP0" "props" 50 first)
    ++ historyTrace "SP0" "props" 50 second
    ++ skipn 4 (historyTrace "SP0" "props" 50 first) in
  map (fun item => (id item, type item)) (historyItemsFrom [] t)
  = [(Int 8, given); (Int 6, received); (Int 4, received); (Int 3, received);
     (Int 2, given); (Int 1, received); (Int 0, given)].
Proof. vm_compute. reflexivity. Qed.

(** ** The short form of an address *)

Lemma string_app_assoc (a b c : string) :
  ((a ++ b) ++ c = a ++ (b ++ c))%string.
Proof. induction a as [|x a IH]; cbn; [reflexivity|]. rewrite IH. reflexivity. Qed.

Lemma string_length_app (a b : string) :
  String.length (a ++ b) = (String.length a + String.length b)%nat.
Proof. induction a as [|x a IH]; cbn; [reflexivity|]. rewrite IH. reflexivity. Qed.

Lemma substring_all (s : string) (i : nat) :
  substring 0 (String.length s + i) s = s.
Proof.
  induction s as [|x s IH]; cbn; [destruct i; reflexivity|].
  rewrite IH. reflexivity.
Qed.

Lemma substring_head (a b : string) :
  substring 0 (String.length a) (a ++ b) = a.
Proof.
  induction a as [|x a IH]; cbn; [destruct b; reflexivity|].
  rewrite IH. reflexivity.
Qed.

Lemma substring_tail (a b : string) :
  substring (String.length a) (String.length b) (a ++ b) = b.
Proof.
  induction a as [|x a IH]; cbn [String.length String.append].
  - rewrite <- (Nat.add_0_r (String.length b)). apply substring_all.
  - cbn [substring]. exact IH.
Qed.

(** X18.  The short form of an address, as the cards and rows of both
    pages show it: of a string that is a head, a middle and a tail that
    is not empty, it is the head, three dots and the tail, whatever the
    middle; of a string no longer than either cut, it is the string,
    three dots and the string again. *)
Theorem abbreviate_shape (head middle tail s : string) (i j : nat) :
  tail <> ""%string ->
  abbreviate (String.length head) (String.length tail) (head ++ middle ++ tail)
  = (head ++ "..." ++ tail)%string
  /\ abbreviate (String.length s + i) (String.length s + j) s
     = (s ++ "..." ++ s)%string.
Proof.
  intros Htail. unfold abbreviate, slice_from_end. split.
  - rewrite substring_head. do 2 f_equal.
    destruct (Nat.eqb_spec (String.length tail) 0) as [Hlen|_].
    { destruct tail; [congruence|discriminate Hlen]. }
    rewrite <- string_app_assoc, string_length_app.
    replace (String.length (head ++ middle) + String.length tail
             - String.length tail)%nat
      with (String.length (head ++ middle)) by lia.
    apply substring_tail.
  - rewrite substring_all. do 2 f_equal.
    destruct (Nat.eqb (String.length s + j) 0); [reflexivity|].
    replace (String.length s - (String.length s + j))%nat with 0%nat by lia.
    apply substring_all.
Qed.

Lemma abbreviate_shape_witness :
  abbreviate 8 6 "SP2J6ZY48GV1EZ5V2V5RB9MP66SW86PYKKNRV9EJ7"
  = "SP2J6ZY4...RV9EJ7"%string
  /\ abbreviate 8 6 "SP0" = "SP0...SP0"%string.
Proof.
  apply (@abbreviate_shape "SP2J6ZY4" "8GV1EZ5V2V5RB9MP66SW86PYKKN" "RV9EJ7"
           "SP0" 5 3).
  discriminate.
Defined.
